(** * Swift Prints: the STL analysis pipeline

    A shallow embedding of the analysis pipeline of the backend
    ([app/services/slicer]): the STL validator ([stl_validator.py]), the
    PrusaSlicer runner ([prusa_runner.py]) and the Celery worker task with its
    status view ([analysis_service.py]).

    Conventions of the embedding.
    - A Python [str] is a list of characters, one [ascii] per code point;
      code points above 255 are outside the model.
    - A Python [bytes] is a [list byte].
    - A Python [float] is a binary64 primitive float.
    - Code that can raise lives in the result type [res]; [try ... except]
      is [try_except].
    - Builtins whose full behaviour is not needed ([float] on a string,
      the text decoding of [open(..., "r")]) are section variables. *)

From Stdlib Require Import ZArith Floats List Lia Bool.
From Stdlib Require Import Strings.String Strings.Ascii Strings.Byte.
From stdpp Require Import base strings pretty gmap list.

Unset Default Proof Using.
Set Warnings "-inexact-float".
Local Open Scope Z_scope.

(* ===================================================================== *)
(** ** Python values and builtins                                          *)
(* ===================================================================== *)

Module Py.

(** [str]: a sequence of code points. *)
Definition str := list ascii.

Definition lit (s : string) : str := list_ascii_of_string s.
Coercion lit : string >-> str.

(** Exceptions: a class and the text [str(e)] gives back. Every class here
    is a subclass of [Exception]. *)
Inductive exn_class :=
| Exception | ValueError | IndexError | OSError | StructError
| TimeoutExpired | NameError | TypeError.

Record exn := mk_exn { exn_cls : exn_class; exn_msg : str }.

Inductive res (A : Type) :=
| Ret (a : A)
| Raise (e : exn).
Arguments Ret {A} a.
Arguments Raise {A} e.

Definition bind {A B} (m : res A) (k : A -> res B) : res B :=
  match m with
  | Ret a => k a
  | Raise e => Raise e
  end.

(** [try: body except Exception as e: handler e] *)
Definition try_except {A} (body : res A) (handler : exn -> res A) : res A :=
  match body with
  | Ret a => Ret a
  | Raise e => handler e
  end.

(** [try: body except cls...: handler e]: only the listed classes are caught. *)
Definition try_except_only {A} (catches : exn_class -> bool)
    (body : res A) (handler : exn -> res A) : res A :=
  match body with
  | Ret a => Ret a
  | Raise e => if catches (exn_cls e) then handler e else Raise e
  end.

Definition raise {A} (c : exn_class) (m : str) : res A := Raise (mk_exn c m).

Definition returns {A} (m : res A) : Prop := exists a, m = Ret a.

(** [str.isspace] on one character (code points below 256). *)
Definition isspace (c : ascii) : bool :=
  let n := N_of_ascii c in
  (((9 <=? n) && (n <=? 13)) || ((28 <=? n) && (n <=? 32))
   || (n =? 133) || (n =? 160))%N.

(** [str.lower] on one character (code points below 256). *)
Definition lower_char (c : ascii) : ascii :=
  let n := N_of_ascii c in
  if (((65 <=? n) && (n <=? 90))
      || ((192 <=? n) && (n <=? 222) && negb (n =? 215)))%N
  then ascii_of_N (n + 32) else c.

Definition lower (s : str) : str := map lower_char s.

Definition eqc (a b : ascii) : bool := Ascii.eqb a b.

(** [c in s] for a one-character string [c]. *)
Definition contains_char (c : ascii) (s : str) : bool := existsb (eqc c) s.

(** [s.replace(c, new)] for a one-character string [c]. *)
Definition replace_char (c : ascii) (new : str) (s : str) : str :=
  flat_map (fun x => if eqc x c then new else [x]) s.

(** [s.split()]: maximal runs of non-whitespace characters. [cur] is the
    run being read, most recent character first. *)
Fixpoint split_ws_from (cur : str) (s : str) : list str :=
  match s with
  | [] => match cur with [] => [] | _ => [rev cur] end
  | c :: s' =>
      if isspace c
      then match cur with
           | [] => split_ws_from [] s'
           | _ => rev cur :: split_ws_from [] s'
           end
      else split_ws_from (c :: cur) s'
  end.

Definition split_ws (s : str) : list str := split_ws_from [] s.

(** [s.split(c)] for a one-character separator: always at least one piece. *)
Fixpoint split_on (c : ascii) (s : str) : list str :=
  match s with
  | [] => [[]]
  | x :: s' =>
      if eqc x c then [] :: split_on c s'
      else match split_on c s' with
           | [] => [[x]]
           | p :: ps => (x :: p) :: ps
           end
  end.

Fixpoint drop_while (f : ascii -> bool) (s : str) : str :=
  match s with
  | [] => []
  | c :: s' => if f c then drop_while f s' else s
  end.

Definition lstrip (s : str) : str := drop_while isspace s.
Definition rstrip (s : str) : str := rev (drop_while isspace (rev s)).
(** [s.strip()] *)
Definition strip (s : str) : str := rstrip (lstrip s).

(** No whitespace in [w]: [w.split()] leaves it whole. *)
Definition nonblank (w : str) : bool := forallb (fun c => negb (isspace c)) w.

(** [s.startswith(p)] *)
Fixpoint startswith (p s : str) : bool :=
  match p, s with
  | [], _ => true
  | a :: p', b :: s' => eqc a b && startswith p' s'
  | _ :: _, [] => false
  end.

Definition str_eqb (a b : str) : bool :=
  bool_decide (a = b).

(** [sep.join(l)] *)
Fixpoint join (sep : str) (l : list str) : str :=
  match l with
  | [] => []
  | [x] => x
  | x :: l' => x ++ sep ++ join sep l'
  end.

(** An f-string: the concatenation of its literal and formatted pieces. *)
Definition fmt (pieces : list str) : str := concat pieces.

(** [str(n)] for an int. *)
Definition str_of_Z (n : Z) : str :=
  lit (pretty n).

End Py.
Import Py.

#[global] Instance res_ret : MRet res := fun A a => Ret a.
#[global] Instance res_bind : MBind res := fun A B k m => bind m k.

(* ===================================================================== *)
(** ** prusa_runner.py: the duration parser                                *)
(* ===================================================================== *)

Module TimeParser.
Section WithFloat.

(** The builtin [float(s)] on a string: [Some v] when [s] is a float
    literal, [None] when Python raises [ValueError]. *)
Variable pyfloat : str -> option float.

Definition py_float (s : str) : res float :=
  match pyfloat s with
  | Some v => Ret v
  | None => raise ValueError ("could not convert string to float" : string)
  end.

(** The three accumulators of [_parse_time_string]. *)
Record hms := mk_hms { hours : float; minutes : float; seconds : float }.

(** One iteration of [for part in parts]. *)
Definition parse_part (acc : hms) (part : str) : res hms :=
  if contains_char "h" part then
    v ← py_float (replace_char "h" [] part);
    Ret (mk_hms v (minutes acc) (seconds acc))
  else if contains_char "m" part then
    v ← py_float (replace_char "m" [] part);
    Ret (mk_hms (hours acc) v (seconds acc))
  else if contains_char "s" part then
    v ← py_float (replace_char "s" [] part);
    Ret (mk_hms (hours acc) (minutes acc) v)
  else Ret acc.

Fixpoint parse_parts (acc : hms) (parts : list str) : res hms :=
  match parts with
  | [] => Ret acc
  | p :: ps => acc' ← parse_part acc p; parse_parts acc' ps
  end.

Definition to_hours (a : hms) : float :=
  (hours a + (minutes a / 60) + (seconds a / 3600))%float.

(** [PrusaSlicerRunner._parse_time_string] *)
Definition _parse_time_string (time_str : str) : res float :=
  try_except
    (let parts := split_ws (replace_char "," [] (lower time_str)) in
     a ← parse_parts (mk_hms 0 0 0) parts;
     Ret (to_hours a))
    (fun _ => Ret 1%float).

(** *** Duration strings made of unit tokens *)

Inductive unit_letter := UH | UM | US.

#[global] Instance unit_letter_eq_dec : EqDecision unit_letter.
Proof. solve_decision. Defined.

Definition letter (u : unit_letter) : ascii :=
  match u with UH => "h" | UM => "m" | US => "s" end%char.

Definition unit_eqb (a b : unit_letter) : bool :=
  match a, b with
  | UH, UH | UM, UM | US, US => true
  | _, _ => false
  end.

(** A token [<number>h], [<number>m] or [<number>s]: the text of the number
    and the unit. *)
Definition token : Type := str * unit_letter.

Definition render_token (t : token) : str := t.1 ++ [letter t.2].

(** The duration string: the tokens separated by one blank. *)
Definition render (toks : list token) : str :=
  join " " (map render_token toks).

(** A character of a number: neither blank, comma, upper case nor one of
    the unit letters. *)
Definition numeral_char (c : ascii) : bool :=
  negb (isspace c) && negb (eqc c ",") && eqc (lower_char c) c
  && negb (eqc c "h") && negb (eqc c "m") && negb (eqc c "s").

Definition numeral (n : str) : Prop :=
  forallb numeral_char n = true /\ is_Some (pyfloat n).

(** The value a unit contributes: that of its token, zero when absent. *)
Definition amount (u : unit_letter) (toks : list token) : float :=
  match find (fun t => unit_eqb t.2 u) toks with
  | Some t => default 0%float (pyfloat t.1)
  | None => 0%float
  end.

(** Assigning to the accumulator of a unit, and reading it. *)
Definition set_unit (u : unit_letter) (v : float) (a : hms) : hms :=
  match u with
  | UH => mk_hms v (minutes a) (seconds a)
  | UM => mk_hms (hours a) v (seconds a)
  | US => mk_hms (hours a) (minutes a) v
  end.

Definition get_unit (u : unit_letter) (a : hms) : float :=
  match u with UH => hours a | UM => minutes a | US => seconds a end.

(** Value stored by a token, and the store itself. *)
Definition token_value (t : token) : float := default 0%float (pyfloat t.1).

Definition store (a : hms) (t : token) : hms :=
  set_unit t.2 (token_value t) a.

Definition fractional_hours (toks : list token) : float :=
  (amount UH toks + (amount UM toks / 60) + (amount US toks / 3600))%float.

(** No unit letter in any blank-separated part: no token is recognised. *)
Definition no_unit_letter (time_str : str) : Prop :=
  Forall (fun part => contains_char "h" part = false
                      /\ contains_char "m" part = false
                      /\ contains_char "s" part = false)
         (split_ws (replace_char "," [] (lower time_str))).

(** Some part carries a unit letter but what is left of it is no number. *)
Definition bad_part (part : str) : Prop :=
  (contains_char "h" part = true
     /\ pyfloat (replace_char "h" [] part) = None)
  \/ (contains_char "h" part = false /\ contains_char "m" part = true
     /\ pyfloat (replace_char "m" [] part) = None)
  \/ (contains_char "h" part = false /\ contains_char "m" part = false
     /\ contains_char "s" part = true
     /\ pyfloat (replace_char "s" [] part) = None).

Definition has_bad_part (time_str : str) : Prop :=
  Exists bad_part (split_ws (replace_char "," [] (lower time_str))).

End WithFloat.

(** A fragment of [float(s)], enough to run the parser on examples:
    unsigned decimal integers below 2^53, which binary64 holds exactly. *)
Fixpoint digits_value (acc : Z) (s : str) : option Z :=
  match s with
  | [] => Some acc
  | c :: s' =>
      let n := Z.of_N (N_of_ascii c) in
      if (48 <=? n) && (n <=? 57) then digits_value (10 * acc + (n - 48)) s'
      else None
  end.

Definition float_of_digits (s : str) : option float :=
  match s with
  | [] => None
  | _ => match digits_value 0 s with
         | Some z => if z <? 2 ^ 53 then Some (of_uint63 (Uint63.of_Z z)) else None
         | None => None
         end
  end.

End TimeParser.

(* ===================================================================== *)
(** ** prusa_runner.py: running the slicer                                 *)
(* ===================================================================== *)

Module Runner.

(** [PrintMetrics] of [app/schemas/analysis.py]. *)
Record PrintMetrics := mk_metrics {
  filament_grams : float;
  print_time_hours : float;
  volume_mm3 : float;
  complexity_score : float;
  supports_required : bool
}.

(** What the child of [subprocess.run] does: it cannot be started, or it
    runs for some seconds and exits with a code and a diagnostic text,
    having written the output file or not. *)
Inductive child :=
| SpawnFails (reason : str)
| Runs (seconds : Z) (returncode : Z) (stderr : str) (writes_output : bool).

(** What happens to child processes, in order. *)
Inductive event :=
| Spawn
| Kill
| Exit (code : Z).

#[global] Instance event_eq_dec : EqDecision event.
Proof. solve_decision. Defined.

(** [subprocess.run(cmd, capture_output=True, text=True, timeout=t)]: the
    child is started and waited for; when it is still running after [t]
    seconds it is killed and [TimeoutExpired] is raised. *)
Definition subprocess_run (timeout : Z) (c : child) : res (Z * str) * list event :=
  match c with
  | SpawnFails reason => (raise OSError reason, [])
  | Runs seconds returncode stderr _ =>
      if timeout <? seconds
      then (raise TimeoutExpired ("Command timed out" : string), [Spawn; Kill])
      else (Ret (returncode, stderr), [Spawn; Exit returncode])
  end.

(** [output_file.exists()] after the run, in the fresh temporary directory. *)
Definition output_exists (c : child) : bool :=
  match c with
  | SpawnFails _ => false
  | Runs _ _ _ writes_output => writes_output
  end.

(** [try: body except cls: h1 except Exception as e: h2]: the first
    matching clause handles; what a handler raises is not caught again. *)
Definition try_except2 {A} (body : res A) (catches : exn_class -> bool)
    (h1 h2 : exn -> res A) : res A :=
  match body with
  | Ret a => Ret a
  | Raise e => if catches (exn_cls e) then h1 e else h2 e
  end.

Definition is_TimeoutExpired (c : exn_class) : bool :=
  match c with TimeoutExpired => true | _ => false end.

(** [PrusaSlicerRunner._run_slicer]: the path of the G-code, and the
    process events. *)
Definition _run_slicer (temp_path : str) (c : child) : res str * list event :=
  let output_file := fmt [temp_path; "/output.gcode" : str] in
  let '(ran, log) := subprocess_run 300 c in
  (try_except2
     (result ← ran;
      if negb (result.1 =? 0) then
        raise Exception (fmt ["PrusaSlicer failed: " : str; result.2])
      else if negb (output_exists c) then
        raise Exception ("PrusaSlicer did not generate output file" : string)
      else Ret output_file)
     is_TimeoutExpired
     (fun _ => raise Exception ("PrusaSlicer analysis timed out" : string))
     (fun e => raise Exception (fmt ["Docker execution failed: " : str; exn_msg e])),
   log).

(** [PrusaSlicerRunner.analyze_stl]. [prepare] is the outcome of copying
    the model and writing the configuration into the temporary directory;
    [parsed] is what the two parsing passes, which never raise, give for
    the G-code. *)
Definition analyze_stl (temp_path : str) (prepare : res unit) (c : child)
    (parsed : PrintMetrics) : res PrintMetrics * list event :=
  match prepare with
  | Raise e => (raise Exception (fmt ["Slicer analysis error: " : str; exn_msg e]), [])
  | Ret _ =>
      let '(sliced, log) := _run_slicer temp_path c in
      (try_except
         (gcode_file ← sliced; Ret parsed)
         (fun e => raise Exception (fmt ["Slicer analysis error: " : str; exn_msg e])),
       log)
  end.


End Runner.

(* ===================================================================== *)
(** ** analysis_service.py: the worker task and the status view            *)
(* ===================================================================== *)

Module Worker.
Import Runner.

(** The state Celery keeps for a task in the result backend. With
    [task_track_started] a task picked up by a worker is [STARTED]. *)
Inductive celery_state :=
| PENDING
| STARTED (info : str)
| PROGRESS (progress : Z) (message : str)
| SUCCESS (result : str)
| FAILURE (info : str).

(** [AnalysisStatus] of [app/schemas/analysis.py]. *)
Record AnalysisStatus := mk_status {
  status_job_id : str;
  status : str;
  progress : Z;
  message : str;
  result_id : option str;
  error : option str
}.

(** [AnalysisService.get_analysis_status]: [celery_app.AsyncResult(job_id)]
    reads the backend under the key [job_id]; an unknown key is [PENDING]. *)
Definition get_analysis_status (backend : gmap (list ascii) celery_state)
    (job_id : str) : AnalysisStatus :=
  match default PENDING (backend !! job_id) with
  | PENDING => mk_status job_id "pending" 0 "Analysis queued" None None
  | PROGRESS p m => mk_status job_id "processing" p m None None
  | SUCCESS r =>
      mk_status job_id "completed" 100 "Analysis completed" (Some r) None
  | STARTED info | FAILURE info =>
      mk_status job_id "failed" 0 info None (Some info)
  end.

(** The calls into the infrastructure that can raise.  [NewResult] is the
    constructor call [AnalysisResult(id=..., ..., analyzed_at=...)]: the
    base class of the model, [app/models/base.py], is not among the
    sources, so whether it accepts these keywords is the world's to say.
    [Remove p] is the removal of the path [p] by [shutil.rmtree], and
    [WorkspaceExists] the [workspace.exists()] of the error path. *)
Inductive call :=
| UpdateState (progress : Z)
| GetDb
| QueryFile
| ServiceInit
| PathExists
| MakeWorkspace
| ReadStl
| WriteStl
| NewResult
| DbAdd
| DbCommit
| Remove (path : str)
| WorkspaceExists
| DbClose.

(** Everything outside the task: which infrastructure call raises what,
    the file row and the file, what the validator and the slicer do. *)
Record world := mk_world {
  faults : call -> option exn;
  file_record : option str;          (* [storage_path] of the [File] row *)
  file_on_disk : bool;
  verdict : res (bool * option str); (* [validator.validate_file(file_path)] *)
  slicer_tmp : str;                  (* the slicer's own temporary directory *)
  slicer_prepare : res unit;
  engine : child;
  parsed : PrintMetrics;
  result_uuid : str;
  worker_info : str;
  tmp : str                          (* [tempfile.gettempdir()] *)
}.

(** The file system (paths of the files and directories that exist), the
    result backend, the states this task has written to it so far (oldest
    first), the process events, the saved results, and which of the locals
    [service] and [db] are bound. *)
Record st := mk_st {
  fs : gset (list ascii);
  backend : gmap (list ascii) celery_state;
  history : list celery_state;
  procs : list event;
  saved : list (str * PrintMetrics);
  service_bound : bool;
  db_bound : bool
}.

(** The state a task starts in. *)
Definition init_st (paths : gset (list ascii))
    (b : gmap (list ascii) celery_state) : st :=
  mk_st paths b [] [] [] false false.

Definition with_fs (f : gset (list ascii) -> gset (list ascii)) (s : st) : st :=
  mk_st (f (fs s)) (backend s) (history s) (procs s) (saved s)
        (service_bound s) (db_bound s).

(** Storing the state [x] of task [key]. *)
Definition with_backend (key : str) (x : celery_state) (s : st) : st :=
  mk_st (fs s) (<[key := x]> (backend s)) (history s ++ [x]) (procs s) (saved s)
        (service_bound s) (db_bound s).

Definition with_procs (log : list event) (s : st) : st :=
  mk_st (fs s) (backend s) (history s) (procs s ++ log) (saved s)
        (service_bound s) (db_bound s).

Definition with_saved (row : str * PrintMetrics) (s : st) : st :=
  mk_st (fs s) (backend s) (history s) (procs s) (saved s ++ [row])
        (service_bound s) (db_bound s).

Definition bind_service (s : st) : st :=
  mk_st (fs s) (backend s) (history s) (procs s) (saved s) true (db_bound s).

Definition bind_db (s : st) : st :=
  mk_st (fs s) (backend s) (history s) (procs s) (saved s) (service_bound s) true.

(** Code that reads and writes the state and can raise; the effects made
    before a raise stay. *)
Definition T (A : Type) : Type := st -> res A * st.

Definition retT {A} (a : A) : T A := fun s => (Ret a, s).

Definition bindT {A B} (m : T A) (k : A -> T B) : T B :=
  fun s => match m s with
           | (Ret a, s') => k a s'
           | (Raise e, s') => (Raise e, s')
           end.

Definition raiseT {A} (c : exn_class) (m : str) : T A :=
  fun s => (Raise (mk_exn c m), s).

Definition modify (f : st -> st) : T unit := fun s => (Ret tt, f s).

(** A computation that does not touch the state. *)
Definition liftT {A} (r : res A) : T A := fun s => (r, s).

(** [try: body except Exception as e: handler e] *)
Definition try_exceptT {A} (body : T A) (handler : exn -> T A) : T A :=
  fun s => match body s with
           | (Ret a, s') => (Ret a, s')
           | (Raise e, s') => handler e s'
           end.

(** [try: body finally: final]: [final] always runs; what it raises
    replaces the outcome of [body]. *)
Definition try_finallyT {A} (body : T A) (final : T unit) : T A :=
  fun s => match body s with
           | (r, s') => match final s' with
                        | (Ret _, s'') => (r, s'')
                        | (Raise e, s'') => (Raise e, s'')
                        end
           end.

(** [wp m Q E s]: run from [s], [m] ends in a state satisfying [Q] when it
    returns and [E] when it raises. *)
Definition wp {A} (m : T A) (Q : A -> st -> Prop) (E : exn -> st -> Prop)
    (s : st) : Prop :=
  match m s with
  | (Ret a, s') => Q a s'
  | (Raise e, s') => E e s'
  end.

#[global] Instance T_ret : MRet T := fun A a => retT a.
#[global] Instance T_bind : MBind T := fun A B k m => bindT m k.

(** [a / b] on paths, for a plain name [b]. *)
Definition path_join (a b : str) : str := a ++ "/"%char :: b.

(** [p] is [dir] or lies below it. *)
Definition is_under (dir p : str) : bool :=
  bool_decide (p = dir) || startswith (dir ++ ["/"%char]) p.

(** A path of a tree being removed stays when its removal is refused, or
    when something at or below it stays: a directory that is not empty
    cannot be removed. *)
Definition kept (refuses : str -> bool) (paths : gset (list ascii)) (p : str) : bool :=
  existsb (fun q => is_under p q && refuses q) (elements paths).

(** [shutil.rmtree(dir, ignore_errors=True)]: every path at or below [dir]
    is removed, from the leaves up; a removal that fails is passed over
    without an error, and what could not be removed is left behind. *)
Definition rmtree (refuses : str -> bool) (dir : str) (paths : gset (list ascii))
    : gset (list ascii) :=
  filter (fun p => is_under dir p = false \/ kept refuses paths p = true) paths.

(** [str(x)] for an [Optional[str]]. *)
Definition str_of_optional (o : option str) : str := default ("None" : str) o.

Section Task.

Variable w : world.
(** [self.request.id], and the arguments of the task. *)
Variables task_id job_id file_id : str.

Definition call_ (c : call) : T unit :=
  fun s => match faults w c with
           | Some e => (Raise e, s)
           | None => (Ret tt, s)
           end.

(** Writing the state of this task to the backend. *)
Definition commit (x : celery_state) : T unit :=
  modify (with_backend task_id x).

(** [self.update_state(state="PROGRESS", meta={...})] *)
Definition update_state (p : Z) (msg : str) : T unit :=
  call_ (UpdateState p);; commit (PROGRESS p msg).

(** [AnalysisService.temp_dir] and the workspace of the job. *)
Definition temp_dir : str := path_join (tmp w) "stl_analysis".
Definition workspace : str := path_join temp_dir job_id.

(** [AnalysisService.__init__]: [self.temp_dir.mkdir(exist_ok=True)]. *)
Definition service_init : T unit :=
  call_ ServiceInit;;
  modify (with_fs (fun paths => {[ temp_dir ]} ∪ paths));;
  modify bind_service.

(** The removals the file system refuses. *)
Definition refuses (p : str) : bool := bool_decide (is_Some (faults w (Remove p))).

(** [AnalysisService._validate_stl_file] *)
Definition _validate_stl_file : res (bool * option str) :=
  try_except (verdict w)
    (fun e => Ret (false, Some (fmt ["Validation error: " : str; exn_msg e]))).

(** [AnalysisService._prepare_analysis_workspace] *)
Definition _prepare_analysis_workspace : T str :=
  call_ MakeWorkspace;;
  modify (with_fs (fun paths => {[ workspace ]} ∪ paths));;
  call_ ReadStl;;
  modify (with_fs (fun paths => {[ path_join workspace "input.stl" ]} ∪ paths));;
  call_ WriteStl;;
  retT workspace.

(** [service.slicer.analyze_stl(stl_file, settings_dict)] *)
Definition run_slicer : T PrintMetrics :=
  fun s =>
    let '(r, log) := analyze_stl (slicer_tmp w) (slicer_prepare w) (engine w) (parsed w) in
    (r, with_procs log s).

(** The [try] block of [analyze_stl_task]. *)
Definition task_body : T str :=
  update_state 10 "Initializing analysis...";;
  call_ GetDb;;
  modify bind_db;;
  call_ QueryFile;;
  file_path ← match file_record w with
              | None => raiseT Exception (fmt ["File " : str; file_id; " not found" : str])
              | Some path => retT path
              end;
  service_init;;
  update_state 20 "Validating STL file...";;
  call_ PathExists;;
  (if file_on_disk w then retT tt
   else raiseT Exception (fmt ["File not found at " : str; file_path]));;
  '(is_valid, error_msg) ← liftT _validate_stl_file;
  (if is_valid : bool then retT tt
   else raiseT Exception (fmt ["Invalid STL file: " : str; str_of_optional error_msg]));;
  update_state 30 "Preparing analysis workspace...";;
  ws ← _prepare_analysis_workspace;
  update_state 50 "Running PrusaSlicer analysis...";;
  analysis_result ← run_slicer;
  update_state 80 "Saving analysis results...";;
  call_ NewResult;;
  call_ DbAdd;;
  call_ DbCommit;;
  modify (with_saved (result_uuid w, analysis_result));;
  modify (with_fs (rmtree refuses ws));;
  update_state 100 "Analysis completed";;
  retT (result_uuid w).

(** Reading the local [service] in [service.temp_dir / job_id]: a
    [NameError] while it is unbound. *)
Definition service_local : T unit :=
  fun s =>
    if service_bound s then (Ret tt, s)
    else (raise NameError ("local variable 'service' referenced before assignment" : string),
          s).

(** [shutil.rmtree(workspace, ignore_errors=True)] under
    [if workspace.exists()]. *)
Definition rmtree_existing : T unit :=
  fun s =>
    if bool_decide (workspace ∈ fs s)
    then (Ret tt, with_fs (rmtree refuses workspace) s)
    else (Ret tt, s).

Definition remove_if_exists : T unit :=
  call_ WorkspaceExists;; rmtree_existing.

(** The cleanup of the [except] block, in its own [try: ... except: pass]:
    whatever it raises, the [NameError] of an unbound [service] or the
    error of [exists()], is swallowed. *)
Definition cleanup : T unit :=
  try_exceptT (service_local;; remove_if_exists) (fun _ => retT tt).

(** The [finally] block: [db.close()]. *)
Definition close_db : T unit :=
  fun s =>
    if db_bound s then call_ DbClose s
    else (raise NameError ("local variable 'db' referenced before assignment" : string), s).

(** [analyze_stl_task] *)
Definition analyze_stl_task : T str :=
  try_finallyT
    (try_exceptT task_body
       (fun e => cleanup;;
                 raiseT Exception (fmt ["Analysis failed: " : str; exn_msg e])))
    close_db.

(** A worker runs the task: the state is [STARTED], then the task runs, then
    its result or its exception is stored. *)
Definition run_task (s : st) : st :=
  let s1 := with_backend task_id (STARTED (worker_info w)) s in
  match analyze_stl_task s1 with
  | (Ret r, s2) => with_backend task_id (SUCCESS r) s2
  | (Raise e, s2) => with_backend task_id (FAILURE (exn_msg e)) s2
  end.

(** The backend after each of the given writes of the task, oldest first. *)
Fixpoint replay (b : gmap (list ascii) celery_state) (writes : list celery_state)
    : list (gmap (list ascii) celery_state) :=
  match writes with
  | [] => []
  | x :: writes' => <[task_id := x]> b :: replay (<[task_id := x]> b) writes'
  end.

(** The backends a status query can meet while the task runs from the
    file system [paths] and the backend [b], oldest first: the one before a
    worker picks the task up, then the one after each write. *)
Definition snapshots (paths : gset (list ascii))
    (b : gmap (list ascii) celery_state) : list (gmap (list ascii) celery_state) :=
  b :: replay b (history (run_task (init_st paths b))).

End Task.

(** Nothing of the workspace [ws] exists. *)
Definition clean (ws : str) (paths : gset (list ascii)) : Prop :=
  forall p, p ∈ paths -> is_under ws p = false.

(** [COMPLETED] or [FAILED]. *)
Definition terminal (x : celery_state) : Prop :=
  match x with
  | SUCCESS _ | FAILURE _ => True
  | _ => False
  end.

Definition is_failure (x : celery_state) : bool :=
  match x with FAILURE _ => true | _ => false end.

(** The progress a status query reports for a state. *)
Definition state_progress (x : celery_state) : Z :=
  match x with
  | PROGRESS p _ => p
  | SUCCESS _ => 100
  | _ => 0
  end.

(** Every state but a [FAILURE] reports at least [hi] and at least what
    the states before it report. *)
Fixpoint mono_from (hi : Z) (l : list celery_state) : bool :=
  match l with
  | [] => true
  | x :: l' =>
      if is_failure x then mono_from hi l'
      else (hi <=? state_progress x) && mono_from (state_progress x) l'
  end.

Definition mono_states (l : list celery_state) : Prop :=
  forall i j xi xj, (i <= j)%nat -> l !! i = Some xi -> l !! j = Some xj ->
    is_failure xj = false -> state_progress xi <= state_progress xj.

(** The error of a job whose slicer timed out. *)
Definition timeout_failure : str :=
  fmt ["Analysis failed: " : str;
       fmt ["Slicer analysis error: " : str; "PrusaSlicer analysis timed out" : str]].

(** Nothing between the task and the slicer fails. *)
Definition reaches_slicer (w : world) : Prop :=
  (forall c, faults w c = None)
  /\ (exists path, file_record w = Some path)
  /\ file_on_disk w = true
  /\ (exists o, verdict w = Ret (true, o))
  /\ slicer_prepare w = Ret tt.

(** Nothing between the task and the saving of the result fails, the
    constructor of the result row apart. *)
Definition reaches_saving (w : world) : Prop :=
  (forall c, c <> NewResult -> faults w c = None)
  /\ (exists path, file_record w = Some path)
  /\ file_on_disk w = true
  /\ (exists o, verdict w = Ret (true, o))
  /\ slicer_prepare w = Ret tt.

(** A world without infrastructure faults in which the validator rejects
    the stored file. *)
Definition rejecting_world : world :=
  mk_world (fun _ => None) (Some ("/data/cube.stl" : str)) true
    (Ret (false, Some ("STL file contains no triangles" : str)))
    "/tmp/tmpx" (Ret tt) (Runs 10 0 [] true)
    (mk_metrics 0 0 0 1 false) "r-1" "worker-1" "/tmp".

(** A world without faults in which the file is valid and the slicer runs
    for [seconds]. *)
Definition slicing_world (seconds : Z) : world :=
  mk_world (fun _ => None) (Some ("/data/cube.stl" : str)) true
    (Ret (true, None))
    "/tmp/tmpx" (Ret tt) (Runs seconds 0 [] true)
    (mk_metrics 0 0 0 1 false) "r-1" "worker-1" "/tmp".

End Worker.

(* ===================================================================== *)
(** ** stl_validator.py                                                    *)
(* ===================================================================== *)

Module Validator.

(** The pair [(is_valid, error_message)]. *)
Definition verdict : Type := bool * option str.

(** The places where the validator touches the file system; each can raise. *)
Inductive io_call :=
| IoExists
| IoStat
| IoOpenFormat
| IoReadHeader
| IoOpenText
| IoReadText
| IoOpenBinary
| IoReadBinary (k : nat)
| IoStatBinary.

(** The file at [file_path]: whether it exists, its bytes, the suffix of
    its name, and which accesses raise what. *)
Record stl_file := mk_file {
  f_exists : bool;
  f_data : list byte;
  f_suffix : str;
  f_fault : io_call -> option exn
}.

(** A file opened for reading: its bytes and the position of the next read. *)
Record handle := mk_handle { h_data : list byte; h_pos : nat }.

(** [f.read(n)]: at most [n] bytes, fewer at the end of the file. *)
Definition fread (n : nat) (h : handle) : list byte * handle :=
  let got := take n (drop (h_pos h) (h_data h)) in
  (got, mk_handle (h_data h) (h_pos h + length got)).

(** [b[lo:hi]] *)
Definition slice {A} (lo hi : nat) (l : list A) : list A :=
  take (hi - lo) (drop lo l).

(** [header.startswith(prefix)] on bytes. *)
Fixpoint bytes_startswith (prefix bs : list byte) : bool :=
  match prefix, bs with
  | [], _ => true
  | a :: prefix', b :: bs' => Byte.eqb a b && bytes_startswith prefix' bs'
  | _ :: _, [] => false
  end.

(** [b"solid"] *)
Definition solid_bytes : list byte := [x73; x6f; x6c; x69; x64].

(** Little-endian unsigned value of some bytes. *)
Fixpoint le_value (bs : list byte) : Z :=
  match bs with
  | [] => 0
  | b :: bs' => Z.of_N (Byte.to_N b) + 256 * le_value bs'
  end.

(** The binary32 number with the given bits, as the binary64 value
    [struct.unpack] gives. *)
Definition f32_of_bits (bits : Z) : float :=
  let negative := Z.testbit bits 31 in
  let e := Z.land (Z.shiftr bits 23) 255 in
  let m := Z.land bits 8388607 in
  let magnitude :=
    if e =? 255 then (if m =? 0 then infinity else nan)
    else if e =? 0 then Z.ldexp (of_uint63 (Uint63.of_Z m)) (-149)
    else Z.ldexp (of_uint63 (Uint63.of_Z (8388608 + m))) (e - 150) in
  if negative then (- magnitude)%float else magnitude.

(** [struct.unpack("<3f", bs)]: [struct.error] unless [bs] has 12 bytes. *)
Definition unpack_3f (bs : list byte) : res (list float) :=
  if (length bs =? 12)%nat then
    Ret [f32_of_bits (le_value (slice 0 4 bs));
         f32_of_bits (le_value (slice 4 8 bs));
         f32_of_bits (le_value (slice 8 12 bs))]
  else raise StructError ("unpack requires a buffer of 12 bytes" : string).

(** [abs(coord) > 10000] *)
Definition too_large (coord : float) : bool := (10000 <? abs coord)%float.

(** [l[i]] for [i >= 0]: [IndexError] out of range. *)
Definition item {A} (l : list A) (i : nat) : res A :=
  match l !! i with
  | Some x => Ret x
  | None => raise IndexError ("list index out of range" : string)
  end.

(** [l[-1]] *)
Definition last_item {A} (l : list A) : res A :=
  match last l with
  | Some x => Ret x
  | None => raise IndexError ("list index out of range" : string)
  end.

Definition is_StructError (c : exn_class) : bool :=
  match c with StructError => true | _ => false end.

Definition is_ValueError_or_IndexError (c : exn_class) : bool :=
  match c with ValueError | IndexError => true | _ => false end.

(** What the [while] loop of [_validate_ascii_stl] ends with: an early
    [return], or the triangle count. *)
Inductive scan_result :=
| Returned (v : verdict)
| Counted (triangle_count : Z)
| OutOfFuel.

(** A verdict is an acceptance [(True, None)] or a rejection
    [(False, message)]. *)
Definition rejection (v : verdict) : Prop := exists m, v = (false, Some m).
Definition proper (v : verdict) : Prop := v = (true, None) \/ rejection v.

Definition MAX_FILE_SIZE : Z := 50 * 1024 * 1024.
Definition MIN_FILE_SIZE : Z := 84.

Section WithBuiltins.

(** [float(s)]; the text a file opened with
    [open(path, "r", encoding="utf-8", errors="ignore")] reads as; and
    [str(x)] for a float. *)
Variable pyfloat : str -> option float.
Variable decode : list byte -> str.
Variable repr_float : float -> str.

Variable file : stl_file.

Definition io (c : io_call) : res unit :=
  match f_fault file c with
  | Some e => Raise e
  | None => Ret tt
  end.

Definition py_float (s : str) : res float :=
  match pyfloat s with
  | Some v => Ret v
  | None => raise ValueError ("could not convert string to float" : string)
  end.

(** [file_path.stat().st_size] *)
Definition st_size : Z := Z.of_nat (length (f_data file)).

(** The body of [for i in range(min(10, triangle_count))], for the
    indices [indices] in turn: [Some] is an early [return]. *)
Fixpoint check_triangles (indices : list nat) (f : handle) : res (option verdict) :=
  match indices with
  | [] => Ret None
  | i :: rest =>
      io (IoReadBinary (2 + i));;
      let '(triangle_data, f') := fread 50 f in
      if negb (length triangle_data =? 50)%nat then
        Ret (Some (false, Some (fmt ["Invalid triangle data at triangle " : str;
                                     str_of_Z (Z.of_nat i)])))
      else
        r ← try_except_only is_StructError
              (normal ← unpack_3f (slice 0 12 triangle_data);
               vertex1 ← unpack_3f (slice 12 24 triangle_data);
               vertex2 ← unpack_3f (slice 24 36 triangle_data);
               vertex3 ← unpack_3f (slice 36 48 triangle_data);
               match find too_large (normal ++ vertex1 ++ vertex2 ++ vertex3) with
               | Some coord =>
                   Ret (Some (false, Some (fmt ["Invalid coordinate value: " : str;
                                                repr_float coord])))
               | None => Ret None
               end)
              (fun _ => Ret (Some (false, Some (fmt ["Failed to parse triangle " : str;
                                                     str_of_Z (Z.of_nat i)]))));
        match r with
        | Some v => Ret (Some v)
        | None => check_triangles rest f'
        end
  end.

(** [STLValidator._validate_binary_stl] *)
Definition _validate_binary_stl : res verdict :=
  try_except
    (io IoOpenBinary;;
     let f := mk_handle (f_data file) 0 in
     io (IoReadBinary 0);;
     let '(_, f) := fread 80 f in
     io (IoReadBinary 1);;
     let '(triangle_count_bytes, f) := fread 4 f in
     if negb (length triangle_count_bytes =? 4)%nat then
       Ret (false, Some ("Invalid binary STL: missing triangle count" : str))
     else
       let triangle_count := le_value triangle_count_bytes in
       if triangle_count =? 0 then
         Ret (false, Some ("STL file contains no triangles" : str))
       else if 1000000 <? triangle_count then
         Ret (false, Some (fmt ["STL file too complex: " : str; str_of_Z triangle_count;
                                " triangles (max 1,000,000)" : str]))
       else
         let expected_size := 80 + 4 + triangle_count * 50 in
         io IoStatBinary;;
         let actual_size := st_size in
         if negb (actual_size =? expected_size) then
           Ret (false, Some (fmt ["Invalid binary STL: size mismatch (expected " : str;
                                  str_of_Z expected_size; ", got " : str;
                                  str_of_Z actual_size; ")" : str]))
         else
           r ← check_triangles (seq 0 (Z.to_nat (Z.min 10 triangle_count))) f;
           match r with
           | Some v => Ret v
           | None => Ret (true, None)
           end)
    (fun e => Ret (false, Some (fmt ["Binary STL validation error: " : str; exn_msg e]))).

(** The checks of one vertex line, [lines[i + 2 + j]]: [Some] is an early
    [return]. *)
Definition check_vertex (lines : list str) (i j : nat) : res (option verdict) :=
  l ← item lines (i + 2 + j);
  let vertex_line := strip l in
  if negb (startswith "vertex" vertex_line) then
    Ret (Some (false, Some (fmt ["Expected vertex at line " : str;
                                 str_of_Z (Z.of_nat (i + 3 + j))])))
  else
    try_except_only is_ValueError_or_IndexError
      (let coords := slice 1 4 (split_ws vertex_line) in
       if negb (length coords =? 3)%nat then
         Ret (Some (false, Some (fmt ["Invalid vertex format at line " : str;
                                      str_of_Z (Z.of_nat (i + 3 + j))])))
       else
         mapM py_float coords;; Ret None)
      (fun _ => Ret (Some (false, Some (fmt ["Invalid vertex coordinates at line " : str;
                                             str_of_Z (Z.of_nat (i + 3 + j))])))).

(** [for j in range(3)] over the vertex lines. *)
Fixpoint check_vertices (lines : list str) (i : nat) (js : list nat) : res (option verdict) :=
  match js with
  | [] => Ret None
  | j :: js' =>
      r ← check_vertex lines i j;
      match r with
      | Some v => Ret (Some v)
      | None => check_vertices lines i js'
      end
  end.

(** The facet starting at [lines[i]]: [Some] is an early [return]. *)
Definition check_facet (lines : list str) (i : nat) : res (option verdict) :=
  if (length lines <=? i + 6)%nat then
    Ret (Some (false, Some (fmt ["Incomplete facet at line " : str;
                                 str_of_Z (Z.of_nat (i + 1))])))
  else
    l1 ← item lines (i + 1);
    if negb (str_eqb (strip l1) "outer loop") then
      Ret (Some (false, Some (fmt ["Expected 'outer loop' at line " : str;
                                   str_of_Z (Z.of_nat (i + 2))])))
    else
      r ← check_vertices lines i [0; 1; 2]%nat;
      match r with
      | Some v => Ret (Some v)
      | None =>
          l5 ← item lines (i + 5);
          if negb (str_eqb (strip l5) "endloop") then
            Ret (Some (false, Some (fmt ["Expected 'endloop' at line " : str;
                                         str_of_Z (Z.of_nat (i + 6))])))
          else
            l6 ← item lines (i + 6);
            if negb (str_eqb (strip l6) "endfacet") then
              Ret (Some (false, Some (fmt ["Expected 'endfacet' at line " : str;
                                           str_of_Z (Z.of_nat (i + 7))])))
            else Ret None
      end.

(** [while i < len(lines) - 1: ...], with [fuel] iterations at most. *)
Fixpoint scan_facets (fuel : nat) (lines : list str) (i : nat) (triangle_count : Z)
    : res scan_result :=
  match fuel with
  | O => Ret OutOfFuel
  | S fuel' =>
      if (Z.of_nat i <? Z.of_nat (length lines) - 1) then
        l ← item lines i;
        let line := strip l in
        if startswith "facet normal" line then
          r ← check_facet lines i;
          match r with
          | Some v => Ret (Returned v)
          | None => scan_facets fuel' lines (i + 7) (triangle_count + 1)
          end
        else scan_facets fuel' lines (i + 1) triangle_count
      else Ret (Counted triangle_count)
  end.

(** [content.strip().split("\n")] *)
Definition text_lines (content : str) : list str :=
  split_on "010"%char (strip content).

(** [STLValidator._validate_ascii_stl] *)
Definition _validate_ascii_stl : res verdict :=
  try_except
    (io IoOpenText;;
     io IoReadText;;
     let content := decode (f_data file) in
     let lines := text_lines content in
     first ← item lines 0;
     if negb (startswith "solid" (strip first)) then
       Ret (false, Some ("ASCII STL must start with 'solid'" : str))
     else
       final ← last_item lines;
       if negb (startswith "endsolid" (strip final)) then
         Ret (false, Some ("ASCII STL must end with 'endsolid'" : str))
       else
         r ← scan_facets (length lines) lines 1 0;
         match r with
         | Returned v => Ret v
         | Counted triangle_count =>
             if triangle_count =? 0 then
               Ret (false, Some ("ASCII STL contains no triangles" : str))
             else if 1000000 <? triangle_count then
               Ret (false, Some (fmt ["STL file too complex: " : str;
                                      str_of_Z triangle_count;
                                      " triangles (max 1,000,000)" : str]))
             else Ret (true, None)
         | OutOfFuel => raise Exception ("the loop did not end" : string)
         end)
    (fun e => Ret (false, Some (fmt ["ASCII STL validation error: " : str; exn_msg e]))).

(** [STLValidator._validate_stl_format] *)
Definition _validate_stl_format : res verdict :=
  try_except
    (io IoOpenFormat;;
     io IoReadHeader;;
     let '(header, _) := fread 80 (mk_handle (f_data file) 0) in
     if bytes_startswith solid_bytes header then _validate_ascii_stl
     else _validate_binary_stl)
    (fun e => Ret (false, Some (fmt ["Failed to read STL file: " : str; exn_msg e]))).

(** [STLValidator._validate_geometry] *)
Definition _validate_geometry : res verdict :=
  try_except (Ret (true, None))
    (fun e => Ret (false, Some (fmt ["Geometry validation error: " : str; exn_msg e]))).

(** [STLValidator.validate_file] *)
Definition validate_file : res verdict :=
  try_except
    (io IoExists;;
     if negb (f_exists file) then Ret (false, Some ("File does not exist" : str))
     else
       io IoStat;;
       let file_size := st_size in
       if MAX_FILE_SIZE <? file_size then
         Ret (false, Some (fmt ["File too large: " : str; str_of_Z file_size;
                                " bytes (max " : str; str_of_Z MAX_FILE_SIZE; ")" : str]))
       else if file_size <? MIN_FILE_SIZE then
         Ret (false, Some (fmt ["File too small: " : str; str_of_Z file_size;
                                " bytes (min " : str; str_of_Z MIN_FILE_SIZE; ")" : str]))
       else if negb (str_eqb (lower (f_suffix file)) ".stl") then
         Ret (false, Some ("File must have .stl extension" : str))
       else
         '(is_valid, error) ← _validate_stl_format;
         if negb is_valid then Ret (false, error)
         else
           '(is_valid, error) ← _validate_geometry;
           if negb is_valid then Ret (false, error)
           else Ret (true, None))
    (fun e => Ret (false, Some (fmt ["Validation error: " : str; exn_msg e]))).

End WithBuiltins.

(** *** Text files made of face blocks *)

Definition newline : ascii := "010"%char.

Definition no_newline (s : str) : bool := forallb (fun c => negb (eqc c newline)) s.

(** Indentation: whitespace without a line break. *)
Definition blank (s : str) : bool := forallb isspace s && no_newline s.

Record vertex := mk_vertex { vx : str; vy : str; vz : str }.

(** A face block: what follows "facet normal" on its line, the
    indentation of each of its seven lines, and its three vertices. *)
Record facet := mk_facet {
  f_normal : str;
  f_indent : nat -> str;
  f_v1 : vertex;
  f_v2 : vertex;
  f_v3 : vertex
}.

Definition vertex_line (indent : str) (v : vertex) : str :=
  indent ++ join " " ["vertex" : str; vx v; vy v; vz v].

(** The seven lines of a face block. *)
Definition facet_lines (f : facet) : list str :=
  [ f_indent f 0 ++ lit "facet normal" ++ f_normal f;
    f_indent f 1 ++ lit "outer loop";
    vertex_line (f_indent f 2) (f_v1 f);
    vertex_line (f_indent f 3) (f_v2 f);
    vertex_line (f_indent f 4) (f_v3 f);
    f_indent f 5 ++ lit "endloop";
    f_indent f 6 ++ lit "endfacet" ].

(** The lines of a [solid ... endsolid] file. *)
Definition stl_lines (name : str) (facets : list facet) (end_name : str) : list str :=
  (lit "solid" ++ name) :: flat_map facet_lines facets ++ [lit "endsolid" ++ end_name].

(** Lines as a text: joined by line breaks, with whitespace [trailer]
    (such as a final line break) after the last. *)
Definition text_of (lines : list str) (trailer : str) : str :=
  join [newline] lines ++ trailer.

(** The lines before the last, each with its line break. *)
Definition ended (lines : list str) : str :=
  concat (map (fun l => l ++ [newline]) lines).

(** The index, among the lines of the file, of line [p] (0 to 6) of face
    block [j]. *)
Definition line_index (j p : nat) : nat := 1 + 7 * j + p.

Section WellFormed.
Variable pyfloat : str -> option float.

(** A coordinate: a non-empty word that [float] reads. *)
Definition number (s : str) : Prop :=
  s <> [] /\ nonblank s = true /\ is_Some (pyfloat s).

Definition vertex_ok (v : vertex) : Prop :=
  number (vx v) /\ number (vy v) /\ number (vz v).

Definition facet_ok (f : facet) : Prop :=
  no_newline (f_normal f) = true
  /\ (forall k, blank (f_indent f k) = true)
  /\ vertex_ok (f_v1 f) /\ vertex_ok (f_v2 f) /\ vertex_ok (f_v3 f).

Definition well_formed (name : str) (facets : list facet) (end_name trailer : str) : Prop :=
  no_newline name = true /\ no_newline end_name = true
  /\ forallb isspace trailer = true
  /\ Forall facet_ok facets.

End WellFormed.

(** The triangle count a binary file declares. *)
Definition declared_count (data : list byte) : Z := le_value (slice 80 84 data).

(** Coordinate [k] (0 to 11: the normal, then the three vertices) of
    triangle record [i] of a binary file. *)
Definition coordinate (data : list byte) (i k : nat) : float :=
  f32_of_bits (le_value (slice (84 + 50 * i + 4 * k) (84 + 50 * i + 4 * k + 4) data)).

(** The coordinates the loop of [_validate_binary_stl] looks at, in the
    order it looks at them: the twelve of each of the first min(10, N)
    records. *)
Definition checked_coordinates (data : list byte) : list float :=
  flat_map (fun i => map (coordinate data i) (seq 0 12))
           (seq 0 (Z.to_nat (Z.min 10 (declared_count data)))).

(** The accesses [validate_file] makes on a file it accepts: those before
    the dispatch, then those of the text path or of the binary path. *)
Definition accesses (data : list byte) : list io_call :=
  [IoExists; IoStat; IoOpenFormat; IoReadHeader]
  ++ (if bytes_startswith solid_bytes data then [IoOpenText; IoReadText]
      else [IoOpenBinary; IoReadBinary 0; IoReadBinary 1; IoStatBinary]
           ++ map (fun i => IoReadBinary (2 + i))
                  (seq 0 (Z.to_nat (Z.min 10 (declared_count data))))).

(** The result of the loop of [_validate_ascii_stl] on the text of a file. *)
Definition counted (pyfloat : str -> option float) (decode : list byte -> str)
    (file : stl_file) : res scan_result :=
  let lines := text_lines (decode (f_data file)) in
  scan_facets pyfloat (length lines) lines 1 0.

(** The file can be opened and read as text. *)
Definition readable_text (file : stl_file) : Prop :=
  f_fault file IoOpenText = None /\ f_fault file IoReadText = None.

(** The file can be opened, measured and read as bytes. *)
Definition readable_binary (file : stl_file) : Prop :=
  f_fault file IoOpenBinary = None /\ f_fault file IoStatBinary = None
  /\ forall k, f_fault file (IoReadBinary k) = None.

(** *** Example files *)

(** UTF-8 on bytes below 128: each byte is the character of its code. *)
Definition decode_ascii (data : list byte) : str := map ascii_of_byte data.
Definition encode_ascii (s : str) : list byte := map byte_of_ascii s.

Definition no_fault : io_call -> option exn := fun _ => None.

(** A face in the plane z = 0, its lines indented by two spaces. *)
Definition flat_facet : facet :=
  mk_facet " 0 0 1" (fun _ => "  ")
    (mk_vertex "0" "0" "0") (mk_vertex "1" "0" "0") (mk_vertex "0" "1" "0").

(** The file [model.stl] holding the given lines, each ended by a line break. *)
Definition text_file (lines : list str) : stl_file :=
  mk_file true (encode_ascii (text_of lines [newline])) ".stl" no_fault.

(** [str(x)] for a float that is a whole number below 10^16 in magnitude,
    an infinity or a NaN. *)
Definition repr_whole (x : float) : str :=
  match Prim2SF x with
  | S754_zero s => if s then "-0.0" else "0.0"
  | S754_infinity s => if s then "-inf" else "inf"
  | S754_nan => "nan"
  | S754_finite s m e =>
      fmt [(if s then "-" else "") : str; str_of_Z (Z.shiftl (Z.pos m) e); ".0" : str]
  end.

(** A binary file: an 80-byte header of zeros, the count 1 and one record
    whose first coordinate has the given four bytes. *)
Definition one_triangle (coord : list byte) : stl_file :=
  mk_file true
    (replicate 80 x00 ++ [x01; x00; x00; x00] ++ coord ++ replicate 46 x00)
    ".stl" no_fault.

(** A binary file of one triangle whose header begins with "solid". *)
Definition solid_header_binary : stl_file :=
  mk_file true
    (solid_bytes ++ replicate 75 x20 ++ [x01; x00; x00; x00] ++ replicate 50 x00)
    ".stl" no_fault.

End Validator.

(* ===================================================================== *)
(** ** Worlds to run the worker in                                         *)
(* ===================================================================== *)

Module Worlds.
Import Runner Worker.

(** A world in which the database cannot be reached: [get_db] raises. *)
Definition no_database : world :=
  mk_world (fun c => match c with
                     | GetDb => Some (mk_exn OSError ("connection refused" : string))
                     | _ => None
                     end)
    (Some ("/data/cube.stl" : str)) true (Ret (true, None))
    "/tmp/tmpx" (Ret tt) (Runs 10 0 [] true)
    (mk_metrics 0 0 0 1 false) "r-1" "worker-1" "/tmp".

(** A world without faults but one: the constructor of the result row
    does not know the keyword [analyzed_at]. *)
Definition unknown_keyword : world :=
  mk_world (fun c => match c with
                     | NewResult =>
                         Some (mk_exn TypeError
                                 ("'analyzed_at' is an invalid keyword argument for AnalysisResult"
                                  : string))
                     | _ => None
                     end)
    (Some ("/data/cube.stl" : str)) true (Ret (true, None))
    "/tmp/tmpx" (Ret tt) (Runs 10 0 [] true)
    (mk_metrics 0 0 0 1 false) "r-1" "worker-1" "/tmp".

(** A world without faults but one: the copy of the model in the workspace
    of job "job-1" cannot be removed. *)
Definition stuck_input : world :=
  mk_world (fun c => match c with
                     | Remove p =>
                         if str_eqb p "/tmp/stl_analysis/job-1/input.stl"
                         then Some (mk_exn OSError ("Permission denied" : string))
                         else None
                     | _ => None
                     end)
    (Some ("/data/cube.stl" : str)) true (Ret (true, None))
    "/tmp/tmpx" (Ret tt) (Runs 10 0 [] true)
    (mk_metrics 0 0 0 1 false) "r-1" "worker-1" "/tmp".

(** A world in which the slicer runs for 301 seconds and the
    [workspace.exists()] of the error path raises. *)
Definition unseen_workspace : world :=
  mk_world (fun c => match c with
                     | WorkspaceExists => Some (mk_exn OSError ("Permission denied" : string))
                     | _ => None
                     end)
    (Some ("/data/cube.stl" : str)) true (Ret (true, None))
    "/tmp/tmpx" (Ret tt) (Runs 301 0 [] true)
    (mk_metrics 0 0 0 1 false) "r-1" "worker-1" "/tmp".

End Worlds.

(* ===================================================================== *)
(** ** More sample files                                                   *)
(* ===================================================================== *)

Module Samples.
Import Validator.

(** A binary file of eleven triangles, all zeros but for the first
    coordinate of the eleventh, which has the given four bytes. *)
Definition eleven_triangles (coord : list byte) : stl_file :=
  mk_file true
    (replicate 80 x00 ++ [x0b; x00; x00; x00] ++ replicate 500 x00
     ++ coord ++ replicate 46 x00)
    ".stl" no_fault.

(** Two face blocks with a comment and an empty line between them. *)
Definition commented_lines : list str :=
  (lit "solid cube")
  :: (flat_map facet_lines [flat_facet]
      ++ [lit "  ; second face"; lit ""]
      ++ flat_map facet_lines [flat_facet])
  ++ [lit "endsolid cube"].

End Samples.

(* ===================================================================== *)
(** ** prusa_runner.py: the configuration file                             *)
(* ===================================================================== *)

Module Config.

(** The values a settings dictionary holds. *)
Inductive value :=
| VStr (s : str)
| VInt (n : Z)
| VBool (b : bool)
| VFloat (x : float)
| VNone.

(** A [dict] with string keys, in insertion order. *)
Definition dict : Type := list (str * value).

(** [d[k] = v]: an existing key keeps its place, a new one goes last. *)
Fixpoint dict_set (k : str) (v : value) (d : dict) : dict :=
  match d with
  | [] => [(k, v)]
  | (k', v') :: d' =>
      if str_eqb k' k then (k', v) :: d' else (k', v') :: dict_set k v d'
  end.

(** [d.get(k)] *)
Fixpoint dict_get (k : str) (d : dict) : option value :=
  match d with
  | [] => None
  | (k', v') :: d' => if str_eqb k' k then Some v' else dict_get k d'
  end.

(** [PrusaSlicerRunner._get_default_config] *)
Definition _get_default_config : dict :=
  [ (lit "layer_height", VStr "0.2");
    (lit "first_layer_height", VStr "0.2");
    (lit "fill_density", VStr "20%");
    (lit "fill_pattern", VStr "grid");
    (lit "support_material", VStr "0");
    (lit "support_material_auto", VStr "1");
    (lit "temperature", VStr "210");
    (lit "bed_temperature", VStr "60");
    (lit "nozzle_diameter", VStr "0.4");
    (lit "filament_diameter", VStr "1.75");
    (lit "print_speed", VStr "50");
    (lit "travel_speed", VStr "120");
    (lit "retraction_length", VStr "0.8");
    (lit "retraction_speed", VStr "35") ].

Section WithRepr.

(** [str(x)] for a float. *)
Variable repr_float : float -> str.

(** [f"{v}"] *)
Definition format_value (v : value) : str :=
  match v with
  | VStr s => s
  | VInt n => str_of_Z n
  | VBool b => if b then "True" else "False"
  | VFloat x => repr_float x
  | VNone => "None"
  end.

(** The truth value of [v] in a condition. *)
Definition truthy (v : value) : bool :=
  match v with
  | VStr s => negb (str_eqb s [])
  | VInt n => negb (n =? 0)
  | VBool b => b
  | VFloat x => negb (x =? 0)%float
  | VNone => false
  end.

(** [if key in print_settings: config[target] = f(print_settings[key])] *)
Definition copy_setting (print_settings : gmap (list ascii) value) (key target : str)
    (f : value -> value) (config : dict) : dict :=
  match print_settings !! key with
  | Some v => dict_set target (f v) config
  | None => config
  end.

(** The dictionary [_create_config_file] writes out. *)
Definition updated_config (print_settings : gmap (list ascii) value) : dict :=
  let config := _get_default_config in
  let config := copy_setting print_settings "layer_height" "layer_height" id config in
  let config := copy_setting print_settings "infill_density" "fill_density"
                  (fun v => VStr (fmt [format_value v; "%" : str])) config in
  let config := copy_setting print_settings "infill_pattern" "fill_pattern" id config in
  let config := copy_setting print_settings "supports" "support_material"
                  (fun v => VStr (if truthy v then "1" else "0")) config in
  let config := copy_setting print_settings "nozzle_temperature" "temperature" id config in
  copy_setting print_settings "bed_temperature" "bed_temperature" id config.

(** What the [with open(config_file, "w")] block writes. *)
Definition config_text (config : dict) : str :=
  fmt ((lit "[print_settings]" ++ ["010"%char])
       :: map (fun kv => fmt [kv.1; " = " : str; format_value kv.2; ["010"%char]]) config).

(** [PrusaSlicerRunner._create_config_file]: the path of the file and the
    text written to it; [opened] is the outcome of opening it. *)
Definition _create_config_file (temp_path : str) (print_settings : gmap (list ascii) value)
    (opened : res unit) : res (str * str) :=
  let config := updated_config print_settings in
  let config_file := Worker.path_join temp_path "config.ini" in
  opened;;
  Ret (config_file, config_text config).

End WithRepr.

(** The keys of the settings [_create_config_file] reads. *)
Definition read_keys : list str :=
  [lit "layer_height"; lit "infill_density"; lit "infill_pattern"; lit "supports";
   lit "nozzle_temperature"; lit "bed_temperature"].

(** The keys of the configuration it may overwrite. *)
Definition written_keys : list str :=
  [lit "layer_height"; lit "fill_density"; lit "fill_pattern"; lit "support_material";
   lit "temperature"; lit "bed_temperature"].

(** [PrintSettings().dict()] of [app/schemas/analysis.py] with the given
    fields. *)
Definition settings_dict (layer_height : float) (infill_density : Z) (infill_pattern : str)
    (supports : bool) (bed_adhesion material_type : str)
    (nozzle_temperature bed_temperature print_speed : Z) : gmap (list ascii) value :=
  <[lit "layer_height" := VFloat layer_height]>
  (<[lit "infill_density" := VInt infill_density]>
  (<[lit "infill_pattern" := VStr infill_pattern]>
  (<[lit "supports" := VBool supports]>
  (<[lit "bed_adhesion" := VStr bed_adhesion]>
  (<[lit "material_type" := VStr material_type]>
  (<[lit "nozzle_temperature" := VInt nozzle_temperature]>
  (<[lit "bed_temperature" := VInt bed_temperature]>
  (<[lit "print_speed" := VInt print_speed]> ∅)))))))).

End Config.

(* ===================================================================== *)
(** ** prusa_runner.py: the metrics of the G-code                          *)
(* ===================================================================== *)

Module Gcode.
Import Runner.

(** [sub in s] for strings. *)
Fixpoint contains (sub s : str) : bool :=
  match s with
  | [] => startswith sub []
  | _ :: s' => startswith sub s || contains sub s'
  end.

(** The metrics [_parse_gcode_metrics] starts from. *)
Definition initial_metrics : PrintMetrics := mk_metrics 0 0 0 1 false.

Definition set_filament_grams (v : float) (m : PrintMetrics) : PrintMetrics :=
  mk_metrics v (print_time_hours m) (volume_mm3 m) (complexity_score m)
             (supports_required m).

Definition set_print_time_hours (v : float) (m : PrintMetrics) : PrintMetrics :=
  mk_metrics (filament_grams m) v (volume_mm3 m) (complexity_score m)
             (supports_required m).

Definition set_supports_required (m : PrintMetrics) : PrintMetrics :=
  mk_metrics (filament_grams m) (print_time_hours m) (volume_mm3 m)
             (complexity_score m) true.

(** Grams of filament for a length in millimetres:
    [(filament_mm * 3.14159 * (1.75/2)**2) / 1000 * 1.24]; the square of
    0.875 is 0.765625, which binary64 holds exactly. *)
Definition grams_of_mm (filament_mm : float) : float :=
  (filament_mm * 3.14159 * ((1.75 / 2) * (1.75 / 2)) / 1000 * 1.24)%float.

Section WithFloat.
Variable pyfloat : str -> option float.

(** The body of [for line in lines]: the metrics after the line, or the
    exception raised before anything is assigned. *)
Definition parse_line (metrics : PrintMetrics) (raw : str) : res PrintMetrics :=
  let line := strip raw in
  if startswith "; filament used [mm] =" line then
    piece ← Validator.item (split_on "=" line) 1;
    filament_mm ← TimeParser.py_float pyfloat (strip piece);
    Ret (set_filament_grams (grams_of_mm filament_mm) metrics)
  else if startswith "; estimated printing time" line then
    piece ← Validator.item (split_on "=" line) 1;
    time ← TimeParser._parse_time_string pyfloat (strip piece);
    Ret (set_print_time_hours time metrics)
  else if contains "support" (lower line) && contains "enable" (lower line) then
    Ret (set_supports_required metrics)
  else Ret metrics.

(** The loop inside the [try]: an exception ends it, and the [except]
    clause returns the metrics as they are then. *)
Fixpoint parse_lines (metrics : PrintMetrics) (lines : list str) : PrintMetrics :=
  match lines with
  | [] => metrics
  | line :: rest =>
      match parse_line metrics line with
      | Ret metrics' => parse_lines metrics' rest
      | Raise _ => metrics
      end
  end.

(** [PrusaSlicerRunner._parse_gcode_metrics]; [content] is the outcome of
    opening and reading the file. *)
Definition _parse_gcode_metrics (content : res str) : PrintMetrics :=
  match content with
  | Ret text => parse_lines initial_metrics (split_on "010"%char text)
  | Raise _ => initial_metrics
  end.

(** A line the loop has nothing to do with. *)
Definition plain_line (raw : str) : Prop :=
  startswith "; filament used [mm] =" (strip raw) = false
  /\ startswith "; estimated printing time" (strip raw) = false
  /\ (contains "support" (lower (strip raw)) && contains "enable" (lower (strip raw))) = false.

(** A line on which the loop raises. *)
Definition breaking_line (raw : str) : Prop :=
  exists e, forall metrics, parse_line metrics raw = Raise e.

End WithFloat.

(** The end of a G-code file of PrusaSlicer, with the two comments read. *)
Definition sample_gcode : str :=
  join ["010"%char]
    [lit "G1 X10 Y10 E0.5";
     lit "; filament used [mm] = 1000";
     lit "; estimated printing time (normal mode) = 1h 30m";
     lit "; support_material = 0";
     lit "M84"].

End Gcode.

(* ===================================================================== *)
(** ** prusa_runner.py: the geometry pass                                  *)
(* ===================================================================== *)

Module Geometry.
Import Config.

Definition dq : ascii := "034"%char.
Definition backslash : ascii := "092"%char.

(** *** The script the pass writes *)

(** What a backslash and the character after it stand for in a string
    literal that is not raw: one character for a quote, a backslash or one
    of the letters a, b, f, n, r, t, v; nothing for a line break.  (The
    escapes by number are not modelled.) *)
Definition escape (c : ascii) : option str :=
  if eqc c dq then Some [dq]
  else if eqc c "'" then Some ["'"%char]
  else if eqc c backslash then Some [backslash]
  else if eqc c "010" then Some []
  else if eqc c "a" then Some ["007"%char]
  else if eqc c "b" then Some ["008"%char]
  else if eqc c "f" then Some ["012"%char]
  else if eqc c "n" then Some ["010"%char]
  else if eqc c "r" then Some ["013"%char]
  else if eqc c "t" then Some ["009"%char]
  else if eqc c "v" then Some ["011"%char]
  else None.

(** The string a literal with the given body denotes; a backslash that
    begins no escape stays. *)
Fixpoint unescape (body : str) : str :=
  match body with
  | [] => []
  | c :: rest =>
      if eqc c backslash then
        match rest with
        | [] => [c]
        | d :: rest' =>
            match escape d with
            | Some x => x ++ unescape rest'
            | None => c :: unescape rest
            end
        end
      else c :: unescape rest
  end.

(** The line of the literal that prints the result, cut at its double
    quotes. *)
Definition print_line_literal : str :=
  join [dq]
    [ lit "        print(f";
      lit "{{\";
      lit "triangle_count\";
      lit ": {triangle_count}, \";
      lit "complexity_score\";
      lit ": {complexity}, \";
      lit "volume_mm3\";
      lit ": {volume}}}";
      lit ")" ].

(** The body of the literal in [f.write(...)], between its triple quotes. *)
Definition script_literal : str :=
  join ["010"%char]
    [ lit "";
      lit "import struct";
      lit "import sys";
      lit "";
      lit "def analyze_stl(filename):";
      lit "    with open(filename, 'rb') as f:";
      lit "        # Skip header";
      lit "        f.read(80)";
      lit "        ";
      lit "        # Read triangle count";
      lit "        triangle_count = struct.unpack('<I', f.read(4))[0]";
      lit "        ";
      lit "        # Simple complexity based on triangle count";
      lit "        complexity = min(triangle_count / 10000.0, 5.0)  # Scale 0-5";
      lit "        ";
      lit "        # Rough volume estimation (very basic)";
      lit "        volume = triangle_count * 0.1  # Placeholder calculation";
      lit "        ";
      print_line_literal;
      lit "";
      join [dq] [lit "if __name__ == "; lit "__main__"; lit ":"];
      lit "    analyze_stl(sys.argv[1])";
      lit "" ].

(** The text of [analyze_stl.py]: what the literal denotes. *)
Definition analysis_script : str := unescape script_literal.

(** *** The interpreter, as far as the script needs it *)

(** The tokens of a line, with what matters of them here. *)
Inductive token :=
| NAME (word : str)
| STRING
| NUMBER
| OP (c : ascii).

Definition in_range (lo hi : N) (c : ascii) : bool :=
  ((lo <=? N_of_ascii c) && (N_of_ascii c <=? hi))%N.

Definition is_digit (c : ascii) : bool := in_range 48 57 c.
Definition name_start (c : ascii) : bool :=
  in_range 65 90 c || in_range 97 122 c || eqc c "_".
Definition name_char (c : ascii) : bool := name_start c || is_digit c.
Definition number_char (c : ascii) : bool := name_char c || eqc c ".".
Definition is_quote (c : ascii) : bool := eqc c dq || eqc c "'".

(** The letters that may stand before the quote of a string literal. *)
Definition string_prefix (word : str) : bool :=
  bool_decide (lower word ∈ [lit "r"; lit "u"; lit "b"; lit "f";
                             lit "br"; lit "rb"; lit "fr"; lit "rf"]).

(** The rest of the line after a string literal that has been opened with
    [quote]; a literal that is not closed takes the whole line. *)
Fixpoint after_string (quote : ascii) (s : str) : str :=
  match s with
  | [] => []
  | c :: s' =>
      if eqc c quote then s'
      else if eqc c backslash then
        match s' with
        | [] => []
        | _ :: s'' => after_string quote s''
        end
      else after_string quote s'
  end.

Fixpoint span (f : ascii -> bool) (s : str) : str * str :=
  match s with
  | [] => ([], [])
  | c :: s' => if f c then let '(a, b) := span f s' in (c :: a, b) else ([], s)
  end.

(** The tokens of one line without triple quotes; every step takes at
    least one character, so the length of the line is fuel enough. *)
Fixpoint tokens (fuel : nat) (s : str) : list token :=
  match fuel with
  | O => []
  | S fuel' =>
      match s with
      | [] => []
      | c :: s' =>
          if isspace c then tokens fuel' s'
          else if eqc c "#" then []
          else if is_quote c then STRING :: tokens fuel' (after_string c s')
          else if name_start c then
            let '(word, rest) := span name_char s in
            match rest with
            | q :: rest' =>
                if is_quote q && string_prefix word
                then STRING :: tokens fuel' (after_string q rest')
                else NAME word :: tokens fuel' rest
            | [] => [NAME word]
            end
          else if is_digit c then NUMBER :: tokens fuel' (span number_char s).2
          else OP c :: tokens fuel' s'
      end
  end.

Definition keyword (word : str) : bool :=
  bool_decide (word ∈ [lit "and"; lit "as"; lit "assert"; lit "async"; lit "await";
                       lit "break"; lit "class"; lit "continue"; lit "def"; lit "del";
                       lit "elif"; lit "else"; lit "except"; lit "finally"; lit "for";
                       lit "from"; lit "global"; lit "if"; lit "import"; lit "in";
                       lit "is"; lit "lambda"; lit "nonlocal"; lit "not"; lit "or";
                       lit "pass"; lit "raise"; lit "return"; lit "try"; lit "while";
                       lit "with"; lit "yield"; lit "False"; lit "None"; lit "True"]).

(** A string literal with a name that is no keyword right after it: two
    operands with nothing between them, which no rule of the grammar
    derives. *)
Fixpoint operands_adjacent (ts : list token) : bool :=
  match ts with
  | [] => false
  | STRING :: rest =>
      match rest with
      | NAME word :: _ => negb (keyword word) || operands_adjacent rest
      | _ => operands_adjacent rest
      end
  | _ :: rest => operands_adjacent rest
  end.

Definition bad_line (line : str) : bool := operands_adjacent (tokens (length line) line).

(** The lines of a script the interpreter refuses for this. *)
Definition syntax_errors (script : str) : list str :=
  List.filter bad_line (split_on "010" script).

(** What a finished process leaves. *)
Record completed := mk_completed { returncode : Z; stdout : str; stderr : str }.

(** [python script.py ...]: the whole file is compiled before any of it
    runs; on a syntax error the interpreter writes the error, [traceback],
    to its standard error, nothing to its standard output, and exits with
    code 1.  What a script that compiles does is not modelled: it is
    [ran]. *)
Definition python (script : str) (traceback : str) (ran : completed) : completed :=
  match syntax_errors script with
  | [] => ran
  | _ :: _ => mk_completed 1 [] traceback
  end.

(** What [docker run --rm -v ... python:3.10-slim python
    /workspace/analyze_stl.py /workspace/input.stl] comes to: the command
    cannot be started; docker itself fails, with an exit code of its own,
    which is not zero; or the container runs the interpreter on the script
    and docker exits with the code of the interpreter.  [seconds] is the
    time it takes; [traceback] is what the interpreter writes when it
    refuses a script, and [ran] what the script does with the model once
    compiled. *)
Inductive docker :=
| NoDocker (reason : str)
| DockerFails (seconds : Z) (code : positive) (diagnostic : str)
| Container (seconds : Z) (traceback : str) (ran : list byte -> completed).

(** [subprocess.run(docker_cmd, capture_output=True, text=True, timeout=t)] *)
Definition subprocess_run (timeout : Z) (d : docker) (script : str) (data : list byte)
    : res completed :=
  match d with
  | NoDocker reason => raise OSError reason
  | DockerFails seconds code diagnostic =>
      if timeout <? seconds then raise TimeoutExpired ("Command timed out" : string)
      else Ret (mk_completed (Z.pos code) [] diagnostic)
  | Container seconds traceback ran =>
      if timeout <? seconds then raise TimeoutExpired ("Command timed out" : string)
      else Ret (python script traceback (ran data))
  end.

(** *** The pass *)

(** [{"volume_mm3": 1000, "complexity_score": 1.0}] *)
Definition fallback : dict :=
  [(lit "volume_mm3", VInt 1000); (lit "complexity_score", VFloat 1)].

Section WithJson.

(** [json.loads] *)
Variable json_loads : str -> res dict.

(** [PrusaSlicerRunner._analyze_stl_geometry] on the model [data];
    [opened] is the outcome of opening the script for writing. *)
Definition _analyze_stl_geometry (opened : res unit) (d : docker) (data : list byte)
    : res dict :=
  try_except
    (opened;;
     result ← subprocess_run 60 d analysis_script data;
     if returncode result =? 0 then json_loads (strip (stdout result))
     else Ret fallback)
    (fun _ => Ret fallback).

(** [stl_metrics.get("complexity_score", 1.0)] and
    [stl_metrics.get("volume_mm3", 0)] of [analyze_stl]. *)
Definition complexity_score_of (stl_metrics : dict) : value :=
  default (VFloat 1) (dict_get "complexity_score" stl_metrics).

Definition volume_of (stl_metrics : dict) : value :=
  default (VInt 0) (dict_get "volume_mm3" stl_metrics).

(** The complexity score of the geometry pass for a model. *)
Definition geometry_score (opened : res unit) (d : docker) (data : list byte) : res value :=
  stl_metrics ← _analyze_stl_geometry opened d data;
  Ret (complexity_score_of stl_metrics).

End WithJson.

(** The score as the claim words it, [min(n / 10000, 5.0)], which is also
    what the script is written to compute; in binary64, for a count below
    2^32. *)
Definition claimed_complexity (triangle_count : Z) : float :=
  let x := (of_uint63 (Uint63.of_Z triangle_count) / 10000)%float in
  if (5 <? x)%float then 5%float else x.

(** A binary model that declares 50000 triangles. *)
Definition dense_model (records : list byte) : list byte :=
  replicate 80 x00 ++ [x50; xc3; x00; x00] ++ records.

End Geometry.

(* ===================================================================== *)
(** * Properties                                                           *)
(* ===================================================================== *)

Module PyFacts.

Lemma eqc_true a b : eqc a b = true <-> a = b.
Proof. apply Ascii.eqb_eq. Qed.

Lemma eqc_false a b : eqc a b = false <-> a <> b.
Proof. apply Ascii.eqb_neq. Qed.

Lemma eqc_sym a b : eqc a b = eqc b a.
Proof. apply Ascii.eqb_sym. Qed.

Lemma lower_fixed s : forallb (fun c => eqc (lower_char c) c) s = true -> lower s = s.
Proof.
  induction s as [|c s IH]; simpl; [done|].
  intros [Hc Hs]%andb_true_iff. apply eqc_true in Hc. rewrite Hc, IH; done.
Qed.

Lemma contains_char_app x a b :
  contains_char x (a ++ b) = contains_char x a || contains_char x b.
Proof. apply existsb_app. Qed.

Lemma replace_char_app x new a b :
  replace_char x new (a ++ b) = replace_char x new a ++ replace_char x new b.
Proof. apply flat_map_app. Qed.

Lemma replace_char_absent x new s :
  contains_char x s = false -> replace_char x new s = s.
Proof.
  induction s as [|c s IH]; simpl; [done|].
  intros [Hc Hs]%orb_false_iff. rewrite (eqc_sym c x), Hc. simpl.
  rewrite IH; done.
Qed.

Lemma replace_char_snoc x s :
  contains_char x s = false -> replace_char x [] (s ++ [x]) = s.
Proof.
  intros H. rewrite replace_char_app, (replace_char_absent _ _ _ H). simpl.
  unfold eqc. rewrite Ascii.eqb_refl. simpl. apply app_nil_r.
Qed.

Lemma split_ws_from_word cur w rest :
  nonblank w = true ->
  split_ws_from cur (w ++ rest) = split_ws_from (rev w ++ cur) rest.
Proof.
  revert cur. induction w as [|c w IH]; intros cur; simpl; [done|].
  intros [Hc Hw]%andb_true_iff. apply negb_true_iff in Hc. rewrite Hc.
  rewrite IH by done. rewrite <- app_assoc. done.
Qed.

Lemma split_ws_from_end cur : cur <> [] -> split_ws_from cur [] = [rev cur].
Proof. destruct cur; done. Qed.

Lemma split_ws_from_blank cur c s :
  cur <> [] -> isspace c = true ->
  split_ws_from cur (c :: s) = rev cur :: split_ws_from [] s.
Proof. intros Hcur Hc. simpl. rewrite Hc. destruct cur; done. Qed.

Lemma split_ws_join (ws : list str) :
  Forall (fun w => w <> [] /\ nonblank w = true) ws ->
  split_ws (join " " ws) = ws.
Proof.
  unfold split_ws. induction ws as [|w ws IH]; [done|].
  intros Hall. apply Forall_cons in Hall as [[Hne Hnb] Hall].
  assert (Hrev : rev w ++ [] <> []).
  { rewrite app_nil_r. intros Hr. apply Hne.
    rewrite <- (rev_involutive w), Hr. done. }
  destruct ws as [|w' ws].
  - simpl. rewrite <- (app_nil_r w) at 1.
    rewrite split_ws_from_word by done.
    rewrite split_ws_from_end by done.
    rewrite app_nil_r, rev_involutive. done.
  - change (join " " (w :: w' :: ws)) with (w ++ " "%char :: join " " (w' :: ws)).
    rewrite split_ws_from_word by done.
    rewrite split_ws_from_blank by done.
    rewrite app_nil_r, rev_involutive. f_equal. apply IH. done.
Qed.

End PyFacts.
Import PyFacts.

(* ===================================================================== *)
(** ** The duration parser                                                 *)
(* ===================================================================== *)

Module TimeParserFacts.
Import TimeParser.

Ltac solve_nodup :=
  repeat (apply NoDup_cons_2; [rewrite ?elem_of_cons, ?elem_of_nil; intuition discriminate|]);
  apply NoDup_nil_2.

Section WithFloat.
Variable pyfloat : str -> option float.

Lemma get_set_unit u u' v a :
  get_unit u (set_unit u' v a) = if unit_eqb u' u then v else get_unit u a.
Proof. destruct u, u'; done. Qed.

Lemma numeral_char_spec c :
  numeral_char c = true ->
  isspace c = false /\ eqc c "," = false /\ eqc (lower_char c) c = true
  /\ eqc c "h" = false /\ eqc c "m" = false /\ eqc c "s" = false.
Proof.
  unfold numeral_char. rewrite !andb_true_iff, !negb_true_iff. tauto.
Qed.

Lemma numeral_chars_absent x n :
  (forall c, numeral_char c = true -> eqc c x = false) ->
  forallb numeral_char n = true -> contains_char x n = false.
Proof.
  intros Hx. induction n as [|c n IH]; simpl; [done|].
  intros [Hc Hn]%andb_true_iff. rewrite eqc_sym, (Hx c Hc), IH; done.
Qed.

Lemma numeral_nonblank n : forallb numeral_char n = true -> nonblank n = true.
Proof.
  unfold nonblank. induction n as [|c n IH]; simpl; [done|].
  intros [Hc Hn]%andb_true_iff. apply numeral_char_spec in Hc as (-> & _).
  simpl. auto.
Qed.

Lemma numeral_lower n :
  forallb numeral_char n = true ->
  forallb (fun c => eqc (lower_char c) c) n = true.
Proof.
  induction n as [|c n IH]; simpl; [done|].
  intros [Hc Hn]%andb_true_iff.
  apply numeral_char_spec in Hc as (_ & _ & -> & _). simpl. auto.
Qed.

(** The loop body on a token stores the number under the token's unit. *)
Lemma parse_part_token acc (n : str) u v :
  forallb numeral_char n = true -> pyfloat n = Some v ->
  parse_part pyfloat acc (render_token (n, u)) = Ret (set_unit u v acc).
Proof.
  intros Hn Hv.
  assert (Hh : contains_char "h" n = false).
  { apply numeral_chars_absent; [|done]. intros c Hc.
    apply numeral_char_spec in Hc. tauto. }
  assert (Hm : contains_char "m" n = false).
  { apply numeral_chars_absent; [|done]. intros c Hc.
    apply numeral_char_spec in Hc. tauto. }
  assert (Hs : contains_char "s" n = false).
  { apply numeral_chars_absent; [|done]. intros c Hc.
    apply numeral_char_spec in Hc. tauto. }
  unfold parse_part, render_token. simpl fst. simpl snd.
  rewrite !contains_char_app, Hh, Hm, Hs.
  destruct u; simpl;
    rewrite replace_char_snoc by done; unfold py_float; rewrite Hv; done.
Qed.

Lemma parse_parts_tokens toks acc :
  Forall (fun t => numeral pyfloat t.1) toks ->
  parse_parts pyfloat acc (map render_token toks) = Ret (fold_left (store pyfloat) toks acc).
Proof.
  revert acc. induction toks as [|[n u] toks IH]; intros acc Hall; [done|].
  apply Forall_cons in Hall as [[Hn [v Hv]] Hall]. simpl in Hn, Hv.
  cbn [map parse_parts]. rewrite (parse_part_token acc n u v) by done.
  change (Ret (set_unit u v acc) ≫= _) with
    (parse_parts pyfloat (set_unit u v acc) (map render_token toks)).
  rewrite IH by done. cbn [fold_left].
  replace (store pyfloat acc (n, u)) with (set_unit u v acc); [done|].
  unfold store, token_value. simpl. rewrite Hv. done.
Qed.

Lemma fold_store_get u toks acc :
  NoDup (map snd toks) ->
  get_unit u (fold_left (store pyfloat) toks acc) =
  match find (fun t => unit_eqb t.2 u) toks with
  | Some t => token_value pyfloat t
  | None => get_unit u acc
  end.
Proof.
  revert acc. induction toks as [|t toks IH]; intros acc Hnd; [done|].
  simpl in Hnd. apply NoDup_cons in Hnd as [Hnotin Hnd].
  simpl. rewrite IH by done. unfold store at 1. rewrite get_set_unit.
  destruct (unit_eqb t.2 u) eqn:Hu; [|done].
  assert (t.2 = u) as Heq by (destruct (t.2), u; done).
  destruct (find _ toks) as [t'|] eqn:Hf; [|done].
  apply find_some in Hf as [Hin Hu'].
  exfalso. apply Hnotin. apply list_elem_of_In. apply in_map_iff. exists t'. split; [|done].
  destruct (t'.2), u, (t.2); done.
Qed.

Lemma render_chars toks :
  Forall (fun t => numeral pyfloat t.1) toks ->
  Forall (fun w => w <> [] /\ nonblank w = true) (map render_token toks).
Proof.
  intros Hall. apply Forall_map. eapply Forall_impl; [exact Hall|].
  intros [n u] [Hn _]. simpl in *. split.
  - unfold render_token. simpl. destruct n; done.
  - unfold render_token, nonblank. simpl. rewrite forallb_app.
    apply numeral_nonblank in Hn. unfold nonblank in Hn. rewrite Hn.
    destruct u; done.
Qed.

Lemma join_forallb (f : ascii -> bool) (ws : list str) :
  f " "%char = true -> Forall (fun w => forallb f w = true) ws ->
  forallb f (join " " ws) = true.
Proof.
  intros Hsp. induction ws as [|w ws IH]; [done|].
  intros Hall. apply Forall_cons in Hall as [Hw Hall].
  destruct ws as [|w' ws]; [done|].
  change (join " " (w :: w' :: ws)) with (w ++ " "%char :: join " " (w' :: ws)).
  rewrite forallb_app, Hw. simpl. rewrite Hsp. simpl. apply IH. done.
Qed.

Lemma render_normal toks :
  Forall (fun t => numeral pyfloat t.1) toks ->
  replace_char "," [] (lower (render toks)) = render toks.
Proof.
  intros Hall. unfold render. rewrite lower_fixed.
  - apply replace_char_absent. unfold contains_char.
    apply not_true_iff_false. intros Hex. apply existsb_exists in Hex as (c & Hin & Hc).
    apply eqc_true in Hc. subst c.
    assert (Hok : forallb (fun c => negb (eqc c ",")) (join " " (map render_token toks)) = true).
    { apply join_forallb; [done|]. apply Forall_map.
      eapply Forall_impl; [exact Hall|]. intros [n u] [Hn _]. simpl in *.
      unfold render_token. simpl. rewrite forallb_app. apply andb_true_iff. split.
      - clear -Hn. induction n as [|c n IH]; simpl in *; [done|].
        apply andb_true_iff in Hn as [Hc Hn].
        apply numeral_char_spec in Hc as (_ & -> & _). simpl. auto.
      - destruct u; done. }
    rewrite forallb_forall in Hok. specialize (Hok _ Hin). done.
  - apply join_forallb; [done|]. apply Forall_map.
    eapply Forall_impl; [exact Hall|]. intros [n u] [Hn _]. simpl in *.
    unfold render_token. simpl. rewrite forallb_app. apply andb_true_iff. split.
    + apply numeral_lower. done.
    + destruct u; done.
Qed.

Lemma parse_render toks :
  NoDup (map snd toks) ->
  Forall (fun t => numeral pyfloat t.1) toks ->
  _parse_time_string pyfloat (render toks) = Ret (fractional_hours pyfloat toks).
Proof.
  intros Hnd Hall. unfold _parse_time_string.
  rewrite render_normal by done. unfold render.
  rewrite split_ws_join by (apply render_chars; done).
  rewrite parse_parts_tokens by done. simpl.
  unfold to_hours, fractional_hours, amount. f_equal.
  pose proof (fold_store_get UH toks (mk_hms 0 0 0) Hnd) as HH.
  pose proof (fold_store_get UM toks (mk_hms 0 0 0) Hnd) as HM.
  pose proof (fold_store_get US toks (mk_hms 0 0 0) Hnd) as HS.
  simpl in HH, HM, HS. rewrite HH, HM, HS. unfold token_value. done.
Qed.

Lemma parse_parts_bad parts acc :
  Exists (bad_part pyfloat) parts ->
  exists e, parse_parts pyfloat acc parts = Raise e.
Proof.
  revert acc. induction parts as [|p parts IH]; intros acc Hex.
  - apply Exists_nil in Hex. done.
  - apply Exists_cons in Hex as [Hbad|Hex].
    + cbn [parse_parts]. unfold parse_part, py_float.
      destruct Hbad as [(-> & ->)|[(-> & -> & ->)|(-> & -> & -> & ->)]];
        eexists; reflexivity.
    + cbn [parse_parts]. destruct (parse_part pyfloat acc p) as [acc'|e].
      * apply (IH acc' Hex).
      * eexists; reflexivity.
Qed.

Lemma parse_parts_good parts acc :
  ~ Exists (bad_part pyfloat) parts ->
  exists a, parse_parts pyfloat acc parts = Ret a.
Proof.
  revert acc. induction parts as [|p parts IH]; intros acc Hgood; [eexists; reflexivity|].
  assert (Hp : ~ bad_part pyfloat p) by (intros Hp; apply Hgood, Exists_cons_hd, Hp).
  assert (Hrest : ~ Exists (bad_part pyfloat) parts)
    by (intros Hex; apply Hgood, Exists_cons_tl, Hex).
  assert (Hstep : exists acc', parse_part pyfloat acc p = Ret acc').
  { unfold parse_part, py_float, bad_part in *.
    destruct (contains_char "h" p).
    { destruct (pyfloat (replace_char "h" [] p)); [eexists; reflexivity|].
      exfalso. apply Hp. left. done. }
    destruct (contains_char "m" p).
    { destruct (pyfloat (replace_char "m" [] p)); [eexists; reflexivity|].
      exfalso. apply Hp. right. left. done. }
    destruct (contains_char "s" p).
    { destruct (pyfloat (replace_char "s" [] p)); [eexists; reflexivity|].
      exfalso. apply Hp. right. right. done. }
    eexists; reflexivity. }
  destruct Hstep as [acc' Hstep]. cbn [parse_parts]. rewrite Hstep.
  apply (IH acc' Hrest).
Qed.

Lemma parse_parts_no_letter parts acc :
  Forall (fun part => contains_char "h" part = false
                      /\ contains_char "m" part = false
                      /\ contains_char "s" part = false) parts ->
  parse_parts pyfloat acc parts = Ret acc.
Proof.
  induction parts as [|p parts IH]; intros Hall; [done|].
  apply Forall_cons in Hall as [(Hh & Hm & Hs) Hall].
  cbn [parse_parts]. unfold parse_part. rewrite Hh, Hm, Hs.
  apply IH. done.
Qed.

End WithFloat.

(** C4: a duration string made of a subset of the tokens [<number>h],
    [<number>m], [<number>s] in any order (each unit at most once, the
    tokens separated by a blank) parses to [h + m/60 + s/3600], an absent
    unit counting for zero; with [float] reading the integers 1, 2, 30 and
    45, the four documented strings give 1.5125, 0.7583333333333333,
    0.008333333333333333 and 2.0 in binary64. *)
Theorem parse_time_string_tokens (pyfloat : str -> option float) (toks : list token) :
  NoDup (map snd toks) ->
  Forall (fun t => numeral pyfloat t.1) toks ->
  pyfloat "1" = Some 1%float -> pyfloat "2" = Some 2%float ->
  pyfloat "30" = Some 30%float -> pyfloat "45" = Some 45%float ->
  _parse_time_string pyfloat (render toks) = Ret (fractional_hours pyfloat toks)
  /\ _parse_time_string pyfloat "1h 30m 45s" = Ret 1.5125%float
  /\ _parse_time_string pyfloat "45m 30s" = Ret 0.7583333333333333%float
  /\ _parse_time_string pyfloat "30s" = Ret 0.008333333333333333%float
  /\ _parse_time_string pyfloat "2h" = Ret 2%float.
Proof.
  intros Hnd Hall H1 H2 H30 H45.
  assert (Hnum : forall n : string, forallb numeral_char (lit n) = true ->
            is_Some (pyfloat n) -> numeral pyfloat n) by (intros; split; done).
  assert (N1 : numeral pyfloat "1") by (apply Hnum; [done | rewrite H1; eauto]).
  assert (N2 : numeral pyfloat "2") by (apply Hnum; [done | rewrite H2; eauto]).
  assert (N30 : numeral pyfloat "30") by (apply Hnum; [done | rewrite H30; eauto]).
  assert (N45 : numeral pyfloat "45") by (apply Hnum; [done | rewrite H45; eauto]).
  split; [apply parse_render; done|].
  repeat split.
  - change (lit "1h 30m 45s")
      with (render [(lit "1", UH); (lit "30", UM); (lit "45", US)]).
    rewrite parse_render; [| solve_nodup | repeat constructor; done].
    unfold fractional_hours, amount. cbn [find fst snd unit_eqb].
    rewrite H1, H30, H45. done.
  - change (lit "45m 30s") with (render [(lit "45", UM); (lit "30", US)]).
    rewrite parse_render; [| solve_nodup | repeat constructor; done].
    unfold fractional_hours, amount. cbn [find fst snd unit_eqb].
    rewrite H45, H30. done.
  - change (lit "30s") with (render [(lit "30", US)]).
    rewrite parse_render; [| solve_nodup | repeat constructor; done].
    unfold fractional_hours, amount. cbn [find fst snd unit_eqb].
    rewrite H30. done.
  - change (lit "2h") with (render [(lit "2", UH)]).
    rewrite parse_render; [| solve_nodup | repeat constructor; done].
    unfold fractional_hours, amount. cbn [find fst snd unit_eqb].
    rewrite H2. done.
Qed.

Lemma parse_time_string_tokens_witness :
  _parse_time_string float_of_digits "45m 2h" = Ret 2.75%float
  /\ _parse_time_string float_of_digits "1h 30m 45s" = Ret 1.5125%float.
Proof.
  destruct (parse_time_string_tokens float_of_digits
              [(lit "45", UM); (lit "2", UH)]) as (Hgen & Hex & _).
  - solve_nodup.
  - repeat constructor; vm_compute; eauto.
  - reflexivity.
  - reflexivity.
  - reflexivity.
  - reflexivity.
  - split; [exact Hgen | exact Hex].
Defined.

(** C5, as the code has it.  The parser never fails.  When some part of
    the string carries a unit letter but what is left of it without the
    letter is no number, the answer is the default 1.0.  When there is no
    such part the loop runs to its end and the answer is
    hours + minutes/60 + seconds/3600 of what it stored, which is 0.0 for
    a string in which no part carries a unit letter. *)
Theorem parse_time_string_default (pyfloat : str -> option float) (time_str : str) :
  returns (_parse_time_string pyfloat time_str)
  /\ (has_bad_part pyfloat time_str ->
      _parse_time_string pyfloat time_str = Ret 1%float)
  /\ (~ has_bad_part pyfloat time_str ->
      exists a,
        parse_parts pyfloat (mk_hms 0 0 0)
          (split_ws (replace_char "," [] (lower time_str))) = Ret a
        /\ _parse_time_string pyfloat time_str = Ret (to_hours a))
  /\ (no_unit_letter time_str ->
      _parse_time_string pyfloat time_str = Ret 0%float).
Proof.
  unfold _parse_time_string, has_bad_part, no_unit_letter.
  set (parts := split_ws _). repeat split.
  - destruct (parse_parts pyfloat _ parts); eexists; reflexivity.
  - intros Hbad.
    destruct (parse_parts_bad pyfloat parts (mk_hms 0 0 0) Hbad) as [e ->].
    done.
  - intros Hgood.
    destruct (parse_parts_good pyfloat parts (mk_hms 0 0 0) Hgood) as [a Ha].
    exists a. rewrite Ha. done.
  - intros Hno. rewrite parse_parts_no_letter by done. done.
Qed.

Lemma parse_time_string_default_witness :
  _parse_time_string float_of_digits "1h30m" = Ret 1%float
  /\ _parse_time_string float_of_digits "12:30" = Ret 0%float
  /\ (~ has_bad_part float_of_digits "1h"
      /\ _parse_time_string float_of_digits "1h" = Ret 1%float).
Proof.
  assert (Hgood : ~ has_bad_part float_of_digits "1h").
  { unfold has_bad_part. replace (split_ws _) with [lit "1h"] by reflexivity.
    intros Hex. apply Exists_cons in Hex as [Hbad|Hex]; [|apply Exists_nil in Hex; done].
    destruct Hbad as [(_ & H)|[(H & _)|(H & _)]]; vm_compute in H; discriminate H. }
  split; [|split; [|split; [exact Hgood|]]].
  - apply (parse_time_string_default float_of_digits "1h30m").
    unfold has_bad_part.
    replace (split_ws _) with [lit "1h30m"] by reflexivity.
    apply Exists_cons_hd. left. split; reflexivity.
  - apply (parse_time_string_default float_of_digits "12:30").
    unfold no_unit_letter. vm_compute. repeat constructor.
  - destruct (parse_time_string_default float_of_digits "1h") as (_ & _ & Hsum & _).
    destruct (Hsum Hgood) as (a & Ha & Hres).
    rewrite Hres. vm_compute in Ha. injection Ha as <-. reflexivity.
Defined.

(** C5 as stated fails: in "n/a" no time token is recognised, and the
    parser answers 0.0, not the default 1.0. *)
Lemma parse_time_string_no_token_zero :
  no_unit_letter "n/a"
  /\ _parse_time_string float_of_digits "n/a" = Ret 0%float
  /\ _parse_time_string float_of_digits "n/a" <> Ret 1%float.
Proof.
  split; [vm_compute; repeat constructor|].
  split; [reflexivity|]. vm_compute. intros H. discriminate H.
Qed.

End TimeParserFacts.

(* ===================================================================== *)
(** ** The geometry pass                                                   *)
(* ===================================================================== *)

Module GeometryFacts.
Import Config Geometry.

(** Python takes the escaped quotes of the literal for plain quotes: in
    the script the string of the [print] call ends after its two braces. *)
Lemma print_line_written :
  nth 18 (split_on "010" analysis_script) []
  = join [dq]
      [ lit "        print(f";
        lit "{{";
        lit "triangle_count";
        lit ": {triangle_count}, ";
        lit "complexity_score";
        lit ": {complexity}, ";
        lit "volume_mm3";
        lit ": {volume}}}";
        lit ")" ].
Proof. vm_compute. reflexivity. Qed.

(** That line, and no other, has a string literal with a name right after
    it. *)
Lemma script_syntax_errors :
  syntax_errors analysis_script = [nth 18 (split_on "010" analysis_script) []]
  /\ (let line := nth 18 (split_on "010" analysis_script) [] in
      firstn 4 (tokens (length line) line)
      = [NAME "print"; OP "("; STRING; NAME "triangle_count"]).
Proof. split; vm_compute; reflexivity. Qed.

Lemma python_refuses_script traceback ran :
  python analysis_script traceback ran = mk_completed 1 [] traceback.
Proof.
  unfold python. rewrite (proj1 script_syntax_errors). reflexivity.
Qed.

Section WithJson.
Variable json_loads : str -> res dict.

Lemma geometry_falls_back opened d data :
  _analyze_stl_geometry json_loads opened d data = Ret fallback.
Proof.
  unfold _analyze_stl_geometry, subprocess_run.
  destruct opened as [[]|e]; [|reflexivity].
  destruct d as [reason|seconds code diagnostic|seconds traceback ran].
  - reflexivity.
  - destruct (60 <? seconds); reflexivity.
  - destruct (60 <? seconds); [reflexivity|].
    rewrite python_refuses_script. reflexivity.
Qed.

End WithJson.

(** C8: the geometry pass never runs the formula.  The script it writes
    is not Python, so the interpreter exits with code 1 before reading the
    model, and whatever else happens (docker missing or failing, a
    timeout, the script not writable) ends in the same fallback: the score
    is 1.0 for every model.  For a model that declares 50000 triangles the
    claim gives 5.0. *)
Theorem geometry_score_is_fallback (json_loads : str -> res dict) (opened : res unit)
    (d : docker) :
  (forall data, _analyze_stl_geometry json_loads opened d data = Ret fallback)
  /\ (forall data, geometry_score json_loads opened d data = Ret (VFloat 1))
  /\ (forall records,
        Validator.declared_count (dense_model records) = 50000
        /\ geometry_score json_loads opened d (dense_model records) = Ret (VFloat 1)
        /\ claimed_complexity (Validator.declared_count (dense_model records)) = 5%float).
Proof.
  assert (Hscore : forall data, geometry_score json_loads opened d data = Ret (VFloat 1)).
  { intros data. unfold geometry_score. rewrite geometry_falls_back. reflexivity. }
  split; [intros data; apply geometry_falls_back|]. split; [exact Hscore|].
  intros records.
  assert (Hn : Validator.declared_count (dense_model records) = 50000).
  { unfold Validator.declared_count, dense_model, Validator.slice.
    rewrite drop_app_length' by reflexivity. reflexivity. }
  split; [exact Hn|]. split; [apply Hscore|]. rewrite Hn. reflexivity.
Qed.

(** The values of the claimed score at a few counts. *)
Example claimed_complexity_values :
  claimed_complexity 0 = 0%float
  /\ claimed_complexity 10000 = 1%float
  /\ claimed_complexity 49999 = 4.9999%float
  /\ claimed_complexity 50000 = 5%float
  /\ claimed_complexity 4294967295 = 5%float.
Proof. repeat split; vm_compute; reflexivity. Qed.

End GeometryFacts.

(* ===================================================================== *)
(** ** Running the slicer                                                  *)
(* ===================================================================== *)

Module RunnerFacts.
Import Runner.



End RunnerFacts.

(* ===================================================================== *)
(** ** The worker task                                                     *)
(* ===================================================================== *)

Module WorkerFacts.
Import Runner Worker.

Section Rules.
Context {A B : Type}.
Implicit Types (Q : A -> st -> Prop) (E : exn -> st -> Prop) (s : st).

Lemma wp_bind (m : T A) (k : A -> T B) (R : B -> st -> Prop) E s :
  wp m (fun a => wp (k a) R E) E s -> wp (m ≫= k) R E s.
Proof.
  unfold wp, mbind, T_bind, bindT. destruct (m s) as [[a|e] s']; done.
Qed.

Lemma wp_ret (a : A) Q E s : Q a s -> wp (retT a) Q E s.
Proof. done. Qed.

Lemma wp_raise c msg Q E s : E (mk_exn c msg) s -> wp (raiseT c msg) Q E s.
Proof. done. Qed.

Lemma wp_lift (r : res A) Q E s :
  match r with Ret a => Q a s | Raise e => E e s end -> wp (liftT r) Q E s.
Proof. unfold wp, liftT. destruct r; done. Qed.

Lemma wp_try_except (body : T A) h Q E s :
  wp body Q (fun e => wp (h e) Q E) s -> wp (try_exceptT body h) Q E s.
Proof.
  unfold wp, try_exceptT. destruct (body s) as [[a|e] s']; done.
Qed.

Lemma wp_try_finally (body : T A) final Q E s :
  wp body (fun a => wp final (fun _ => Q a) E)
          (fun e => wp final (fun _ => E e) E) s ->
  wp (try_finallyT body final) Q E s.
Proof.
  unfold wp, try_finallyT. destruct (body s) as [[a|e] s'];
    destruct (final s') as [[[]|e'] s'']; done.
Qed.

End Rules.

Lemma wp_modify f (Q : unit -> st -> Prop) E s : Q tt (f s) -> wp (modify f) Q E s.
Proof. done. Qed.

Section Task.
Variable w : world.
Variables task_id job_id file_id : str.

Lemma wp_call c (Q : unit -> st -> Prop) E s :
  Q tt s -> (forall e, faults w c = Some e -> E e s) -> wp (call_ w c) Q E s.
Proof. unfold wp, call_. intros HQ HE. destruct (faults w c); auto. Qed.

Lemma wp_run_slicer (Q : PrintMetrics -> st -> Prop) E s :
  (forall r log,
     analyze_stl (slicer_tmp w) (slicer_prepare w) (engine w) (parsed w) = (r, log) ->
     match r with
     | Ret a => Q a (with_procs log s)
     | Raise e => E e (with_procs log s)
     end) ->
  wp (run_slicer w) Q E s.
Proof.
  unfold wp, run_slicer. intros H.
  destruct (analyze_stl _ _ _ _) as [r log] eqn:Heq.
  specialize (H r log eq_refl). destruct r; done.
Qed.

Lemma wp_cleanup (Q : unit -> st -> Prop) E s :
  (if service_bound s then
     match faults w WorkspaceExists with
     | Some _ => Q tt s
     | None =>
         if bool_decide (workspace w job_id ∈ fs s)
         then Q tt (with_fs (rmtree (refuses w) (workspace w job_id)) s) else Q tt s
     end
   else Q tt s) ->
  wp (cleanup w job_id) Q E s.
Proof.
  unfold wp, cleanup, try_exceptT, service_local, remove_if_exists, rmtree_existing,
    mbind, T_bind, bindT, call_.
  destruct (service_bound s); [|done].
  destruct (faults w WorkspaceExists); [done|].
  destruct (bool_decide _); done.
Qed.

Lemma wp_close_db (Q : unit -> st -> Prop) E s :
  (if db_bound s then wp (call_ w DbClose) Q E s
   else forall e, E e s) ->
  wp (close_db w) Q E s.
Proof.
  unfold wp, close_db. destruct (db_bound s); [done|]. intros H. apply H.
Qed.

Lemma run_task_wp (R : st -> Prop) s :
  wp (analyze_stl_task w task_id job_id file_id)
     (fun r s2 => R (with_backend task_id (SUCCESS r) s2))
     (fun e s2 => R (with_backend task_id (FAILURE (exn_msg e)) s2))
     (with_backend task_id (STARTED (worker_info w)) s) ->
  R (run_task w task_id job_id file_id s).
Proof.
  unfold wp, run_task. destruct (analyze_stl_task _ _ _ _ _) as [[r|e] s2]; done.
Qed.

Ltac wp_step :=
  lazymatch goal with
  | |- wp (mbind _ _) _ _ _ => apply wp_bind
  | |- wp (retT _) _ _ _ => apply wp_ret
  | |- wp (raiseT _ _) _ _ _ => apply wp_raise
  | |- wp (liftT _) _ _ _ => apply wp_lift
  | |- wp (modify _) _ _ _ => apply wp_modify
  | |- wp (call_ _ _) _ _ _ => apply wp_call; [|intros ? ?]
  | |- wp (try_exceptT _ _) _ _ _ => apply wp_try_except
  | |- wp (try_finallyT _ _) _ _ _ => apply wp_try_finally
  | |- wp (cleanup _ _) _ _ _ => apply wp_cleanup
  | |- wp (close_db _) _ _ _ => apply wp_close_db
  | |- wp (run_slicer _) _ _ _ => apply wp_run_slicer; intros [?|?] ? ?
  | |- wp (update_state _ _ _ _) _ _ _ => unfold update_state
  | |- wp (commit _ _) _ _ _ => unfold commit
  | |- wp (service_init _) _ _ _ => unfold service_init
  | |- wp (_prepare_analysis_workspace _ _) _ _ _ => unfold _prepare_analysis_workspace
  | |- wp (task_body _ _ _ _) _ _ _ => unfold task_body
  | |- wp (analyze_stl_task _ _ _ _) _ _ _ => unfold analyze_stl_task
  | |- wp (match file_record ?w with _ => _ end) _ _ _ => destruct (file_record w) eqn:?
  | |- wp (if ?b then _ else _) _ _ _ => destruct b eqn:?
  | |- match _validate_stl_file ?w with _ => _ end => destruct (_validate_stl_file w) as [[[] ?]|?] eqn:?
  | |- wp (let '(_, _) := ?p in _) _ _ _ => destruct p
  | |- if service_bound _ then _ else _ => cbn [service_bound with_fs with_backend with_procs with_saved bind_service bind_db init_st]
  | |- if db_bound _ then _ else _ => cbn [db_bound with_fs with_backend with_procs with_saved bind_service bind_db init_st]
  | |- match faults ?w WorkspaceExists with _ => _ end =>
      destruct (faults w WorkspaceExists) eqn:?
  | |- if bool_decide _ then _ else _ => case_bool_decide
  end.


Lemma startswith_length (p s : str) : startswith p s = true -> (length p <= length s)%nat.
Proof.
  revert s. induction p as [|a p IH]; intros [|c s]; simpl; try done; [lia|].
  intros [_ H]%andb_true_iff. apply IH in H. lia.
Qed.

Lemma temp_dir_outside : is_under (workspace w job_id) (temp_dir w) = false.
Proof.
  unfold is_under, workspace, path_join. apply orb_false_iff. split.
  - apply bool_decide_eq_false. intros H. apply (f_equal length) in H.
    rewrite length_app in H. simpl in H. lia.
  - apply not_true_iff_false. intros H%startswith_length.
    rewrite !length_app in H. simpl in H. lia.
Qed.

Lemma startswith_prefix (p s : str) : startswith p s = true <-> exists t, s = p ++ t.
Proof.
  revert s. induction p as [|a p IH]; intros s; simpl.
  { split; [eauto | done]. }
  destruct s as [|c s]; [split; [done | intros [t Ht]; discriminate Ht]|].
  rewrite andb_true_iff, eqc_true, IH. split.
  - intros [-> [t ->]]. eauto.
  - intros [t [= -> ->]]. eauto.
Qed.

Lemma is_under_trans (a b c : str) :
  is_under a b = true -> is_under b c = true -> is_under a c = true.
Proof.
  unfold is_under. rewrite !orb_true_iff, !bool_decide_eq_true, !startswith_prefix.
  intros [->|[t ->]] [->|[u ->]]; eauto.
  right. exists (t ++ "/"%char :: u). rewrite <- !app_assoc. done.
Qed.

(** Where no removal is refused inside [ws], nothing of [ws] is left. *)
Lemma clean_rmtree refuses ws paths :
  (forall q, is_under ws q = true -> refuses q = false) ->
  clean ws (rmtree refuses ws paths).
Proof.
  intros Hrm p Hp. unfold rmtree in Hp. apply elem_of_filter in Hp as [[Hout|Hkept] _]; [done|].
  destruct (is_under ws p) eqn:Hu; [exfalso|done].
  apply existsb_exists in Hkept as (q & _ & Hand).
  apply andb_true_iff in Hand as [Hpq Hr].
  rewrite (Hrm q) in Hr; [done|]. eapply is_under_trans; done.
Qed.

Lemma refuses_none q : faults w (Remove q) = None -> refuses w q = false.
Proof. unfold refuses. intros ->. apply bool_decide_eq_false. intros [e He]. done. Qed.

Lemma clean_add ws p paths :
  is_under ws p = false -> clean ws paths -> clean ws ({[ p ]} ∪ paths).
Proof.
  intros Hp Hc q Hq. apply elem_of_union in Hq as [Hq|Hq].
  - apply elem_of_singleton in Hq. subst q. done.
  - apply Hc. done.
Qed.

Ltac project :=
  cbn [fs backend history procs saved service_bound db_bound
       with_fs with_backend with_procs with_saved bind_service bind_db init_st].

Ltac solve_clean Hclean Hrm :=
  project;
  first [ exact Hclean
        | apply clean_rmtree; intros q Hq; apply refuses_none, Hrm, Hq
        | apply clean_add; [apply temp_dir_outside | exact Hclean]
        | congruence
        | exfalso; set_solver ].

Lemma run_task_clean (paths : gset (list ascii)) b :
  clean (workspace w job_id) paths ->
  (exists x, backend (run_task w task_id job_id file_id (init_st paths b)) !! task_id = Some x
             /\ terminal x)
  /\ (faults w WorkspaceExists = None ->
      (forall q, is_under (workspace w job_id) q = true -> faults w (Remove q) = None) ->
      clean (workspace w job_id) (fs (run_task w task_id job_id file_id (init_st paths b)))).
Proof.
  intros Hclean. apply run_task_wp. repeat wp_step.
  all: (split; [project; eexists; split; [apply lookup_insert_eq | exact I]|]).
  all: intros Hex Hrm; solve_clean Hclean Hrm.
Qed.


(** *** Progress as seen by status queries *)

Lemma status_progress (bk : gmap (list ascii) celery_state) (key : str) :
  progress (get_analysis_status bk key) = state_progress (default PENDING (bk !! key)).
Proof. unfold get_analysis_status. destruct (default PENDING (bk !! key)); done. Qed.

Lemma mono_from_sound l hi :
  0 <= hi -> mono_from hi l = true ->
  (forall j xj, l !! j = Some xj -> is_failure xj = false -> hi <= state_progress xj)
  /\ mono_states l.
Proof.
  revert hi. induction l as [|x l IH]; intros hi Hhi Hm.
  { split; [intros j xj Hj; done | intros i j xi xj _ Hi; done]. }
  simpl in Hm. destruct (is_failure x) eqn:Hx.
  - destruct (IH hi Hhi Hm) as [Hlo Hmono]. split.
    + intros [|j] xj Hj Hf; simpl in Hj; [congruence | eauto].
    + intros [|i] [|j] xi xj Hij Hi Hj Hf; simpl in Hi, Hj.
      * congruence.
      * assert (xi = x) by congruence. subst xi.
        destruct x; try done. simpl. specialize (Hlo j xj Hj Hf). lia.
      * lia.
      * apply (Hmono i j); [lia|done..].
  - apply andb_true_iff in Hm as [Hle Hm]. apply Z.leb_le in Hle.
    destruct (IH (state_progress x) ltac:(lia) Hm) as [Hlo Hmono]. split.
    + intros [|j] xj Hj Hf; simpl in Hj.
      * assert (xj = x) by congruence. subst xj. done.
      * specialize (Hlo j xj Hj Hf). lia.
    + intros [|i] [|j] xi xj Hij Hi Hj Hf; simpl in Hi, Hj.
      * assert (xi = xj) by congruence. subst. lia.
      * assert (xi = x) by congruence. subst xi. eauto.
      * lia.
      * apply (Hmono i j); [lia|done..].
Qed.

(** The states of the task that the backends of [replay] hold are the
    writes themselves; another key is never touched. *)
Lemma replay_lookup_task bk writes :
  map (fun b' => default PENDING (b' !! task_id)) (replay task_id bk writes) = writes.
Proof.
  revert bk. induction writes as [|x writes IH]; intros bk; [done|].
  simpl. rewrite lookup_insert_eq. simpl. f_equal. apply IH.
Qed.

Lemma replay_lookup_other bk writes (key : str) bj :
  key <> task_id -> bj ∈ replay task_id bk writes -> bj !! key = bk !! key.
Proof.
  intros Hne. revert bk. induction writes as [|x writes IH]; intros bk Hin.
  { apply elem_of_nil in Hin. done. }
  simpl in Hin. apply elem_of_cons in Hin as [->|Hin].
  - apply lookup_insert_ne. done.
  - rewrite (IH _ Hin). apply lookup_insert_ne. done.
Qed.

(** Whatever happens, the states the task writes report non-decreasing
    progress up to a [FAILURE]. *)
Lemma history_monotone (paths : gset (list ascii)) bk :
  mono_from 0 (PENDING :: history (run_task w task_id job_id file_id (init_st paths bk))) = true.
Proof.
  apply run_task_wp. repeat wp_step. all: reflexivity.
Qed.

Lemma snapshots_monotone (paths : gset (list ascii)) (bk : gmap (list ascii) celery_state) (key : str) i j bi bj :
  bk !! task_id = None ->
  (i <= j)%nat ->
  snapshots w task_id job_id file_id paths bk !! i = Some bi ->
  snapshots w task_id job_id file_id paths bk !! j = Some bj ->
  (forall info, bj !! key <> Some (FAILURE info)) ->
  progress (get_analysis_status bi key) <= progress (get_analysis_status bj key).
Proof.
  intros Hfresh Hij Hi Hj Hnf. rewrite !status_progress.
  unfold snapshots in Hi, Hj.
  set (writes := history _) in *.
  destruct (decide (key = task_id)) as [->|Hne].
  - pose proof (history_monotone paths bk) as Hm. fold writes in Hm.
    apply mono_from_sound in Hm as [_ Hm]; [|done].
    assert (Hst : map (fun b' => default PENDING (b' !! task_id))
                      (bk :: replay task_id bk writes) = PENDING :: writes).
    { simpl. rewrite Hfresh, replay_lookup_task. done. }
    apply (Hm i j).
    + done.
    + rewrite <- Hst, list_lookup_fmap, Hi. done.
    + rewrite <- Hst, list_lookup_fmap, Hj. done.
    + destruct (bj !! task_id) as [[]|] eqn:Hbj; try done.
      exfalso. eapply Hnf. reflexivity.
  - assert (Hall : forall b', b' ∈ bk :: replay task_id bk writes -> b' !! key = bk !! key).
    { intros b' [->|Hin]%elem_of_cons; [done|].
      eapply replay_lookup_other; done. }
    rewrite (Hall bi), (Hall bj); [lia|..]; eapply list_elem_of_lookup_2; done.
Qed.


(** The backend ends with the last state the task wrote. *)
Lemma last_write (paths : gset (list ascii)) bk x :
  last (history (run_task w task_id job_id file_id (init_st paths bk))) = Some x ->
  backend (run_task w task_id job_id file_id (init_st paths bk)) !! task_id = Some x.
Proof.
  unfold run_task. destruct (analyze_stl_task _ _ _ _ _) as [[r|e] s2];
    cbn [history backend with_backend]; rewrite last_snoc; intros [= <-];
    apply lookup_insert_eq.
Qed.

(** *** A run without infrastructure faults *)

(** Closes the branches that what is known of the world excludes; the
    case analyses of the walk rewrite these facts in place. *)
Ltac prune Hnf Hrec Hdisk Hv :=
  try match goal with
      | H : faults _ _ = Some _ |- _ => rewrite Hnf in H; discriminate H
      end;
  try first [discriminate Hrec | discriminate Hdisk | discriminate Hv].


(** When the validator rejects the stored file with [reason] and nothing
    else fails: the writes of the task. *)
Lemma rejected_run (paths : gset (list ascii)) bk path reason :
  (forall c, faults w c = None) ->
  file_record w = Some path -> file_on_disk w = true ->
  verdict w = Ret (false, Some reason) ->
  history (run_task w task_id job_id file_id (init_st paths bk)) =
    [STARTED (worker_info w);
     PROGRESS 10 "Initializing analysis...";
     PROGRESS 20 "Validating STL file...";
     FAILURE (fmt ["Analysis failed: " : str; fmt ["Invalid STL file: " : str; reason]])].
Proof.
  intros Hnf Hrec Hdisk Hv.
  assert (Hv' : _validate_stl_file w = Ret (false, Some reason)).
  { unfold _validate_stl_file. rewrite Hv. done. }
  apply run_task_wp. repeat wp_step.
  all: prune Hnf Hrec Hdisk Hv'.
  all: inversion Hv'; reflexivity.
Qed.





End Task.

(** C1, as the code has it.  A task started where nothing of its workspace
    [temp_dir / job_id] exists ends [SUCCESS] or [FAILURE] whatever fails
    (an infrastructure call, a missing file, the validator, the slicer
    with an engine error, a timeout or a missing output, or nothing at
    all), and on every one of these exit paths the workspace is removed:
    nothing of it is left, provided the [exists()] of the error path does
    not raise and no removal inside the workspace is refused.  These two
    errors are the ones the code silences. *)
Theorem workspace_released (w : world) (task_id job_id file_id : str)
    (paths : gset (list ascii)) (bk : gmap (list ascii) celery_state) :
  clean (workspace w job_id) paths ->
  (exists x, backend (run_task w task_id job_id file_id (init_st paths bk)) !! task_id = Some x
             /\ terminal x)
  /\ (faults w WorkspaceExists = None ->
      (forall q, is_under (workspace w job_id) q = true -> faults w (Remove q) = None) ->
      clean (workspace w job_id) (fs (run_task w task_id job_id file_id (init_st paths bk)))).
Proof. apply run_task_clean. Qed.

Lemma workspace_released_witness :
  clean (workspace (slicing_world 301) "job-1")
        (fs (run_task (slicing_world 301) "task-1" "job-1" "file-1" (init_st ∅ ∅))).
Proof.
  apply (workspace_released (slicing_world 301) "task-1" "job-1" "file-1" ∅ ∅).
  - intros p Hp. apply elem_of_empty in Hp. destruct Hp.
  - reflexivity.
  - intros q _. reflexivity.
Defined.

(** C1 as stated fails.  In each of three runs the task reaches its
    terminal state and the workspace is still there: the slicing succeeds
    and the removal of [input.stl] is refused, which [ignore_errors]
    hides; the slicer times out and [workspace.exists()] raises, which
    [except: pass] hides; the database cannot be reached by a task whose
    workspace exists already, and the cleanup, with [service] unbound,
    does nothing. *)
Lemma workspace_left_behind :
  let ws : str := "/tmp/stl_analysis/job-1" in
  let s1 := run_task Worlds.stuck_input "task-1" "job-1" "file-1" (init_st ∅ ∅) in
  let s2 := run_task Worlds.unseen_workspace "task-1" "job-1" "file-1" (init_st ∅ ∅) in
  let s3 := run_task Worlds.no_database "task-1" "job-1" "file-1" (init_st {[ ws ]} ∅) in
  workspace Worlds.stuck_input "job-1" = ws
  /\ (backend s1 !! ("task-1" : str) = Some (SUCCESS "r-1") /\ ws ∈ fs s1)
  /\ (backend s2 !! ("task-1" : str) = Some (FAILURE timeout_failure) /\ ws ∈ fs s2)
  /\ (is_failure (default PENDING (backend s3 !! ("task-1" : str))) = true /\ ws ∈ fs s3).
Proof.
  cbv zeta. split; [reflexivity|].
  repeat split; try (vm_compute; reflexivity);
    apply bool_decide_eq_true; vm_compute; reflexivity.
Qed.



(** C7, as the code has it.  For a task that starts with no state recorded
    under its id: whatever id the status is asked under, the progress
    reported never decreases from one committed state of the task to a
    later one, unless the later report is of a [FAILURE].  When the
    validator rejects the file, the row and the file being there and no
    infrastructure call failing, the task ends [FAILURE] with the error
    "Analysis failed: Invalid STL file: <reason>", the last progress
    recorded having been 20, and [get_analysis_status] reports that state,
    under the id it is recorded under, as "failed" with that error and
    progress 0. *)
Theorem status_progress_until_failure (w : world) (task_id job_id file_id : str)
    (paths : gset (list ascii)) (bk : gmap (list ascii) celery_state) :
  bk !! task_id = None ->
  (forall (key : str) i j bi bj,
     (i <= j)%nat ->
     snapshots w task_id job_id file_id paths bk !! i = Some bi ->
     snapshots w task_id job_id file_id paths bk !! j = Some bj ->
     (forall info, bj !! key <> Some (FAILURE info)) ->
     progress (get_analysis_status bi key) <= progress (get_analysis_status bj key))
  /\ (forall path reason,
        (forall c, faults w c = None) ->
        file_record w = Some path -> file_on_disk w = true ->
        verdict w = Ret (false, Some reason) ->
        let msg := fmt ["Analysis failed: " : str; fmt ["Invalid STL file: " : str; reason]] in
        history (run_task w task_id job_id file_id (init_st paths bk)) =
          [STARTED (worker_info w);
           PROGRESS 10 "Initializing analysis...";
           PROGRESS 20 "Validating STL file...";
           FAILURE msg]
        /\ get_analysis_status
             (backend (run_task w task_id job_id file_id (init_st paths bk))) task_id
           = mk_status task_id "failed" 0 msg None (Some msg)).
Proof.
  intros Hfresh. split.
  - intros key i j bi bj. apply snapshots_monotone. done.
  - intros path reason Hnf Hrec Hdisk Hv msg.
    pose proof (rejected_run w task_id job_id file_id paths bk path reason
                  Hnf Hrec Hdisk Hv) as Hh.
    split; [exact Hh|].
    assert (Hb : backend (run_task w task_id job_id file_id (init_st paths bk)) !! task_id
                 = Some (FAILURE msg)).
    { apply (last_write w task_id job_id file_id paths bk). rewrite Hh. done. }
    unfold get_analysis_status. rewrite Hb. done.
Qed.

Lemma status_progress_until_failure_witness :
  progress (get_analysis_status
              (backend (run_task rejecting_world "task-1" "job-1" "file-1" (init_st ∅ ∅)))
              "task-1") = 0.
Proof.
  destruct (status_progress_until_failure rejecting_world "task-1" "job-1" "file-1" ∅ ∅)
    as [_ Hrej]; [reflexivity|].
  destruct (Hrej ("/data/cube.stl" : str) ("STL file contains no triangles" : str))
    as [_ Hst].
  - reflexivity.
  - reflexivity.
  - reflexivity.
  - reflexivity.
  - rewrite Hst. reflexivity.
Defined.

(** C7 as stated fails, whichever id the job is observed under.  The
    validator rejects the file of job "job-1", run as task "task-1".
    Under the id of the task the last progress reported was 20 and the
    failed status reports 0, and its error is not the rejection reason but
    the reason with two prefixes; under the id of the job no observation
    is "failed" at all. *)
Lemma rejection_resets_progress :
  let seen := snapshots rejecting_world "task-1" "job-1" "file-1" ∅ ∅ in
  let obs := map (fun b => get_analysis_status b "task-1") seen in
  let obs_job := map (fun b => get_analysis_status b "job-1") seen in
  map progress obs = [0; 0; 10; 20; 0]
  /\ map status obs = ["pending" : str; "failed" : str; "processing" : str;
                       "processing" : str; "failed" : str]
  /\ (error <$> last obs) <> Some (Some ("STL file contains no triangles" : str))
  /\ map status obs_job = ["pending" : str; "pending" : str; "pending" : str;
                           "pending" : str; "pending" : str]
  /\ map error obs_job = [None; None; None; None; None].
Proof.
  vm_compute. repeat split. intros H. discriminate H.
Qed.

End WorkerFacts.

(* ===================================================================== *)
(** ** The validator                                                       *)
(* ===================================================================== *)

Module ValidatorFacts.
Import Validator.

Section WithBuiltins.
Variable pyfloat : str -> option float.
Variable decode : list byte -> str.
Variable repr_float : float -> str.
Variable file : stl_file.

#[local] Abbreviation check_triangles := (check_triangles repr_float file).
#[local] Abbreviation _validate_binary_stl := (_validate_binary_stl repr_float file).
#[local] Abbreviation _validate_ascii_stl := (_validate_ascii_stl pyfloat decode file).
#[local] Abbreviation _validate_stl_format := (_validate_stl_format pyfloat decode repr_float file).
#[local] Abbreviation validate_file := (validate_file pyfloat decode repr_float file).

(** *** Every verdict is [(True, None)] or [(False, message)] *)

Lemma bind_Ret {A B} (m : res A) (k : A -> res B) b :
  m ≫= k = Ret b -> exists a, m = Ret a /\ k a = Ret b.
Proof. destruct m as [a|e]; [eauto | done]. Qed.

Lemma ret_bind {A B} (a : A) (k : A -> res B) : Ret a ≫= k = k a.
Proof. done. Qed.

Lemma raise_bind {A B} (e : exn) (k : A -> res B) : Raise e ≫= k = Raise e.
Proof. done. Qed.

Lemma try_except_only_Ret {A} catches (body : res A) h a :
  try_except_only catches body h = Ret a ->
  body = Ret a \/ exists e, body = Raise e /\ h e = Ret a.
Proof.
  unfold try_except_only. destruct body as [a'|e]; [intros [= ->]; auto|].
  destruct (catches _); [eauto | done].
Qed.

Lemma check_triangles_rejects indices f v :
  check_triangles indices f = Ret (Some v) -> rejection v.
Proof.
  revert f. induction indices as [|i rest IH]; intros f; [done|].
  cbn [Validator.check_triangles].
  intros (_ & _ & H)%bind_Ret.
  destruct (fread 50 f) as [triangle_data f'].
  destruct (negb _); [injection H as <-; eexists; reflexivity|].
  apply bind_Ret in H as (r & Hr & H).
  destruct r as [v'|]; [|eauto].
  injection H as ->.
  apply try_except_only_Ret in Hr as [Hr|(e & _ & Hr)].
  - apply bind_Ret in Hr as (? & _ & Hr). apply bind_Ret in Hr as (? & _ & Hr).
    apply bind_Ret in Hr as (? & _ & Hr). apply bind_Ret in Hr as (? & _ & Hr).
    destruct (find _ _); [|done]. injection Hr as <-. eexists; reflexivity.
  - injection Hr as <-. eexists; reflexivity.
Qed.


Lemma try_except_Ret {A} (body : res A) h a :
  try_except body h = Ret a ->
  body = Ret a \/ exists e, body = Raise e /\ h e = Ret a.
Proof. unfold try_except. destruct body as [a'|e]; [intros [= ->]; auto | eauto]. Qed.

(** A [try] whose handler returns always returns. *)
Lemma try_except_total {A} (body : res A) h :
  (forall e, returns (h e)) -> returns (try_except body h).
Proof. intros Hh. destruct body as [a|e]; [eexists; reflexivity | apply Hh]. Qed.

Ltac reject := eexists; reflexivity.

Lemma check_vertex_rejects lines i j v :
  check_vertex pyfloat lines i j = Ret (Some v) -> rejection v.
Proof.
  unfold check_vertex. intros (l & _ & H)%bind_Ret.
  destruct (negb (startswith _ _)); [injection H as <-; reject|].
  apply try_except_only_Ret in H as [H|(e & _ & H)].
  - destruct (negb (_ =? _)%nat); [injection H as <-; reject|].
    apply bind_Ret in H as (? & _ & H). done.
  - injection H as <-. reject.
Qed.

Lemma check_vertices_rejects lines i js v :
  check_vertices pyfloat lines i js = Ret (Some v) -> rejection v.
Proof.
  induction js as [|j js IH]; [done|]. cbn [check_vertices].
  intros ([v'|] & Hr & H)%bind_Ret.
  - injection H as ->. eapply check_vertex_rejects. done.
  - auto.
Qed.

Lemma check_facet_rejects lines i v :
  check_facet pyfloat lines i = Ret (Some v) -> rejection v.
Proof.
  unfold check_facet. destruct (_ <=? _)%nat; [intros [= <-]; reject|].
  intros (l1 & _ & H)%bind_Ret.
  destruct (negb (str_eqb _ _)); [injection H as <-; reject|].
  apply bind_Ret in H as ([v'|] & Hr & H).
  - injection H as ->. eapply check_vertices_rejects. done.
  - apply bind_Ret in H as (l5 & _ & H).
    destruct (negb (str_eqb _ _)); [injection H as <-; reject|].
    apply bind_Ret in H as (l6 & _ & H).
    destruct (negb (str_eqb _ _)); [injection H as <-; reject | done].
Qed.

Lemma scan_facets_rejects fuel lines i n v :
  scan_facets pyfloat fuel lines i n = Ret (Returned v) -> rejection v.
Proof.
  revert i n. induction fuel as [|fuel IH]; intros i n; [done|].
  cbn [scan_facets]. destruct (_ <? _); [|done].
  intros (l & _ & H)%bind_Ret.
  destruct (startswith _ _); [|eauto].
  apply bind_Ret in H as ([v'|] & Hr & H).
  - injection H as ->. eapply check_facet_rejects. done.
  - eauto.
Qed.

(** The loop ends before its fuel does. *)
Lemma scan_facets_fuel fuel lines i n :
  (length lines <= fuel + i)%nat -> (1 <= fuel)%nat ->
  scan_facets pyfloat fuel lines i n <> Ret OutOfFuel.
Proof.
  revert i n. induction fuel as [|fuel IH]; intros i n Hlen Hpos; [lia|].
  cbn [scan_facets]. destruct (_ <? _) eqn:Hlt; [|done].
  apply Z.ltb_lt in Hlt.
  destruct (item lines i) as [l|e]; [|done]. rewrite ret_bind.
  destruct (startswith _ _).
  - destruct (check_facet pyfloat lines i) as [[v|]|e]; [done| |done].
    rewrite ret_bind. apply IH; lia.
  - apply IH; lia.
Qed.

Lemma binary_proper v : _validate_binary_stl = Ret v -> proper v.
Proof.
  unfold Validator._validate_binary_stl.
  intros [H|(e & _ & H)]%try_except_Ret; [|injection H as <-; right; reject].
  apply bind_Ret in H as (_ & _ & H). apply bind_Ret in H as (_ & _ & H).
  destruct (fread 80 _) as [? f]. apply bind_Ret in H as (_ & _ & H).
  destruct (fread 4 f) as [count_bytes f'].
  destruct (negb (_ =? _)%nat); [injection H as <-; right; reject|].
  destruct (_ =? 0); [injection H as <-; right; reject|].
  destruct (1000000 <? _); [injection H as <-; right; reject|].
  apply bind_Ret in H as (_ & _ & H).
  destruct (negb (_ =? _)); [injection H as <-; right; reject|].
  apply bind_Ret in H as ([v'|] & Hr & H); injection H as <-.
  - right. eapply check_triangles_rejects. done.
  - left. done.
Qed.

Lemma ascii_proper v : _validate_ascii_stl = Ret v -> proper v.
Proof.
  unfold Validator._validate_ascii_stl.
  intros [H|(e & _ & H)]%try_except_Ret; [|injection H as <-; right; reject].
  apply bind_Ret in H as (_ & _ & H). apply bind_Ret in H as (_ & _ & H).
  apply bind_Ret in H as (first & _ & H).
  destruct (negb (startswith _ _)); [injection H as <-; right; reject|].
  apply bind_Ret in H as (final & _ & H).
  destruct (negb (startswith _ _)); [injection H as <-; right; reject|].
  apply bind_Ret in H as (r & Hr & H). destruct r as [v'|n|].
  - injection H as ->. right. eapply scan_facets_rejects. done.
  - destruct (n =? 0); [injection H as <-; right; reject|].
    destruct (1000000 <? n); injection H as <-; [right; reject | left; done].
  - done.
Qed.

Lemma binary_returns : returns _validate_binary_stl.
Proof. apply try_except_total. intros e. eexists; reflexivity. Qed.

Lemma ascii_returns : returns _validate_ascii_stl.
Proof. apply try_except_total. intros e. eexists; reflexivity. Qed.

Lemma format_proper v : _validate_stl_format = Ret v -> proper v.
Proof.
  unfold Validator._validate_stl_format.
  intros [H|(e & _ & H)]%try_except_Ret; [|injection H as <-; right; reject].
  apply bind_Ret in H as (_ & _ & H). apply bind_Ret in H as (_ & _ & H).
  destruct (fread 80 _) as [header ?].
  destruct (bytes_startswith _ _); [eapply ascii_proper | eapply binary_proper]; done.
Qed.

Lemma validate_file_proper v : validate_file = Ret v -> proper v.
Proof.
  unfold Validator.validate_file.
  intros [H|(e & _ & H)]%try_except_Ret; [|injection H as <-; right; reject].
  apply bind_Ret in H as (_ & _ & H).
  destruct (negb (f_exists file)); [injection H as <-; right; reject|].
  apply bind_Ret in H as (_ & _ & H).
  destruct (MAX_FILE_SIZE <? _); [injection H as <-; right; reject|].
  destruct (_ <? MIN_FILE_SIZE); [injection H as <-; right; reject|].
  destruct (negb (str_eqb _ _)); [injection H as <-; right; reject|].
  apply bind_Ret in H as ([is_valid error] & Hfmt & H).
  apply format_proper in Hfmt as [[= -> ->]|[m [= -> ->]]]; cbn in H.
  - injection H as <-. left. done.
  - injection H as <-. right. reject.
Qed.

Lemma validate_file_returns : returns validate_file.
Proof. apply try_except_total. intros e. eexists; reflexivity. Qed.


(** *** Accepting means that no access raised *)

Lemma io_bind_Ret {A} c (k : res A) a :
  (io file c;; k) = Ret a -> f_fault file c = None /\ k = Ret a.
Proof. unfold io. destruct (f_fault file c); done. Qed.

Lemma accepted_body {A} (body : res (bool * A)) h x :
  (forall e, exists m, h e = Ret (false, m)) ->
  try_except body h = Ret (true, x) -> body = Ret (true, x).
Proof.
  intros Hh [H|(e & _ & H)]%try_except_Ret; [done|].
  destruct (Hh e) as [m Hm]. congruence.
Qed.

Lemma bytes_startswith_take n prefix bs :
  (length prefix <= n)%nat ->
  bytes_startswith prefix (take n bs) = bytes_startswith prefix bs.
Proof.
  revert n bs. induction prefix as [|a prefix IH]; intros n bs Hn; [by destruct (take n bs)|].
  simpl in Hn. destruct n as [|n]; [lia|]. destruct bs as [|b bs]; [done|].
  simpl. rewrite IH by lia. done.
Qed.

Lemma header_solid :
  bytes_startswith solid_bytes (fread 80 (mk_handle (f_data file) 0)).1
  = bytes_startswith solid_bytes (f_data file).
Proof.
  unfold fread. cbn [fst h_pos h_data]. rewrite drop_0.
  apply bytes_startswith_take. simpl. lia.
Qed.

Lemma check_triangles_accesses indices f :
  check_triangles indices f = Ret None ->
  Forall (fun i => f_fault file (IoReadBinary (2 + i)) = None) indices.
Proof.
  revert f. induction indices as [|i rest IH]; intros f; [constructor|].
  cbn [Validator.check_triangles]. intros [Hi H]%io_bind_Ret.
  constructor; [done|].
  destruct (fread 50 f) as [triangle_data f'].
  destruct (negb _); [done|].
  apply bind_Ret in H as ([v|] & _ & H); [done|]. eauto.
Qed.

Lemma binary_accesses :
  _validate_binary_stl = Ret (true, None) ->
  Forall (fun c => f_fault file c = None)
    ([IoOpenBinary; IoReadBinary 0; IoReadBinary 1; IoStatBinary]
     ++ map (fun i => IoReadBinary (2 + i))
            (seq 0 (Z.to_nat (Z.min 10 (declared_count (f_data file)))))).
Proof.
  unfold Validator._validate_binary_stl. intros H%accepted_body; [|eauto].
  apply io_bind_Ret in H as [H0 H]. apply io_bind_Ret in H as [H1 H].
  unfold fread at 1 in H. cbn [h_pos h_data] in H.
  apply io_bind_Ret in H as [H2 H].
  unfold fread at 1 in H. cbn [h_pos h_data] in H.
  rewrite drop_0 in H.
  destruct (negb (_ =? _)%nat) eqn:Hlen4; [done|].
  apply negb_false_iff, Nat.eqb_eq in Hlen4.
  assert (Hcount : take 4 (drop (0 + length (take 80 (f_data file))) (f_data file))
                   = slice 80 84 (f_data file)).
  { unfold slice. f_equal. f_equal.
    destruct (decide (80 <= length (f_data file))%nat) as [Hge|Hlt].
    - rewrite length_take. lia.
    - exfalso. rewrite drop_ge in Hlen4 by (rewrite length_take; lia). done. }
  rewrite Hcount in H. fold (declared_count (f_data file)) in H.
  destruct (_ =? 0); [done|]. destruct (1000000 <? _); [done|].
  apply io_bind_Ret in H as [H3 H].
  destruct (negb (_ =? _)); [done|].
  apply bind_Ret in H as ([v|] & Hloop & H).
  { apply check_triangles_rejects in Hloop as [m ->]. done. }
  apply check_triangles_accesses in Hloop.
  repeat (constructor; [done|]). apply Forall_fmap. exact Hloop.
Qed.

Lemma ascii_accesses :
  _validate_ascii_stl = Ret (true, None) ->
  Forall (fun c => f_fault file c = None) [IoOpenText; IoReadText].
Proof.
  unfold Validator._validate_ascii_stl. intros H%accepted_body; [|eauto].
  apply io_bind_Ret in H as [H0 H]. apply io_bind_Ret in H as [H1 H].
  repeat constructor; done.
Qed.

Lemma format_dispatch_eq :
  f_fault file IoOpenFormat = None -> f_fault file IoReadHeader = None ->
  _validate_stl_format =
    if bytes_startswith solid_bytes (f_data file)
    then _validate_ascii_stl else _validate_binary_stl.
Proof.
  intros Hopen Hread. unfold Validator._validate_stl_format, io.
  rewrite Hopen, Hread, !ret_bind.
  pose proof header_solid as Hh.
  destruct (fread 80 _) as [header f]. cbn [fst] in Hh. rewrite Hh. clear Hh.
  destruct (bytes_startswith solid_bytes (f_data file)).
  - destruct ascii_returns as [v ->]. done.
  - destruct binary_returns as [v ->]. done.
Qed.

Lemma validate_file_accesses :
  validate_file = Ret (true, None) ->
  Forall (fun c => f_fault file c = None) (accesses (f_data file)).
Proof.
  unfold Validator.validate_file. intros H%accepted_body; [|eauto].
  apply io_bind_Ret in H as [H0 H].
  destruct (negb (f_exists file)); [done|].
  apply io_bind_Ret in H as [H1 H].
  destruct (MAX_FILE_SIZE <? _); [done|].
  destruct (_ <? MIN_FILE_SIZE); [done|].
  destruct (negb (str_eqb _ _)); [done|].
  apply bind_Ret in H as ([is_valid error] & Hfmt & H).
  destruct is_valid; [|done].
  pose proof (format_proper _ Hfmt) as [[= ->]|[m [=]]].
  assert (H2 : f_fault file IoOpenFormat = None /\ f_fault file IoReadHeader = None).
  { unfold Validator._validate_stl_format in Hfmt.
    apply accepted_body in Hfmt; [|eauto].
    apply io_bind_Ret in Hfmt as [? Hfmt]. apply io_bind_Ret in Hfmt as [? _]. done. }
  destruct H2 as [H2 H3].
  rewrite format_dispatch_eq in Hfmt by done.
  unfold accesses. apply Forall_app. split; [repeat constructor; done|].
  destruct (bytes_startswith _ _).
  - apply ascii_accesses. done.
  - apply binary_accesses. done.
Qed.

(** *** The binary rules *)

Lemma slice_slice {A} (a b c d : nat) (l : list A) :
  (a <= b)%nat -> (c + b <= d)%nat ->
  slice a b (slice c d l) = slice (c + a) (c + b) l.
Proof.
  intros Hab Hbd. unfold slice.
  rewrite skipn_firstn_comm, take_take, drop_drop. f_equal. lia.
Qed.

Lemma length_slice {A} (a b : nat) (l : list A) :
  (b <= length l)%nat -> length (slice a b l) = (b - a)%nat.
Proof. intros Hb. unfold slice. rewrite length_take, length_drop. lia. Qed.

Lemma find_none_Forall {A} (P : A -> bool) (l : list A) :
  find P l = None <-> Forall (fun x => P x = false) l.
Proof.
  induction l as [|x l IH]; simpl; [split; [constructor | done]|].
  destruct (P x) eqn:Hx.
  - split; [done|]. intros [Hx' _]%Forall_cons. congruence.
  - rewrite IH. split; [intros; constructor; done | intros [_ H]%Forall_cons; done].
Qed.

Lemma unpack_3f_slice (a b : nat) (l : list byte) :
  b = (a + 12)%nat -> (b <= length l)%nat ->
  unpack_3f (slice a b l) =
    Ret [f32_of_bits (le_value (slice a (a + 4) l));
         f32_of_bits (le_value (slice (a + 4) (a + 8) l));
         f32_of_bits (le_value (slice (a + 8) (a + 12) l))].
Proof.
  intros -> Hlen. unfold unpack_3f. rewrite length_slice by done.
  replace (a + 12 - a)%nat with 12%nat by lia. cbn [Nat.eqb].
  rewrite !slice_slice by lia. repeat f_equal; lia.
Qed.

(** The twelve numbers the loop looks at in record [i]. *)
Lemma record_coordinates (data : list byte) (i : nat) :
  (84 + 50 * i + 50 <= length data)%nat ->
  let triangle_data := slice (84 + 50 * i) (84 + 50 * i + 50) data in
  exists normal vertex1 vertex2 vertex3,
    unpack_3f (slice 0 12 triangle_data) = Ret normal
    /\ unpack_3f (slice 12 24 triangle_data) = Ret vertex1
    /\ unpack_3f (slice 24 36 triangle_data) = Ret vertex2
    /\ unpack_3f (slice 36 48 triangle_data) = Ret vertex3
    /\ normal ++ vertex1 ++ vertex2 ++ vertex3 = map (coordinate data i) (seq 0 12).
Proof.
  intros Hlen triangle_data. unfold triangle_data.
  rewrite !slice_slice by lia.
  eexists _, _, _, _.
  split; [apply unpack_3f_slice; lia|].
  split; [apply unpack_3f_slice; lia|].
  split; [apply unpack_3f_slice; lia|].
  split; [apply unpack_3f_slice; lia|].
  unfold coordinate. cbn [app map seq].
  repeat (f_equal; try lia).
Qed.

Lemma fread_record (f : handle) (start : nat) :
  h_pos f = (84 + 50 * start)%nat ->
  (84 + 50 * start + 50 <= length (h_data f))%nat ->
  fread 50 f = (slice (84 + 50 * start) (84 + 50 * start + 50) (h_data f),
                mk_handle (h_data f) (84 + 50 * S start)).
Proof.
  intros Hpos Hlen. unfold fread, slice. rewrite Hpos.
  replace (84 + 50 * start + 50 - (84 + 50 * start))%nat with 50%nat by lia.
  f_equal. f_equal. rewrite length_take, length_drop. lia.
Qed.

Lemma check_triangles_spec count start (f : handle) :
  (forall c, f_fault file c = None) ->
  h_pos f = (84 + 50 * start)%nat ->
  (84 + 50 * (start + count) <= length (h_data f))%nat ->
  (check_triangles (seq start count) f = Ret None
   <-> forall i k, (start <= i < start + count)%nat -> (k < 12)%nat ->
         too_large (coordinate (h_data f) i k) = false).
Proof.
  intros Hnf. revert start f. induction count as [|count IH]; intros start f Hpos Hlen.
  { split; [intros _ i k Hi; lia | done]. }
  cbn [seq Validator.check_triangles]. unfold io. rewrite Hnf, ret_bind.
  rewrite (fread_record f start) by (done || lia).
  rewrite length_slice by lia.
  replace (84 + 50 * start + 50 - (84 + 50 * start))%nat with 50%nat by lia.
  cbn [Nat.eqb negb].
  destruct (record_coordinates (h_data f) start ltac:(lia))
    as (normal & vertex1 & vertex2 & vertex3 & -> & -> & -> & -> & Hall).
  rewrite !ret_bind, Hall.
  destruct (find too_large _) as [coord|] eqn:Hfind; cbn [try_except_only]; rewrite ret_bind.
  - split; [done|]. intros H. exfalso.
    apply find_some in Hfind as [Hin Hbig].
    apply in_map_iff in Hin as (k & <- & Hk%in_seq).
    rewrite H in Hbig by lia. done.
  - apply find_none_Forall in Hfind.
    rewrite (IH (S start)); [|done|cbn [h_data]; lia]. cbn [h_data]. split.
    + intros Hrest i k Hi Hk. destruct (decide (i = start)) as [->|Hne].
      * rewrite Forall_forall in Hfind. apply Hfind.
        apply list_elem_of_In, in_map_iff. exists k. split; [done|]. apply in_seq. lia.
      * apply Hrest; lia.
    + intros H i k Hi Hk. apply H; lia.
Qed.

(** The loop returns at the first coordinate that is too large, with that
    coordinate in its message. *)
Lemma find_app {A} (P : A -> bool) (l1 l2 : list A) :
  find P (l1 ++ l2) = match find P l1 with Some x => Some x | None => find P l2 end.
Proof. induction l1 as [|x l1 IH]; simpl; [done|]. destruct (P x); done. Qed.

Lemma check_triangles_first count start (f : handle) :
  (forall c, f_fault file c = None) ->
  h_pos f = (84 + 50 * start)%nat ->
  (84 + 50 * (start + count) <= length (h_data f))%nat ->
  check_triangles (seq start count) f =
    Ret (match find too_large
                 (flat_map (fun i => map (coordinate (h_data f) i) (seq 0 12))
                           (seq start count)) with
         | Some coord =>
             Some (false, Some (fmt ["Invalid coordinate value: " : str; repr_float coord]))
         | None => None
         end).
Proof.
  intros Hnf. revert start f. induction count as [|count IH]; intros start f Hpos Hlen.
  { done. }
  cbn [seq Validator.check_triangles flat_map]. unfold io. rewrite Hnf, ret_bind.
  rewrite (fread_record f start) by (done || lia).
  rewrite length_slice by lia.
  replace (84 + 50 * start + 50 - (84 + 50 * start))%nat with 50%nat by lia.
  cbn [Nat.eqb negb].
  destruct (record_coordinates (h_data f) start ltac:(lia))
    as (normal & vertex1 & vertex2 & vertex3 & -> & -> & -> & -> & Hall).
  rewrite !ret_bind, Hall, find_app.
  destruct (find too_large (map _ _)) as [coord|] eqn:Hfind; cbn [try_except_only];
    rewrite ret_bind; [done|].
  rewrite (IH (S start)); [done | done | cbn [h_data]; lia].
Qed.

Lemma binary_verdict :
  (forall c, f_fault file c = None) ->
  (84 <= length (f_data file))%nat ->
  0 < declared_count (f_data file) <= 1000000 ->
  st_size file = 84 + 50 * declared_count (f_data file) ->
  _validate_binary_stl =
    Ret (match find too_large (checked_coordinates (f_data file)) with
         | Some coord =>
             (false, Some (fmt ["Invalid coordinate value: " : str; repr_float coord]))
         | None => (true, None)
         end).
Proof.
  intros Hnf Hlen Hcount Heq.
  set (data := f_data file) in *. set (n := declared_count data) in *.
  assert (Hhead : fread 80 (mk_handle data 0) = (slice 0 80 data, mk_handle data 80)).
  { unfold fread, slice. cbn [h_pos h_data]. rewrite drop_0, length_take.
    f_equal. f_equal. lia. }
  assert (Hcnt : fread 4 (mk_handle data 80) = (slice 80 84 data, mk_handle data 84)).
  { unfold fread, slice. cbn [h_pos h_data]. rewrite length_take, length_drop.
    f_equal. f_equal. lia. }
  unfold Validator._validate_binary_stl, io. rewrite !Hnf, !ret_bind.
  fold data. rewrite Hhead, ret_bind, Hcnt.
  rewrite length_slice by done. cbn [Nat.sub Nat.eqb negb].
  fold (declared_count data). fold n.
  destruct (n =? 0) eqn:H0; [apply Z.eqb_eq in H0; lia|].
  destruct (1000000 <? n) eqn:H1; [apply Z.ltb_lt in H1; lia|].
  rewrite ret_bind.
  destruct (st_size file =? 80 + 4 + n * 50) eqn:Hsz; [|apply Z.eqb_neq in Hsz; lia].
  cbn [negb]. unfold st_size in Heq. fold data in Heq.
  rewrite (check_triangles_first (Z.to_nat (Z.min 10 n)) 0 (mk_handle data 84) Hnf eq_refl)
    by (cbn [h_data]; lia).
  cbn [h_data]. unfold checked_coordinates. fold n.
  destruct (find too_large _); done.
Qed.

Lemma binary_rules :
  (forall c, f_fault file c = None) ->
  (84 <= length (f_data file))%nat ->
  0 < declared_count (f_data file) <= 1000000 ->
  (st_size file <> 84 + 50 * declared_count (f_data file) ->
   _validate_binary_stl =
     Ret (false, Some (fmt ["Invalid binary STL: size mismatch (expected " : str;
                            str_of_Z (80 + 4 + declared_count (f_data file) * 50);
                            ", got " : str; str_of_Z (st_size file); ")" : str])))
  /\ (st_size file = 84 + 50 * declared_count (f_data file) ->
      (_validate_binary_stl = Ret (true, None)
       <-> forall i k, (Z.of_nat i < Z.min 10 (declared_count (f_data file))) ->
             (k < 12)%nat -> too_large (coordinate (f_data file) i k) = false)).
Proof.
  intros Hnf Hlen Hcount.
  set (data := f_data file) in *. set (n := declared_count data) in *.
  assert (Hhead : fread 80 (mk_handle data 0) = (slice 0 80 data, mk_handle data 80)).
  { unfold fread, slice. cbn [h_pos h_data]. rewrite drop_0, length_take.
    f_equal. f_equal. lia. }
  assert (Hcnt : fread 4 (mk_handle data 80) = (slice 80 84 data, mk_handle data 84)).
  { unfold fread, slice. cbn [h_pos h_data]. rewrite length_take, length_drop.
    f_equal. f_equal. lia. }
  unfold Validator._validate_binary_stl, io. rewrite !Hnf, !ret_bind.
  fold data. rewrite Hhead, ret_bind, Hcnt.
  rewrite length_slice by done. cbn [Nat.sub Nat.eqb negb].
  fold (declared_count data). fold n.
  destruct (n =? 0) eqn:H0; [apply Z.eqb_eq in H0; lia|].
  destruct (1000000 <? n) eqn:H1; [apply Z.ltb_lt in H1; lia|].
  rewrite ret_bind. split.
  - intros Hne. destruct (st_size file =? 80 + 4 + n * 50) eqn:Hsz;
      [apply Z.eqb_eq in Hsz; lia | done].
  - intros Heq. destruct (st_size file =? 80 + 4 + n * 50) eqn:Hsz;
      [|apply Z.eqb_neq in Hsz; lia].
    cbn [negb]. unfold st_size in Heq. fold data in Heq.
    pose proof (check_triangles_spec (Z.to_nat (Z.min 10 n)) 0 (mk_handle data 84) Hnf
                  eq_refl) as Hspec.
    cbn [h_data] in Hspec. specialize (Hspec ltac:(lia)).
    assert (Hsame : (forall i k, (0 <= i < 0 + Z.to_nat (Z.min 10 n))%nat -> (k < 12)%nat ->
                       too_large (coordinate data i k) = false)
                    <-> (forall i k, Z.of_nat i < Z.min 10 n -> (k < 12)%nat ->
                           too_large (coordinate data i k) = false)).
    { split; intros H i k Hi Hk; apply H; lia. }
    rewrite <- Hsame, <- Hspec. clear Hspec Hsame.
    destruct (check_triangles _ _) as [[v|]|e] eqn:Hloop.
    + apply check_triangles_rejects in Hloop as [m ->]. done.
    + done.
    + done.
Qed.

(** The text rules look at the bytes of the file and at the two accesses
    that open and read it as text, at nothing else. *)
Lemma ascii_same (other : stl_file) :
  f_data other = f_data file ->
  f_fault other IoOpenText = f_fault file IoOpenText ->
  f_fault other IoReadText = f_fault file IoReadText ->
  Validator._validate_ascii_stl pyfloat decode other = _validate_ascii_stl.
Proof.
  intros Hd Ho Hr. unfold Validator._validate_ascii_stl, io. rewrite Hd, Ho, Hr. done.
Qed.

End WithBuiltins.

(** C9: [validate_file] always returns a pair, [(True, None)] or
    [(False, message)], whatever the file is and whichever access raises;
    and it accepts only when none of the accesses it makes raised, so an
    exception inside always ends as a rejection. *)
Theorem validate_file_total (pyfloat : str -> option float) (decode : list byte -> str)
    (repr_float : float -> str) (file : stl_file) :
  (validate_file pyfloat decode repr_float file = Ret (true, None)
   \/ exists m, validate_file pyfloat decode repr_float file = Ret (false, Some m))
  /\ (validate_file pyfloat decode repr_float file = Ret (true, None) ->
      Forall (fun c => f_fault file c = None) (accesses (f_data file))).
Proof.
  split; [|apply validate_file_accesses].
  destruct (validate_file_returns pyfloat decode repr_float file) as [v Hv].
  destruct (validate_file_proper _ _ _ _ _ Hv) as [->|[m ->]]; eauto.
Qed.

Lemma validate_file_total_witness :
  let file := text_file (stl_lines " cube" [flat_facet; flat_facet] " cube") in
  Forall (fun c => f_fault file c = None) (accesses (f_data file)).
Proof.
  intros file.
  apply (validate_file_total TimeParser.float_of_digits decode_ascii repr_whole file).
  vm_compute. reflexivity.
Defined.

(** C10: once the file could be opened and its header read, the text rules
    apply exactly when the first five bytes are "solid", and the binary
    rules otherwise; nothing else enters the choice.  For a file that
    begins with "solid" the verdict is the same whatever the accesses of
    the binary rules (the read of the count among them) would do. *)
Theorem format_dispatch (pyfloat : str -> option float) (decode : list byte -> str)
    (repr_float : float -> str) (file : stl_file) :
  f_fault file IoOpenFormat = None -> f_fault file IoReadHeader = None ->
  _validate_stl_format pyfloat decode repr_float file
  = (if bytes_startswith solid_bytes (f_data file)
     then _validate_ascii_stl pyfloat decode file
     else _validate_binary_stl repr_float file)
  /\ (bytes_startswith solid_bytes (f_data file) = true ->
      forall other : stl_file,
        f_data other = f_data file ->
        f_fault other IoOpenFormat = None -> f_fault other IoReadHeader = None ->
        f_fault other IoOpenText = f_fault file IoOpenText ->
        f_fault other IoReadText = f_fault file IoReadText ->
        _validate_stl_format pyfloat decode repr_float other
        = _validate_stl_format pyfloat decode repr_float file).
Proof.
  intros Hopen Hread. split; [apply format_dispatch_eq; done|].
  intros Hsolid other Hd Ho Hr Hot Hrt.
  rewrite !format_dispatch_eq by done. rewrite Hd, Hsolid.
  apply ascii_same; done.
Qed.

(** A binary file of one triangle whose header begins with "solid" passes
    the binary rules, and is rejected, under the text rules. *)
Lemma format_dispatch_witness :
  _validate_stl_format TimeParser.float_of_digits decode_ascii repr_whole solid_header_binary
  = Ret (false, Some (lit "ASCII STL must end with 'endsolid'"))
  /\ _validate_binary_stl repr_whole solid_header_binary = Ret (true, None).
Proof.
  split; [|vm_compute; reflexivity].
  rewrite (proj1 (format_dispatch TimeParser.float_of_digits decode_ascii repr_whole
                    solid_header_binary eq_refl eq_refl)).
  vm_compute. reflexivity.
Defined.

(** C2, as the code has it.  For a file of at least 84 bytes that the
    binary rules can read and that declares a count N with
    0 < N <= 1000000: when its size is not 84 + 50 N it is rejected as a
    size mismatch; when its size is 84 + 50 N it is accepted exactly when
    none of the twelve coordinates of each of its first min(10, N)
    triangle records exceeds 10000 in magnitude, and it is rejected
    otherwise with "Invalid coordinate value: " and the first such
    coordinate in the order of the file. *)
Theorem binary_stl_rules (repr_float : float -> str) (file : stl_file) :
  (forall c, f_fault file c = None) ->
  (84 <= length (f_data file))%nat ->
  0 < declared_count (f_data file) <= 1000000 ->
  (st_size file <> 84 + 50 * declared_count (f_data file) ->
   _validate_binary_stl repr_float file =
     Ret (false, Some (fmt ["Invalid binary STL: size mismatch (expected " : str;
                            str_of_Z (80 + 4 + declared_count (f_data file) * 50);
                            ", got " : str; str_of_Z (st_size file); ")" : str])))
  /\ (st_size file = 84 + 50 * declared_count (f_data file) ->
      (_validate_binary_stl repr_float file = Ret (true, None)
       <-> forall i k, (Z.of_nat i < Z.min 10 (declared_count (f_data file))) ->
             (k < 12)%nat -> too_large (coordinate (f_data file) i k) = false))
  /\ (st_size file = 84 + 50 * declared_count (f_data file) ->
      _validate_binary_stl repr_float file =
        Ret (match find too_large (checked_coordinates (f_data file)) with
             | Some coord =>
                 (false, Some (fmt ["Invalid coordinate value: " : str; repr_float coord]))
             | None => (true, None)
             end)).
Proof.
  intros Hnf Hlen Hcount.
  destruct (binary_rules repr_float file Hnf Hlen Hcount) as [Hdiff Hsame].
  split; [exact Hdiff|]. split; [exact Hsame|].
  apply binary_verdict; done.
Qed.

Lemma binary_stl_rules_witness :
  _validate_binary_stl repr_whole (one_triangle [x00; x00; x80; x3f]) = Ret (true, None)
  /\ _validate_binary_stl repr_whole (one_triangle [x00; x00; x80; x3f; x00])
     = Ret (false, Some (lit "Invalid binary STL: size mismatch (expected 134, got 135)"))
  /\ _validate_binary_stl repr_whole (one_triangle [x00; x40; x9c; xc6])
     = Ret (false, Some (lit "Invalid coordinate value: -20000.0")).
Proof.
  split; [|split].
  3: { destruct (binary_stl_rules repr_whole (one_triangle [x00; x40; x9c; xc6]))
         as (_ & _ & Hfirst).
       - intros c. reflexivity.
       - vm_compute. lia.
       - vm_compute. split; [reflexivity | discriminate].
       - rewrite Hfirst; vm_compute; reflexivity. }
  - destruct (binary_stl_rules repr_whole (one_triangle [x00; x00; x80; x3f]))
      as (_ & Hsame & _).
    + intros c. reflexivity.
    + vm_compute. lia.
    + vm_compute. split; [reflexivity | discriminate].
    + apply Hsame; [reflexivity|].
      intros i k Hi Hk.
      change (declared_count (f_data (one_triangle [x00; x00; x80; x3f]))) with 1 in Hi.
      destruct i as [|i]; [|lia].
      do 12 (destruct k as [|k]; [vm_compute; reflexivity|]). lia.
  - destruct (binary_stl_rules repr_whole (one_triangle [x00; x00; x80; x3f; x00]))
      as (Hdiff & _).
    + intros c. reflexivity.
    + vm_compute. lia.
    + vm_compute. split; [reflexivity | discriminate].
    + rewrite Hdiff; [vm_compute; reflexivity | vm_compute; discriminate].
Defined.

(** A file of one triangle whose size is the expected 134 bytes, rejected
    for its first coordinate, 100000. *)
Lemma binary_right_size_rejected :
  let file := one_triangle [x00; x50; xc3; x47] in
  declared_count (f_data file) = 1
  /\ st_size file = 80 + 4 + 1 * 50
  /\ _validate_binary_stl repr_whole file
     = Ret (false, Some (lit "Invalid coordinate value: 100000.0")).
Proof. repeat split; vm_compute; reflexivity. Qed.

End ValidatorFacts.

(* ===================================================================== *)
(** ** Lines and whitespace                                                *)
(* ===================================================================== *)

Module TextFacts.
Import Validator.

Lemma drop_while_all (f : ascii -> bool) (u v : str) :
  forallb f u = true -> drop_while f (u ++ v) = drop_while f v.
Proof.
  induction u as [|c u IH]; simpl; [done|].
  intros [-> Hu]%andb_true_iff. auto.
Qed.

Lemma drop_while_stop (f : ascii -> bool) (u : str) (d : ascii) (v : str) :
  f d = false -> drop_while f (u ++ d :: v) = drop_while f u ++ d :: v.
Proof.
  intros Hd. induction u as [|c u IH]; simpl; [rewrite Hd; done|].
  destruct (f c); done.
Qed.

Lemma lstrip_blank (ind s : str) :
  forallb isspace ind = true -> lstrip (ind ++ s) = lstrip s.
Proof. apply drop_while_all. Qed.

Lemma lstrip_nonspace (c : ascii) (s : str) :
  isspace c = false -> lstrip (c :: s) = c :: s.
Proof. intros Hc. unfold lstrip. simpl. rewrite Hc. done. Qed.

Lemma lstrip_starts (c : ascii) (s t body : str) :
  isspace c = false -> s = c :: body -> lstrip (s ++ t) = s ++ t.
Proof. intros Hc ->. apply lstrip_nonspace. done. Qed.

Lemma rstrip_app_nonspace (a : str) (d : ascii) (r : str) :
  isspace d = false -> rstrip (a ++ d :: r) = a ++ d :: rstrip r.
Proof.
  intros Hd. unfold rstrip. rewrite rev_app_distr. simpl rev.
  rewrite <- app_assoc. simpl. rewrite drop_while_stop by done.
  rewrite rev_app_distr. simpl. rewrite rev_involutive, <- app_assoc. done.
Qed.

Lemma rstrip_space_tail (a t : str) :
  forallb isspace t = true -> rstrip (a ++ t) = rstrip a.
Proof.
  intros Ht. unfold rstrip. rewrite rev_app_distr, drop_while_all; [done|].
  rewrite forallb_forall in *. intros c Hc. apply Ht. apply in_rev. done.
Qed.

Lemma rstrip_nonblank (s : str) : s <> [] -> nonblank s = true -> rstrip s = s.
Proof.
  intros Hne Hnb. destruct (exists_last Hne) as (a & d & ->).
  unfold nonblank in Hnb. rewrite forallb_app in Hnb.
  apply andb_true_iff in Hnb as [_ Hd]. simpl in Hd.
  rewrite andb_true_r in Hd. apply negb_true_iff in Hd.
  rewrite rstrip_app_nonspace by done. done.
Qed.

Lemma drop_while_forallb (f P : ascii -> bool) (s : str) :
  forallb P s = true -> forallb P (drop_while f s) = true.
Proof.
  induction s as [|c s IH]; simpl; [done|].
  intros [Hc Hs]%andb_true_iff. destruct (f c); [auto|]. simpl. rewrite Hc. done.
Qed.

Lemma forallb_rev (P : ascii -> bool) (s : str) : forallb P (rev s) = forallb P s.
Proof.
  induction s as [|c s IH]; simpl; [done|].
  rewrite forallb_app, IH. simpl. rewrite andb_true_r. apply andb_comm.
Qed.

Lemma rstrip_forallb (P : ascii -> bool) (s : str) :
  forallb P s = true -> forallb P (rstrip s) = true.
Proof.
  intros H. unfold rstrip. rewrite forallb_rev.
  apply drop_while_forallb. rewrite forallb_rev. done.
Qed.

(** [split("\n")] *)
Lemma split_on_whole (l : str) :
  no_newline l = true -> split_on newline l = [l].
Proof.
  induction l as [|c l IH]; simpl; [done|].
  intros [Hc Hl]%andb_true_iff. apply negb_true_iff in Hc. rewrite Hc, IH; done.
Qed.

Lemma split_on_line (l rest : str) :
  no_newline l = true ->
  split_on newline (l ++ newline :: rest) = l :: split_on newline rest.
Proof.
  induction l as [|c l IH]; simpl; [done|].
  intros [Hc Hl]%andb_true_iff. apply negb_true_iff in Hc. rewrite Hc, IH; done.
Qed.

Lemma join_snoc (pre : list str) (x : str) :
  join [newline] (pre ++ [x]) = ended pre ++ x.
Proof.
  induction pre as [|l pre IH]; [done|].
  change (join [newline] ((l :: pre) ++ [x]))
    with (join [newline] (l :: (pre ++ [x]))).
  destruct (pre ++ [x]) as [|y rest] eqn:Heq; [destruct pre; done|].
  change (join [newline] (l :: y :: rest)) with (l ++ [newline] ++ join [newline] (y :: rest)).
  rewrite IH. unfold ended. simpl. rewrite <- !app_assoc. done.
Qed.

Lemma split_on_ended (pre : list str) (x : str) :
  Forall (fun l => no_newline l = true) pre -> no_newline x = true ->
  split_on newline (ended pre ++ x) = pre ++ [x].
Proof.
  intros Hpre Hx. induction Hpre as [|l pre Hl Hpre IH]; simpl.
  - apply split_on_whole. done.
  - unfold ended. simpl. rewrite <- !app_assoc. simpl.
    rewrite split_on_line by done. f_equal. apply IH.
Qed.

(** What [content.strip().split("\n")] makes of a text whose first line
    starts with a visible character and whose last line starts with
    "endsolid": the same lines, the last one stripped on the right. *)
Lemma text_lines_of (c : ascii) (first : str) (mid : list str) (e trailer : str) :
  isspace c = false ->
  Forall (fun l => no_newline l = true) ((c :: first) :: mid) ->
  no_newline e = true -> forallb isspace trailer = true ->
  text_lines (text_of ((c :: first) :: mid ++ [lit "endsolid" ++ e]) trailer)
  = (c :: first) :: mid ++ [lit "endsolid" ++ rstrip e].
Proof.
  intros Hc Hlines He Ht. unfold text_lines, text_of, strip.
  change ((c :: first) :: mid ++ [lit "endsolid" ++ e])
    with (((c :: first) :: mid) ++ [lit "endsolid" ++ e]).
  rewrite join_snoc.
  assert (Hstart : exists body, ended ((c :: first) :: mid) = c :: body).
  { unfold ended. simpl. eauto. }
  destruct Hstart as [body Hbody].
  rewrite (lstrip_starts c ((ended ((c :: first) :: mid) ++ lit "endsolid" ++ e))
             trailer (body ++ lit "endsolid" ++ e)) by (done || rewrite Hbody; done).
  replace ((ended ((c :: first) :: mid) ++ lit "endsolid" ++ e) ++ trailer)
    with ((ended ((c :: first) :: mid) ++ lit "endsoli") ++ "d"%char :: (e ++ trailer))
    by (rewrite <- !app_assoc; done).
  rewrite rstrip_app_nonspace by done. rewrite rstrip_space_tail by done.
  replace ((ended ((c :: first) :: mid) ++ lit "endsoli") ++ "d"%char :: rstrip e)
    with (ended ((c :: first) :: mid) ++ (lit "endsolid" ++ rstrip e))
    by (rewrite <- !app_assoc; done).
  apply split_on_ended; [done|].
  unfold no_newline. rewrite forallb_app. apply andb_true_iff. split; [done|].
  apply rstrip_forallb. done.
Qed.


Lemma strip_indented (ind : str) (c : ascii) (core : str) :
  forallb isspace ind = true -> isspace c = false ->
  strip (ind ++ c :: core) = rstrip (c :: core).
Proof.
  intros Hind Hc. unfold strip. rewrite lstrip_blank by done.
  rewrite lstrip_nonspace by done. done.
Qed.

Lemma rstrip_app_word (a z : str) :
  z <> [] -> nonblank z = true -> rstrip (a ++ z) = a ++ z.
Proof.
  intros Hne Hnb. destruct (exists_last Hne) as (z' & d & ->).
  unfold nonblank in Hnb. rewrite forallb_app in Hnb.
  apply andb_true_iff in Hnb as [_ Hd]. simpl in Hd.
  rewrite andb_true_r in Hd. apply negb_true_iff in Hd.
  rewrite app_assoc. rewrite rstrip_app_nonspace by done. done.
Qed.

Lemma blank_isspace (ind : str) : blank ind = true -> forallb isspace ind = true.
Proof. unfold blank. intros [H _]%andb_true_iff. done. Qed.

Lemma blank_no_newline (ind : str) : blank ind = true -> no_newline ind = true.
Proof. unfold blank. intros [_ H]%andb_true_iff. done. Qed.

(** The stripped lines of a face block. *)
Lemma strip_word (ind word : str) :
  blank ind = true -> lstrip word = word -> rstrip word = word ->
  strip (ind ++ word) = word.
Proof.
  intros Hind Hl Hr. unfold strip. rewrite lstrip_blank by (apply blank_isspace; done).
  rewrite Hl. done.
Qed.

Lemma strip_facet_normal (ind normal : str) :
  blank ind = true ->
  strip (ind ++ lit "facet normal" ++ normal) = lit "facet normal" ++ rstrip normal.
Proof.
  intros Hind.
  change (ind ++ lit "facet normal" ++ normal)
    with (ind ++ "f"%char :: (lit "acet norma" ++ "l"%char :: normal)).
  rewrite strip_indented by (done || apply blank_isspace; done).
  change ("f"%char :: lit "acet norma" ++ "l"%char :: normal)
    with (lit "facet norma" ++ "l"%char :: normal).
  rewrite rstrip_app_nonspace by done. done.
Qed.

Lemma strip_endsolid (e : str) :
  strip (lit "endsolid" ++ e) = lit "endsolid" ++ rstrip e.
Proof.
  change (lit "endsolid" ++ e) with ([] ++ "e"%char :: (lit "ndsoli" ++ "d"%char :: e)).
  rewrite strip_indented by done.
  change ("e"%char :: lit "ndsoli" ++ "d"%char :: e)
    with (lit "endsoli" ++ "d"%char :: e).
  rewrite rstrip_app_nonspace by done. done.
Qed.

Lemma strip_solid (name : str) :
  strip (lit "solid" ++ name) = lit "solid" ++ rstrip name.
Proof.
  change (lit "solid" ++ name) with ([] ++ "s"%char :: (lit "oli" ++ "d"%char :: name)).
  rewrite strip_indented by done.
  change ("s"%char :: lit "oli" ++ "d"%char :: name)
    with (lit "soli" ++ "d"%char :: name).
  rewrite rstrip_app_nonspace by done. done.
Qed.

Section Vertex.
Variable pyfloat : str -> option float.

Lemma strip_vertex_line (ind : str) (v : vertex) :
  blank ind = true -> vertex_ok pyfloat v ->
  strip (vertex_line ind v) = join " " ["vertex" : str; vx v; vy v; vz v].
Proof.
  intros Hind (Hx & Hy & Hz & Hnb & _). unfold vertex_line.
  change (join " " [lit "vertex"; vx v; vy v; vz v])
    with ("v"%char :: (lit "ertex " ++ vx v ++ lit " " ++ vy v ++ lit " " ++ vz v)).
  rewrite strip_indented by (done || apply blank_isspace; done).
  change ("v"%char :: lit "ertex " ++ vx v ++ lit " " ++ vy v ++ lit " " ++ vz v)
    with (lit "vertex " ++ vx v ++ lit " " ++ vy v ++ lit " " ++ vz v).
  rewrite !app_assoc. apply rstrip_app_word; done.
Qed.

Lemma split_vertex_line (v : vertex) :
  vertex_ok pyfloat v ->
  split_ws (join " " ["vertex" : str; vx v; vy v; vz v])
  = ["vertex" : str; vx v; vy v; vz v].
Proof.
  intros ((Hx1 & Hx2 & _) & (Hy1 & Hy2 & _) & (Hz1 & Hz2 & _)).
  apply split_ws_join. repeat constructor; done.
Qed.

End Vertex.

End TextFacts.

(* ===================================================================== *)
(** ** The text rules                                                      *)
(* ===================================================================== *)

Module AsciiFacts.
Import Validator ValidatorFacts TextFacts.

Section WithBuiltins.
Variable pyfloat : str -> option float.

Lemma item_block (pre b rest : list str) (k : nat) (x : str) :
  b !! k = Some x -> item (pre ++ b ++ rest) (length pre + k) = Ret x.
Proof.
  intros Hk. unfold item. rewrite lookup_app_r by lia.
  replace (length pre + k - length pre)%nat with k by lia.
  rewrite (lookup_app_l_Some _ _ _ _ Hk). done.
Qed.

Lemma item_first (pre b rest : list str) (x : str) :
  b !! 0%nat = Some x -> item (pre ++ b ++ rest) (length pre) = Ret x.
Proof.
  intros Hx. rewrite <- (item_block pre b rest 0 x Hx). f_equal. lia.
Qed.

Lemma item_rest (pre b rest : list str) (k : nat) :
  item (pre ++ b ++ rest) (length pre + length b + k) = item rest k.
Proof.
  unfold item. rewrite lookup_app_r by lia. rewrite lookup_app_r by lia.
  replace (length pre + length b + k - length pre - length b)%nat with k by lia. done.
Qed.

Lemma mapM_numbers (v : vertex) :
  vertex_ok pyfloat v -> returns (mapM (py_float pyfloat) [vx v; vy v; vz v]).
Proof.
  intros ((_ & _ & [x Hx]) & (_ & _ & [y Hy]) & (_ & _ & [z Hz])).
  cbn [mapM]. unfold py_float. rewrite Hx, Hy, Hz. eexists. reflexivity.
Qed.

(** A vertex line passes; any other keyword where a vertex is expected is
    an early return. *)
Lemma check_vertex_ok (lines : list str) (i j : nat) (ind : str) (v : vertex) :
  item lines (i + 2 + j) = Ret (vertex_line ind v) ->
  blank ind = true -> vertex_ok pyfloat v ->
  check_vertex pyfloat lines i j = Ret None.
Proof.
  intros Hitem Hind Hv. unfold check_vertex. rewrite Hitem, ret_bind.
  rewrite (strip_vertex_line pyfloat) by done.
  change (startswith (lit "vertex") (join " " [lit "vertex"; vx v; vy v; vz v]))
    with true. cbn [negb].
  rewrite (split_vertex_line pyfloat) by done.
  change (slice 1 4 [lit "vertex"; vx v; vy v; vz v]) with [vx v; vy v; vz v].
  cbn [length Nat.eqb negb].
  destruct (mapM_numbers v Hv) as [floats ->]. done.
Qed.

Lemma check_vertex_keyword (lines : list str) (i j : nat) (ind word : str) :
  item lines (i + 2 + j) = Ret (ind ++ word) ->
  blank ind = true -> lstrip word = word -> rstrip word = word ->
  startswith "vertex" word = false ->
  exists v, check_vertex pyfloat lines i j = Ret (Some v).
Proof.
  intros Hitem Hind Hl Hr Hnot. unfold check_vertex. rewrite Hitem, ret_bind.
  rewrite strip_word by done. rewrite Hnot. eexists. reflexivity.
Qed.

Lemma facet_lines_length (f : facet) : length (facet_lines f) = 7%nat.
Proof. done. Qed.

(** A well-formed face block followed by at least one line passes. *)
Lemma check_facet_ok (pre rest : list str) (f : facet) :
  rest <> [] -> facet_ok pyfloat f ->
  check_facet pyfloat (pre ++ facet_lines f ++ rest) (length pre) = Ret None.
Proof.
  intros Hrest (Hn & Hind & Hv1 & Hv2 & Hv3). unfold check_facet.
  assert (Hlen : (length (pre ++ facet_lines f ++ rest) <=? length pre + 6)%nat = false).
  { apply Nat.leb_gt. rewrite !length_app, facet_lines_length.
    destruct rest; [done|]. simpl. lia. }
  rewrite Hlen.
  rewrite (item_block pre (facet_lines f) rest 1 _ eq_refl), ret_bind.
  rewrite strip_word by done.
  change (str_eqb (lit "outer loop") (lit "outer loop")) with true. cbn [negb].
  cbn [check_vertices].
  rewrite (check_vertex_ok _ _ 0 (f_indent f 2) (f_v1 f)); [|
    replace (length pre + 2 + 0)%nat with (length pre + 2)%nat by lia;
    apply item_block; done | done | done].
  rewrite ret_bind.
  rewrite (check_vertex_ok _ _ 1 (f_indent f 3) (f_v2 f)); [|
    replace (length pre + 2 + 1)%nat with (length pre + 3)%nat by lia;
    apply item_block; done | done | done].
  rewrite ret_bind.
  rewrite (check_vertex_ok _ _ 2 (f_indent f 4) (f_v3 f)); [|
    replace (length pre + 2 + 2)%nat with (length pre + 4)%nat by lia;
    apply item_block; done | done | done].
  rewrite !ret_bind.
  rewrite (item_block pre (facet_lines f) rest 5 _ eq_refl), ret_bind.
  rewrite strip_word by done.
  change (str_eqb (lit "endloop") (lit "endloop")) with true. cbn [negb].
  rewrite (item_block pre (facet_lines f) rest 6 _ eq_refl), ret_bind.
  rewrite strip_word by done.
  done.
Qed.


(** *** The loop over the lines *)

Lemma scan_end fuel (lines : list str) (i : nat) count :
  (length lines <= i + 1)%nat ->
  scan_facets pyfloat (S fuel) lines i count = Ret (Counted count).
Proof.
  intros Hi. cbn [scan_facets].
  destruct (_ <? _) eqn:Hlt; [apply Z.ltb_lt in Hlt; lia | done].
Qed.

Lemma scan_skip fuel (lines : list str) (i : nat) count (l : str) :
  (i + 1 < length lines)%nat -> item lines i = Ret l ->
  startswith "facet normal" (strip l) = false ->
  scan_facets pyfloat (S fuel) lines i count
  = scan_facets pyfloat fuel lines (i + 1) count.
Proof.
  intros Hi Hitem Hnot. cbn [scan_facets].
  destruct (_ <? _) eqn:Hlt; [|apply Z.ltb_ge in Hlt; lia].
  rewrite Hitem, ret_bind, Hnot. done.
Qed.

Lemma scan_facet fuel (lines : list str) (i : nat) count (l : str) :
  (i + 1 < length lines)%nat -> item lines i = Ret l ->
  startswith "facet normal" (strip l) = true ->
  check_facet pyfloat lines i = Ret None ->
  scan_facets pyfloat (S fuel) lines i count
  = scan_facets pyfloat fuel lines (i + 7) (count + 1).
Proof.
  intros Hi Hitem Hstart Hok. cbn [scan_facets].
  destruct (_ <? _) eqn:Hlt; [|apply Z.ltb_ge in Hlt; lia].
  rewrite Hitem, ret_bind, Hstart, Hok, ret_bind. done.
Qed.

Lemma scan_return fuel (lines : list str) (i : nat) count (l : str) v :
  (i + 1 < length lines)%nat -> item lines i = Ret l ->
  startswith "facet normal" (strip l) = true ->
  check_facet pyfloat lines i = Ret (Some v) ->
  scan_facets pyfloat (S fuel) lines i count = Ret (Returned v).
Proof.
  intros Hi Hitem Hstart Hv. cbn [scan_facets].
  destruct (_ <? _) eqn:Hlt; [|apply Z.ltb_ge in Hlt; lia].
  rewrite Hitem, ret_bind, Hstart, Hv, ret_bind. done.
Qed.

Lemma startswith_app (p x : str) : startswith p (p ++ x) = true.
Proof.
  induction p as [|c p IH]; [done|]. simpl. unfold eqc.
  rewrite Ascii.eqb_refl. done.
Qed.

Lemma facet_normal_starts (f : facet) :
  facet_ok pyfloat f ->
  startswith "facet normal" (strip (f_indent f 0 ++ lit "facet normal" ++ f_normal f)) = true.
Proof.
  intros (_ & Hind & _). rewrite strip_facet_normal by done. apply startswith_app.
Qed.

Lemma length_blocks (fs : list facet) :
  length (flat_map facet_lines fs) = (7 * length fs)%nat.
Proof. induction fs as [|f fs IH]; [done|]. simpl. rewrite IH. lia. Qed.

(** The loop walks over well-formed face blocks, counting them. *)
Lemma scan_blocks (fs : list facet) (pre rest : list str) count fuel :
  rest <> [] -> Forall (facet_ok pyfloat) fs ->
  scan_facets pyfloat (length fs + fuel) (pre ++ flat_map facet_lines fs ++ rest)
    (length pre) count
  = scan_facets pyfloat fuel (pre ++ flat_map facet_lines fs ++ rest)
      (length pre + 7 * length fs) (count + Z.of_nat (length fs)).
Proof.
  intros Hrest Hfs. revert pre count.
  induction Hfs as [|f fs Hf Hfs IH]; intros pre count.
  { simpl. f_equal; lia. }
  cbn [length Nat.add flat_map]. rewrite <- !app_assoc.
  assert (Hrest' : flat_map facet_lines fs ++ rest <> []).
  { destruct rest; [done|]. destruct (flat_map facet_lines fs); done. }
  rewrite (scan_facet _ _ _ _ (f_indent f 0 ++ lit "facet normal" ++ f_normal f)).
  - replace (pre ++ facet_lines f ++ flat_map facet_lines fs ++ rest)
      with ((pre ++ facet_lines f) ++ flat_map facet_lines fs ++ rest)
      by (rewrite <- app_assoc; done).
    replace (length pre + 7)%nat with (length (pre ++ facet_lines f))
      by (rewrite length_app; done).
    rewrite IH. f_equal; [rewrite length_app, facet_lines_length|]; lia.
  - rewrite !length_app, facet_lines_length.
    destruct (flat_map facet_lines fs ++ rest); [done|]. simpl. lia.
  - apply item_first. done.
  - apply facet_normal_starts. done.
  - apply check_facet_ok; done.
Qed.


(** *** Lines without line breaks *)

Lemma no_newline_app (a b : str) :
  no_newline (a ++ b) = no_newline a && no_newline b.
Proof. apply forallb_app. Qed.

Lemma nonblank_no_newline (s : str) : nonblank s = true -> no_newline s = true.
Proof.
  unfold nonblank, no_newline. induction s as [|c s IH]; simpl; [done|].
  intros [Hc Hs]%andb_true_iff. rewrite IH by done. rewrite andb_true_r.
  apply negb_true_iff. apply negb_true_iff in Hc.
  destruct (eqc c newline) eqn:Heq; [|done].
  apply eqc_true in Heq. subst c. done.
Qed.

Lemma vertex_line_no_newline (ind : str) (v : vertex) :
  blank ind = true -> vertex_ok pyfloat v -> no_newline (vertex_line ind v) = true.
Proof.
  intros Hind ((_ & Hx & _) & (_ & Hy & _) & (_ & Hz & _)). unfold vertex_line.
  change (join " " [lit "vertex"; vx v; vy v; vz v])
    with (lit "vertex " ++ vx v ++ lit " " ++ vy v ++ lit " " ++ vz v).
  rewrite !no_newline_app, blank_no_newline by done.
  rewrite (nonblank_no_newline (vx v)), (nonblank_no_newline (vy v)),
    (nonblank_no_newline (vz v)) by done. reflexivity.
Qed.

Lemma facet_lines_no_newline (f : facet) :
  facet_ok pyfloat f -> Forall (fun l => no_newline l = true) (facet_lines f).
Proof.
  intros (Hn & Hind & Hv1 & Hv2 & Hv3). unfold facet_lines.
  repeat constructor; rewrite ?no_newline_app, ?blank_no_newline by done;
    rewrite ?Hn; try done; apply vertex_line_no_newline; done.
Qed.

Lemma blocks_no_newline (fs : list facet) :
  Forall (facet_ok pyfloat) fs ->
  Forall (fun l => no_newline l = true) (flat_map facet_lines fs).
Proof.
  induction 1 as [|f fs Hf Hfs IH]; [constructor|]. cbn [flat_map].
  apply Forall_app. split; [apply facet_lines_no_newline; done | done].
Qed.

(** *** A face block with a line missing *)

Lemma endfacet_differs_endsolid (x : str) :
  str_eqb (lit "endsolid" ++ x) "endfacet" = false.
Proof. apply bool_decide_eq_false. intros H. discriminate H. Qed.

Lemma endfacet_differs_facet (x : str) :
  str_eqb (lit "facet normal" ++ x) "endfacet" = false.
Proof. apply bool_decide_eq_false. intros H. discriminate H. Qed.

(** The line after a face block is never "endfacet". *)
Lemma next_line (after : list facet) (e : str) :
  Forall (facet_ok pyfloat) after ->
  exists next rest,
    flat_map facet_lines after ++ [lit "endsolid" ++ e] = next :: rest
    /\ str_eqb (strip next) "endfacet" = false.
Proof.
  intros Hafter. destruct Hafter as [|f after (_ & Hind & _) _].
  - eexists _, _. split; [reflexivity|].
    rewrite strip_endsolid. apply endfacet_differs_endsolid.
  - eexists _, _. split; [reflexivity|].
    rewrite strip_facet_normal by done. apply endfacet_differs_facet.
Qed.

Lemma vertex_differs_outer_loop (v : vertex) :
  str_eqb (join " " ["vertex" : str; vx v; vy v; vz v]) "outer loop" = false.
Proof. apply bool_decide_eq_false. intros H. discriminate H. Qed.

(** Without its outer-loop, endloop or endfacet line, or without one of
    its vertex lines, a face block is an early return. *)
Lemma check_facet_broken (pre rest : list str) (f : facet) (p : nat) (next : str) rest' :
  facet_ok pyfloat f -> (1 <= p <= 6)%nat ->
  rest = next :: rest' -> str_eqb (strip next) "endfacet" = false ->
  exists v, check_facet pyfloat (pre ++ delete p (facet_lines f) ++ rest) (length pre)
            = Ret (Some v).
Proof.
  intros (Hn & Hind & Hv1 & Hv2 & Hv3) Hp -> Hnext. unfold check_facet.
  assert (Hlen : forall b : list str, length b = 6%nat ->
            (length (pre ++ b ++ next :: rest') <=? length pre + 6)%nat = false).
  { intros b Hb. apply Nat.leb_gt. rewrite !length_app, Hb. simpl. lia. }
  assert (Hitem6 : forall b : list str, length b = 6%nat ->
            item (pre ++ b ++ next :: rest') (length pre + 6) = Ret next).
  { intros b Hb. rewrite <- Hb.
    replace (length pre + length b)%nat with (length pre + length b + 0)%nat by lia.
    rewrite item_rest. done. }
  destruct p as [|[|[|[|[|[|[|p]]]]]]]; try lia; cbn [delete list_delete facet_lines];
    rewrite Hlen by done.
  - (* outer loop *)
    erewrite (item_block pre _ _ 1) by reflexivity. rewrite ret_bind.
    rewrite (strip_vertex_line pyfloat) by done.
    rewrite vertex_differs_outer_loop. eexists. reflexivity.
  - (* first vertex *)
    erewrite (item_block pre _ _ 1) by reflexivity. rewrite ret_bind.
    rewrite strip_word by done.
    change (str_eqb (lit "outer loop") (lit "outer loop")) with true. cbn [negb check_vertices].
    rewrite (check_vertex_ok _ _ 0 (f_indent f 3) (f_v2 f)); [|
      replace (length pre + 2 + 0)%nat with (length pre + 2)%nat by lia;
      apply item_block; done | done | done].
    rewrite ret_bind.
    rewrite (check_vertex_ok _ _ 1 (f_indent f 4) (f_v3 f)); [|
      replace (length pre + 2 + 1)%nat with (length pre + 3)%nat by lia;
      apply item_block; done | done | done].
    rewrite ret_bind.
    destruct (check_vertex_keyword
                (pre ++ delete 2%nat (facet_lines f) ++ next :: rest') (length pre) 2
                (f_indent f 5) (lit "endloop")) as [v Hv]; [|done..|].
    { replace (length pre + 2 + 2)%nat with (length pre + 4)%nat by lia.
      apply item_block. done. }
    cbn [delete list_delete facet_lines] in Hv. rewrite Hv, !ret_bind. eauto.
  - (* second vertex *)
    erewrite (item_block pre _ _ 1) by reflexivity. rewrite ret_bind.
    rewrite strip_word by done.
    change (str_eqb (lit "outer loop") (lit "outer loop")) with true. cbn [negb check_vertices].
    rewrite (check_vertex_ok _ _ 0 (f_indent f 2) (f_v1 f)); [|
      replace (length pre + 2 + 0)%nat with (length pre + 2)%nat by lia;
      apply item_block; done | done | done].
    rewrite ret_bind.
    rewrite (check_vertex_ok _ _ 1 (f_indent f 4) (f_v3 f)); [|
      replace (length pre + 2 + 1)%nat with (length pre + 3)%nat by lia;
      apply item_block; done | done | done].
    rewrite ret_bind.
    destruct (check_vertex_keyword
                (pre ++ delete 3%nat (facet_lines f) ++ next :: rest') (length pre) 2
                (f_indent f 5) (lit "endloop")) as [v Hv]; [|done..|].
    { replace (length pre + 2 + 2)%nat with (length pre + 4)%nat by lia.
      apply item_block. done. }
    cbn [delete list_delete facet_lines] in Hv. rewrite Hv, !ret_bind. eauto.
  - (* third vertex *)
    erewrite (item_block pre _ _ 1) by reflexivity. rewrite ret_bind.
    rewrite strip_word by done.
    change (str_eqb (lit "outer loop") (lit "outer loop")) with true. cbn [negb check_vertices].
    rewrite (check_vertex_ok _ _ 0 (f_indent f 2) (f_v1 f)); [|
      replace (length pre + 2 + 0)%nat with (length pre + 2)%nat by lia;
      apply item_block; done | done | done].
    rewrite ret_bind.
    rewrite (check_vertex_ok _ _ 1 (f_indent f 3) (f_v2 f)); [|
      replace (length pre + 2 + 1)%nat with (length pre + 3)%nat by lia;
      apply item_block; done | done | done].
    rewrite ret_bind.
    destruct (check_vertex_keyword
                (pre ++ delete 4%nat (facet_lines f) ++ next :: rest') (length pre) 2
                (f_indent f 5) (lit "endloop")) as [v Hv]; [|done..|].
    { replace (length pre + 2 + 2)%nat with (length pre + 4)%nat by lia.
      apply item_block. done. }
    cbn [delete list_delete facet_lines] in Hv. rewrite Hv, !ret_bind. eauto.
  - (* endloop *)
    erewrite (item_block pre _ _ 1) by reflexivity. rewrite ret_bind.
    rewrite strip_word by done.
    change (str_eqb (lit "outer loop") (lit "outer loop")) with true. cbn [negb check_vertices].
    rewrite (check_vertex_ok _ _ 0 (f_indent f 2) (f_v1 f)); [|
      replace (length pre + 2 + 0)%nat with (length pre + 2)%nat by lia;
      apply item_block; done | done | done].
    rewrite ret_bind.
    rewrite (check_vertex_ok _ _ 1 (f_indent f 3) (f_v2 f)); [|
      replace (length pre + 2 + 1)%nat with (length pre + 3)%nat by lia;
      apply item_block; done | done | done].
    rewrite ret_bind.
    rewrite (check_vertex_ok _ _ 2 (f_indent f 4) (f_v3 f)); [|
      replace (length pre + 2 + 2)%nat with (length pre + 4)%nat by lia;
      apply item_block; done | done | done].
    rewrite !ret_bind.
    erewrite (item_block pre _ _ 5) by reflexivity. rewrite ret_bind.
    rewrite strip_word by done. eexists. reflexivity.
  - (* endfacet *)
    erewrite (item_block pre _ _ 1) by reflexivity. rewrite ret_bind.
    rewrite strip_word by done.
    change (str_eqb (lit "outer loop") (lit "outer loop")) with true. cbn [negb check_vertices].
    rewrite (check_vertex_ok _ _ 0 (f_indent f 2) (f_v1 f)); [|
      replace (length pre + 2 + 0)%nat with (length pre + 2)%nat by lia;
      apply item_block; done | done | done].
    rewrite ret_bind.
    rewrite (check_vertex_ok _ _ 1 (f_indent f 3) (f_v2 f)); [|
      replace (length pre + 2 + 1)%nat with (length pre + 3)%nat by lia;
      apply item_block; done | done | done].
    rewrite ret_bind.
    rewrite (check_vertex_ok _ _ 2 (f_indent f 4) (f_v3 f)); [|
      replace (length pre + 2 + 2)%nat with (length pre + 4)%nat by lia;
      apply item_block; done | done | done].
    rewrite !ret_bind.
    erewrite (item_block pre _ _ 5) by reflexivity. rewrite ret_bind.
    rewrite strip_word by done.
    change (str_eqb (lit "endloop") (lit "endloop")) with true. cbn [negb].
    rewrite Hitem6 by done. rewrite ret_bind, Hnext. eexists. reflexivity.
Qed.

(** *** The loop on whole files *)

Lemma scan_well_formed (first final : str) (fs : list facet) :
  Forall (facet_ok pyfloat) fs ->
  let lines := first :: flat_map facet_lines fs ++ [final] in
  scan_facets pyfloat (length lines) lines 1 0 = Ret (Counted (Z.of_nat (length fs))).
Proof.
  intros Hfs lines.
  assert (Hlen : length lines = (length fs + S (6 * length fs + 1))%nat).
  { unfold lines. cbn [length]. rewrite length_app, length_blocks. simpl. lia. }
  rewrite Hlen. unfold lines.
  change (first :: flat_map facet_lines fs ++ [final])
    with ([first] ++ flat_map facet_lines fs ++ [final]).
  change 1%nat with (length [first]) at 1.
  rewrite scan_blocks by done.
  rewrite scan_end; [f_equal; f_equal; lia|].
  rewrite !length_app, length_blocks. simpl. lia.
Qed.

(** A file in which line [p] (1 to 6) of a face block is missing. *)
Lemma scan_broken (first e : str) (before after : list facet) (f : facet) (p : nat) :
  Forall (facet_ok pyfloat) before -> facet_ok pyfloat f ->
  Forall (facet_ok pyfloat) after -> (1 <= p <= 6)%nat ->
  let lines := first :: (flat_map facet_lines before ++ delete p (facet_lines f)
                         ++ flat_map facet_lines after) ++ [lit "endsolid" ++ e] in
  exists v, scan_facets pyfloat (length lines) lines 1 0 = Ret (Returned v).
Proof.
  intros Hbefore Hf Hafter Hp lines.
  destruct (next_line after e Hafter) as (next & rest' & Hrest & Hnext).
  assert (Hdel : length (delete p (facet_lines f)) = 6%nat).
  { rewrite length_delete; [done|]. apply lookup_lt_is_Some. rewrite facet_lines_length. lia. }
  assert (Hshape : lines = [first] ++ flat_map facet_lines before
                           ++ (delete p (facet_lines f) ++ next :: rest')).
  { unfold lines. rewrite <- Hrest. cbn [app]. rewrite <- !app_assoc. done. }
  assert (Hlen : length lines = (length before + S (length lines - length before - 1))%nat).
  { rewrite Hshape, !length_app, length_blocks, Hdel. simpl. lia. }
  rewrite Hlen. clearbody lines. subst lines.
  change 1%nat with (length [first]) at 1.
  rewrite scan_blocks; [|destruct (delete p (facet_lines f)); done|done].
  rewrite app_assoc.
  destruct (check_facet_broken ([first] ++ flat_map facet_lines before)
              (next :: rest') f p next rest' Hf Hp eq_refl Hnext) as [v Hv].
  exists v.
  replace (length [first] + 7 * length before)%nat
    with (length ([first] ++ flat_map facet_lines before))
    by (rewrite length_app, length_blocks; done).
  eapply scan_return.
  - rewrite !length_app, Hdel. simpl. lia.
  - apply (item_first _ (delete p (facet_lines f)) (next :: rest')).
    destruct p as [|p]; [lia|]. reflexivity.
  - apply facet_normal_starts. done.
  - exact Hv.
Qed.

Lemma rest_not_facet (f : facet) :
  facet_ok pyfloat f ->
  Forall (fun l => startswith "facet normal" (strip l) = false)
         (delete 0%nat (facet_lines f)).
Proof.
  intros (Hn & Hind & Hv1 & Hv2 & Hv3). cbn [delete list_delete facet_lines].
  repeat constructor;
    first [ rewrite strip_word by done; reflexivity
          | rewrite (strip_vertex_line pyfloat) by done; reflexivity ].
Qed.

(** The loop steps over lines that do not open a face block. *)
Lemma scan_skips (skipped : list str) (pre rest : list str) count fuel :
  rest <> [] ->
  Forall (fun l => startswith "facet normal" (strip l) = false) skipped ->
  scan_facets pyfloat (length skipped + fuel) (pre ++ skipped ++ rest) (length pre) count
  = scan_facets pyfloat fuel (pre ++ skipped ++ rest) (length pre + length skipped) count.
Proof.
  intros Hrest Hsk. revert pre.
  induction Hsk as [|l skipped Hl Hsk IH]; intros pre.
  { simpl. f_equal. lia. }
  cbn [length Nat.add].
  rewrite (scan_skip _ _ _ _ l).
  - replace (pre ++ (l :: skipped) ++ rest) with ((pre ++ [l]) ++ skipped ++ rest)
      by (rewrite <- app_assoc; done).
    replace (length pre + 1)%nat with (length (pre ++ [l])) by (rewrite length_app; done).
    rewrite IH. f_equal. rewrite length_app. simpl. lia.
  - rewrite !length_app. destruct rest; [done|]. simpl. lia.
  - apply (item_first pre (l :: skipped) rest). done.
  - done.
Qed.

(** A file in which the facet-normal line of a face block is missing: the
    six lines left of the block are stepped over. *)
Lemma scan_headless (first final : str) (before after : list facet) (f : facet) :
  Forall (facet_ok pyfloat) before -> facet_ok pyfloat f ->
  Forall (facet_ok pyfloat) after ->
  let lines := first :: (flat_map facet_lines before ++ delete 0%nat (facet_lines f)
                         ++ flat_map facet_lines after) ++ [final] in
  scan_facets pyfloat (length lines) lines 1 0
  = Ret (Counted (Z.of_nat (length before + length after))).
Proof.
  intros Hbefore Hf Hafter lines.
  set (six := delete 0%nat (facet_lines f)) in *.
  assert (Hsix : length six = 6%nat) by done.
  assert (Hshape : lines = [first] ++ flat_map facet_lines before
                           ++ (six ++ flat_map facet_lines after ++ [final])).
  { unfold lines. cbn [app]. rewrite <- !app_assoc. done. }
  assert (Hlen : length lines
                 = (length before + (length six + (length after
                    + S (6 * (length before + length after) + 1))))%nat).
  { rewrite Hshape, !length_app, !length_blocks, Hsix. simpl. lia. }
  rewrite Hlen. clearbody lines. subst lines.
  change 1%nat with (length [first]) at 1.
  rewrite scan_blocks; [|destruct six; done|done].
  rewrite app_assoc.
  replace (length [first] + 7 * length before)%nat
    with (length ([first] ++ flat_map facet_lines before))
    by (rewrite length_app, length_blocks; done).
  rewrite scan_skips; [| destruct (flat_map facet_lines after); done
                       | apply rest_not_facet; done].
  rewrite app_assoc.
  replace (length ([first] ++ flat_map facet_lines before) + length six)%nat
    with (length (([first] ++ flat_map facet_lines before) ++ six))
    by (rewrite !length_app; done).
  rewrite scan_blocks by done.
  rewrite scan_end; [f_equal; f_equal; lia|].
  rewrite !length_app, !length_blocks, Hsix. simpl. lia.
Qed.

(** *** From the text to the loop *)

Variable decode : list byte -> str.
Variable file : stl_file.

Lemma text_lines_document (name : str) (mid : list str) (e trailer : str) :
  no_newline name = true -> Forall (fun l => no_newline l = true) mid ->
  no_newline e = true -> forallb isspace trailer = true ->
  text_lines (text_of ((lit "solid" ++ name) :: mid ++ [lit "endsolid" ++ e]) trailer)
  = (lit "solid" ++ name) :: mid ++ [lit "endsolid" ++ rstrip e].
Proof.
  intros Hname Hmid He Ht.
  change (lit "solid" ++ name) with ("s"%char :: (lit "olid" ++ name)).
  apply text_lines_of; [done| |done|done].
  constructor; [exact Hname | done].
Qed.

(** On a text whose first line is "solid..." and whose last line is
    "endsolid...", the verdict is that of the loop over its lines. *)
Lemma ascii_reduces (name : str) (mid : list str) (e trailer : str) :
  f_fault file IoOpenText = None -> f_fault file IoReadText = None ->
  decode (f_data file) = text_of ((lit "solid" ++ name) :: mid ++ [lit "endsolid" ++ e]) trailer ->
  no_newline name = true -> Forall (fun l => no_newline l = true) mid ->
  no_newline e = true -> forallb isspace trailer = true ->
  let lines := (lit "solid" ++ name) :: mid ++ [lit "endsolid" ++ rstrip e] in
  _validate_ascii_stl pyfloat decode file =
    try_except
      (r ← scan_facets pyfloat (length lines) lines 1 0;
       match r with
       | Returned v => Ret v
       | Counted triangle_count =>
           if triangle_count =? 0 then
             Ret (false, Some ("ASCII STL contains no triangles" : str))
           else if 1000000 <? triangle_count then
             Ret (false, Some (fmt ["STL file too complex: " : str;
                                    str_of_Z triangle_count;
                                    " triangles (max 1,000,000)" : str]))
           else Ret (true, None)
       | OutOfFuel => raise Exception ("the loop did not end" : string)
       end)
      (fun e => Ret (false, Some (fmt ["ASCII STL validation error: " : str; exn_msg e]))).
Proof.
  intros Hopen Hread Hdecode Hname Hmid He Ht lines.
  pose proof (text_lines_document name mid e trailer Hname Hmid He Ht) as Hlines.
  fold lines in Hlines.
  assert (Hfirst : item (A:=str) lines 0 = Ret (lit "solid" ++ name)) by done.
  assert (Hlast : last_item (A:=str) lines = Ret (lit "endsolid" ++ rstrip e)).
  { unfold last_item, lines.
    change ((lit "solid" ++ name) :: mid ++ [lit "endsolid" ++ rstrip e])
      with (((lit "solid" ++ name) :: mid) ++ [lit "endsolid" ++ rstrip e]).
    rewrite last_snoc. done. }
  clearbody lines.
  unfold _validate_ascii_stl, io. rewrite Hopen, Hread, !ret_bind, Hdecode, Hlines.
  rewrite Hfirst, ret_bind, strip_solid, startswith_app. cbn [negb].
  rewrite Hlast, ret_bind, strip_endsolid, startswith_app. cbn [negb]. done.
Qed.

(** *** Taking a line out *)

Lemma delete_app_l {A} (b c : list A) (p : nat) :
  (p < length b)%nat -> delete p (b ++ c) = delete p b ++ c.
Proof.
  revert p. induction b as [|x b IH]; intros p Hp; simpl in Hp; [lia|].
  destruct p as [|p]; [done|]. cbn [delete list_delete app] in *.
  f_equal. apply IH. lia.
Qed.

Lemma delete_inside {A} (a b c : list A) (p : nat) :
  (p < length b)%nat -> delete (length a + p)%nat (a ++ b ++ c) = a ++ delete p b ++ c.
Proof.
  intros Hp. induction a as [|x a IH].
  - cbn [length Nat.add app]. apply delete_app_l. done.
  - cbn [length Nat.add app delete list_delete] in *. f_equal. exact IH.
Qed.

Lemma stl_lines_without (name e : str) (before after : list facet) (f : facet) (p : nat) :
  (p < 7)%nat ->
  delete (line_index (length before) p) (stl_lines name (before ++ f :: after) e)
  = (lit "solid" ++ name)
    :: (flat_map facet_lines before ++ delete p (facet_lines f)
        ++ flat_map facet_lines after) ++ [lit "endsolid" ++ e].
Proof.
  intros Hp. unfold stl_lines, line_index. cbn [Nat.add delete list_delete].
  f_equal. rewrite flat_map_app. cbn [flat_map].
  rewrite <- (length_blocks before).
  rewrite <- !app_assoc. apply delete_inside. rewrite facet_lines_length. done.
Qed.

Lemma split_facets (facets : list facet) (j : nat) :
  (j < length facets)%nat ->
  exists before f after, facets = before ++ f :: after /\ length before = j.
Proof.
  intros Hj. destruct (lookup_lt_is_Some_2 facets j Hj) as [f Hf].
  exists (take j facets), f, (drop (S j) facets). split.
  - symmetry. apply take_drop_middle. done.
  - rewrite length_take. lia.
Qed.

(** *** The verdicts *)

Ltac use_scan H :=
  match goal with
  | |- context [?m ≫= _] =>
      match type of H with _ = ?r => replace m with r by (symmetry; exact H) end
  end.

Lemma missing_line_no_newline (before after : list facet) (f : facet) (p : nat) :
  Forall (facet_ok pyfloat) (before ++ f :: after) ->
  Forall (fun l => no_newline l = true)
    (flat_map facet_lines before ++ delete p (facet_lines f) ++ flat_map facet_lines after).
Proof.
  intros Hall. apply Forall_app in Hall as [Hb Hfa]. apply Forall_cons in Hfa as [Hf Ha].
  rewrite !Forall_app. repeat split.
  - apply blocks_no_newline. done.
  - apply Forall_delete, facet_lines_no_newline. done.
  - apply blocks_no_newline. done.
Qed.

Lemma counted_document (name : str) (mid : list str) (e trailer : str) :
  decode (f_data file) = text_of ((lit "solid" ++ name) :: mid ++ [lit "endsolid" ++ e]) trailer ->
  no_newline name = true -> Forall (fun l => no_newline l = true) mid ->
  no_newline e = true -> forallb isspace trailer = true ->
  let lines := (lit "solid" ++ name) :: mid ++ [lit "endsolid" ++ rstrip e] in
  counted pyfloat decode file = scan_facets pyfloat (length lines) lines 1 0.
Proof.
  intros Hdecode Hname Hmid He Ht lines. unfold counted.
  rewrite Hdecode, (text_lines_document name mid e trailer) by done. done.
Qed.

Lemma well_formed_verdict (name e trailer : str) (facets : list facet) :
  well_formed pyfloat name facets e trailer ->
  1 <= Z.of_nat (length facets) <= 1000000 ->
  readable_text file ->
  decode (f_data file) = text_of (stl_lines name facets e) trailer ->
  counted pyfloat decode file = Ret (Counted (Z.of_nat (length facets)))
  /\ _validate_ascii_stl pyfloat decode file = Ret (true, None).
Proof.
  intros (Hname & He & Ht & Hfs) HN [Hopen Hread] Hdecode. unfold stl_lines in Hdecode.
  pose proof (blocks_no_newline facets Hfs) as Hmid.
  pose proof (scan_well_formed (lit "solid" ++ name) (lit "endsolid" ++ rstrip e) facets Hfs)
    as Hscan. cbv zeta in Hscan.
  split.
  - rewrite (counted_document name _ e trailer Hdecode) by done. exact Hscan.
  - rewrite (ascii_reduces name _ e trailer Hopen Hread Hdecode) by done.
    use_scan Hscan. rewrite ret_bind.
    destruct (Z.eqb_spec (Z.of_nat (length facets)) 0) as [H0|_]; [lia|].
    destruct (Z.ltb_spec 1000000 (Z.of_nat (length facets))) as [H1|_]; [lia|]. done.
Qed.

Lemma broken_verdict (name e trailer : str) (facets : list facet) (j p : nat) :
  well_formed pyfloat name facets e trailer ->
  readable_text file ->
  (j < length facets)%nat -> (1 <= p <= 6)%nat ->
  decode (f_data file)
  = text_of (delete (line_index j p) (stl_lines name facets e)) trailer ->
  exists m, _validate_ascii_stl pyfloat decode file = Ret (false, Some m).
Proof.
  intros (Hname & He & Ht & Hfs) [Hopen Hread] Hj Hp Hdecode.
  destruct (split_facets facets j Hj) as (before & f & after & -> & <-).
  rewrite stl_lines_without in Hdecode by lia.
  pose proof (missing_line_no_newline before after f p Hfs) as Hmid.
  rewrite (ascii_reduces name _ e trailer Hopen Hread Hdecode) by done.
  apply Forall_app in Hfs as [Hb Hfa]. apply Forall_cons in Hfa as [Hf Ha].
  destruct (scan_broken (lit "solid" ++ name) (rstrip e) before after f p Hb Hf Ha Hp)
    as [v Hv]. cbv zeta in Hv.
  use_scan Hv. rewrite ret_bind.
  destruct (scan_facets_rejects pyfloat _ _ _ _ _ Hv) as [m ->]. exists m. done.
Qed.

Lemma headless_verdict (name e trailer : str) (facets : list facet) (j : nat) :
  well_formed pyfloat name facets e trailer ->
  Z.of_nat (length facets) <= 1000000 ->
  readable_text file ->
  (j < length facets)%nat ->
  decode (f_data file)
  = text_of (delete (line_index j 0) (stl_lines name facets e)) trailer ->
  counted pyfloat decode file = Ret (Counted (Z.of_nat (length facets) - 1))
  /\ (_validate_ascii_stl pyfloat decode file = Ret (true, None)
      <-> (2 <= length facets)%nat)
  /\ (length facets = 1%nat ->
      _validate_ascii_stl pyfloat decode file
      = Ret (false, Some (lit "ASCII STL contains no triangles"))).
Proof.
  intros (Hname & He & Ht & Hfs) HN [Hopen Hread] Hj Hdecode.
  destruct (split_facets facets j Hj) as (before & f & after & -> & <-).
  rewrite stl_lines_without in Hdecode by lia.
  pose proof (missing_line_no_newline before after f 0 Hfs) as Hmid.
  rewrite (ascii_reduces name _ e trailer Hopen Hread Hdecode) by done.
  rewrite (counted_document name _ e trailer Hdecode) by done.
  apply Forall_app in Hfs as [Hb Hfa]. apply Forall_cons in Hfa as [Hf Ha].
  pose proof (scan_headless (lit "solid" ++ name) (lit "endsolid" ++ rstrip e)
                before after f Hb Hf Ha) as Hscan. cbv zeta in Hscan.
  split; [refine (eq_trans Hscan _); rewrite length_app; cbn [length]; f_equal; f_equal; lia|].
  use_scan Hscan. rewrite ret_bind. rewrite length_app in *. cbn [length] in *.
  destruct (Z.eqb_spec (Z.of_nat (length before + length after)) 0) as [H0|H0].
  - split; [split; [done | lia] | done].
  - destruct (Z.ltb_spec 1000000 (Z.of_nat (length before + length after))) as [H1|_]; [lia|].
    split; [split; [lia | done] | lia].
Qed.

End WithBuiltins.

(** C3, as the code has it.  For a well-formed [solid ... endsolid] text of
    N face blocks, 1 <= N <= 1000000: the file is accepted and the loop
    counts exactly N triangles; taking out the outer-loop line, a vertex
    line, the endloop line or the endfacet line of any face block makes
    validation reject the file; taking out the facet-normal line of a face
    block makes the loop step over the six lines left, count N - 1
    triangles, and accept the file unless N = 1. *)
Theorem ascii_rules (pyfloat : str -> option float) (decode : list byte -> str)
    (name e trailer : str) (facets : list facet) :
  well_formed pyfloat name facets e trailer ->
  1 <= Z.of_nat (length facets) <= 1000000 ->
  (forall file, readable_text file ->
     decode (f_data file) = text_of (stl_lines name facets e) trailer ->
     counted pyfloat decode file = Ret (Counted (Z.of_nat (length facets)))
     /\ _validate_ascii_stl pyfloat decode file = Ret (true, None))
  /\ (forall file j p, readable_text file ->
        (j < length facets)%nat -> (1 <= p <= 6)%nat ->
        decode (f_data file)
        = text_of (delete (line_index j p) (stl_lines name facets e)) trailer ->
        exists m, _validate_ascii_stl pyfloat decode file = Ret (false, Some m))
  /\ (forall file j, readable_text file -> (j < length facets)%nat ->
        decode (f_data file)
        = text_of (delete (line_index j 0) (stl_lines name facets e)) trailer ->
        counted pyfloat decode file = Ret (Counted (Z.of_nat (length facets) - 1))
        /\ (_validate_ascii_stl pyfloat decode file = Ret (true, None)
            <-> (2 <= length facets)%nat)
        /\ (length facets = 1%nat ->
            _validate_ascii_stl pyfloat decode file
            = Ret (false, Some (lit "ASCII STL contains no triangles")))).
Proof.
  intros Hwf HN. split; [|split].
  - intros file Hr Hd. apply (well_formed_verdict pyfloat decode file name e trailer facets); done.
  - intros file j p Hr Hj Hp Hd.
    apply (broken_verdict pyfloat decode file name e trailer facets j p); done.
  - intros file j Hr Hj Hd.
    apply (headless_verdict pyfloat decode file name e trailer facets j); [done|lia|done..].
Qed.

Lemma ascii_rules_witness :
  _validate_ascii_stl TimeParser.float_of_digits decode_ascii
    (text_file (stl_lines " cube" [flat_facet; flat_facet] " cube")) = Ret (true, None)
  /\ (exists m,
        _validate_ascii_stl TimeParser.float_of_digits decode_ascii
          (text_file (delete (line_index 1 3) (stl_lines " cube" [flat_facet; flat_facet] " cube")))
        = Ret (false, Some m)).
Proof.
  destruct (ascii_rules TimeParser.float_of_digits decode_ascii
              " cube" " cube" [newline] [flat_facet; flat_facet]) as (Hfull & Hbroken & _).
  - repeat split; try reflexivity.
    repeat constructor; try reflexivity; try discriminate; vm_compute; eauto.
  - simpl. lia.
  - split.
    + apply Hfull; [split; reflexivity | reflexivity].
    + apply (Hbroken _ 1%nat 3%nat); [split; reflexivity | simpl; lia | lia | reflexivity].
Defined.

(** A text of two face blocks without the facet-normal line of the first:
    one triangle is counted and the file is accepted. *)
Lemma facet_normal_line_removed_accepted :
  let file := text_file (delete (line_index 0 0)
                           (stl_lines " cube" [flat_facet; flat_facet] " cube")) in
  counted TimeParser.float_of_digits decode_ascii file = Ret (Counted 1)
  /\ _validate_ascii_stl TimeParser.float_of_digits decode_ascii file = Ret (true, None).
Proof. split; vm_compute; reflexivity. Qed.

End AsciiFacts.

(* ===================================================================== *)
(** ** The worker task: more on its runs                                   *)
(* ===================================================================== *)

Module WorkerRuns.
Import Runner Worker WorkerFacts.

(** What [analyze_stl] of the runner gives when it returns. *)
Lemma analyze_stl_Ret tp prep c parsed0 a log :
  analyze_stl tp prep c parsed0 = (Ret a, log) ->
  a = parsed0 /\ log = [Spawn; Exit 0] /\ prep = Ret tt
  /\ exists secs err, c = Runs secs 0 err true /\ secs <= 300.
Proof.
  unfold analyze_stl. destruct prep as [[]|e]; [|intros H; discriminate H].
  unfold _run_slicer, subprocess_run. destruct c as [reason|secs rc err out].
  { intros H. discriminate H. }
  destruct (Z.ltb_spec 300 secs) as [Hlate|Hok]; [intros H; discriminate H|].
  cbn. destruct (Z.eqb_spec rc 0) as [->|Hrc]; cbn; [|intros H; discriminate H].
  destruct out; cbn; [|intros H; discriminate H].
  intros [= <- <-]. eauto 10.
Qed.

Lemma analyze_stl_ok tp parsed0 secs err :
  secs <= 300 ->
  analyze_stl tp (Ret tt) (Runs secs 0 err true) parsed0 = (Ret parsed0, [Spawn; Exit 0]).
Proof.
  intros Hok. unfold analyze_stl, _run_slicer, subprocess_run.
  destruct (Z.ltb_spec 300 secs) as [Hlate|_]; [lia|]. reflexivity.
Qed.

Section Task.
Variable w : world.
Variables task_id job_id file_id : str.

Ltac walk :=
  lazymatch goal with
  | |- wp (mbind _ _) _ _ _ => apply wp_bind
  | |- wp (retT _) _ _ _ => apply wp_ret
  | |- wp (raiseT _ _) _ _ _ => apply wp_raise
  | |- wp (liftT _) _ _ _ => apply wp_lift
  | |- wp (modify _) _ _ _ => apply wp_modify
  | |- wp (call_ _ _) _ _ _ => apply wp_call; [|intros ? ?]
  | |- wp (try_exceptT _ _) _ _ _ => apply wp_try_except
  | |- wp (try_finallyT _ _) _ _ _ => apply wp_try_finally
  | |- wp (cleanup _ _) _ _ _ => apply wp_cleanup
  | |- wp (close_db _) _ _ _ => apply wp_close_db
  | |- wp (run_slicer _) _ _ _ => apply wp_run_slicer; intros [?|?] ? ?
  | |- wp (update_state _ _ _ _) _ _ _ => unfold update_state
  | |- wp (commit _ _) _ _ _ => unfold commit
  | |- wp (service_init _) _ _ _ => unfold service_init
  | |- wp (_prepare_analysis_workspace _ _) _ _ _ => unfold _prepare_analysis_workspace
  | |- wp (task_body _ _ _ _) _ _ _ => unfold task_body
  | |- wp (analyze_stl_task _ _ _ _) _ _ _ => unfold analyze_stl_task
  | |- wp (match file_record ?w with _ => _ end) _ _ _ => destruct (file_record w) eqn:?
  | |- wp (if ?b then _ else _) _ _ _ => destruct b eqn:?
  | |- match _validate_stl_file ?w with _ => _ end =>
      destruct (_validate_stl_file w) as [[[] ?]|?] eqn:?
  | |- wp (let '(_, _) := ?p in _) _ _ _ => destruct p
  | |- if service_bound _ then _ else _ =>
      cbn [service_bound with_fs with_backend with_procs with_saved bind_service bind_db init_st]
  | |- if db_bound _ then _ else _ =>
      cbn [db_bound with_fs with_backend with_procs with_saved bind_service bind_db init_st]
  | |- match faults ?w WorkspaceExists with _ => _ end =>
      destruct (faults w WorkspaceExists) eqn:?
  | |- if bool_decide _ then _ else _ => case_bool_decide
  end.

Ltac fields :=
  cbn [fs backend history procs saved service_bound db_bound
       with_fs with_backend with_procs with_saved bind_service bind_db init_st].

(** The task writes to the backend under its own id only. *)
Lemma backend_other_key (paths : gset (list ascii)) bk (key : str) :
  key <> task_id ->
  backend (run_task w task_id job_id file_id (init_st paths bk)) !! key = bk !! key.
Proof.
  intros Hne. apply run_task_wp. repeat walk.
  all: fields; repeat (etransitivity; [apply lookup_insert_ne; congruence|]); reflexivity.
Qed.

(** A run in which nothing fails. *)
Lemma clean_run (paths : gset (list ascii)) bk secs err :
  reaches_slicer w -> engine w = Runs secs 0 err true -> secs <= 300 ->
  history (run_task w task_id job_id file_id (init_st paths bk)) =
    [STARTED (worker_info w);
     PROGRESS 10 "Initializing analysis...";
     PROGRESS 20 "Validating STL file...";
     PROGRESS 30 "Preparing analysis workspace...";
     PROGRESS 50 "Running PrusaSlicer analysis...";
     PROGRESS 80 "Saving analysis results...";
     PROGRESS 100 "Analysis completed";
     SUCCESS (result_uuid w)]
  /\ saved (run_task w task_id job_id file_id (init_st paths bk))
     = [(result_uuid w, parsed w)]
  /\ procs (run_task w task_id job_id file_id (init_st paths bk)) = [Spawn; Exit 0].
Proof.
  intros (Hnf & [path Hrec] & Hdisk & [o Hv] & Hprep) Heng Hok.
  assert (Hv' : _validate_stl_file w = Ret (true, o)).
  { unfold _validate_stl_file. rewrite Hv. done. }
  pose proof (analyze_stl_ok (slicer_tmp w) (parsed w) secs err Hok) as Hrun.
  rewrite <- Hprep, <- Heng in Hrun.
  apply run_task_wp. repeat walk.
  all: try match goal with
           | H : faults _ _ = Some _ |- _ => rewrite Hnf in H; discriminate H
           end.
  all: try first [discriminate Hrec | discriminate Hdisk | discriminate Hv'].
  all: match goal with
       | H : analyze_stl _ _ _ _ = _ |- _ => rewrite Hrun in H; inversion H; subst
       end.
  all: fields; repeat split; reflexivity.
Qed.

(** Whatever happens, at most one result is saved, the one of the slicer
    under the fresh id; and a task that ends [SUCCESS] has saved it. *)
Lemma saved_rows (paths : gset (list ascii)) bk :
  (saved (run_task w task_id job_id file_id (init_st paths bk)) = []
   \/ (saved (run_task w task_id job_id file_id (init_st paths bk))
       = [(result_uuid w, parsed w)]
       /\ procs (run_task w task_id job_id file_id (init_st paths bk)) = [Spawn; Exit 0]))
  /\ (forall r,
        backend (run_task w task_id job_id file_id (init_st paths bk)) !! task_id
        = Some (SUCCESS r) ->
        r = result_uuid w
        /\ saved (run_task w task_id job_id file_id (init_st paths bk))
           = [(result_uuid w, parsed w)]).
Proof.
  apply run_task_wp. repeat walk.
  all: fields.
  all: try match goal with
           | H : analyze_stl _ _ _ _ = (Ret _, _) |- _ =>
               apply analyze_stl_Ret in H as (-> & -> & _)
           end.
  all: split; [first [left; reflexivity | right; split; reflexivity]|].
  all: intros r Hr; rewrite lookup_insert_eq in Hr; inversion Hr; subst; split; reflexivity.
Qed.

(** *** When [db] was never bound *)

Lemma wp_call_fault c e (Q : unit -> st -> Prop) E s :
  faults w c = Some e -> E e s -> wp (call_ w c) Q E s.
Proof. unfold wp, call_. intros ->. done. Qed.

Lemma wp_call_ok c (Q : unit -> st -> Prop) E s :
  faults w c = None -> Q tt s -> wp (call_ w c) Q E s.
Proof. unfold wp, call_. intros ->. done. Qed.

(** A world that reaches the saving and whose constructor returns has no
    fault at all. *)
Lemma reaches_saving_slicer :
  reaches_saving w -> faults w NewResult = None -> reaches_slicer w.
Proof.
  intros (Hnf & Hrest) Hnew. split; [|exact Hrest].
  intros c. destruct c; try (apply Hnf; discriminate). exact Hnew.
Qed.

(** The run in which the constructor of the result row raises, everything
    before it having gone well. *)
Lemma failed_row_run (paths : gset (list ascii)) bk secs err e :
  reaches_saving w -> faults w NewResult = Some e ->
  engine w = Runs secs 0 err true -> secs <= 300 ->
  history (run_task w task_id job_id file_id (init_st paths bk)) =
    [STARTED (worker_info w);
     PROGRESS 10 "Initializing analysis...";
     PROGRESS 20 "Validating STL file...";
     PROGRESS 30 "Preparing analysis workspace...";
     PROGRESS 50 "Running PrusaSlicer analysis...";
     PROGRESS 80 "Saving analysis results...";
     FAILURE (fmt ["Analysis failed: " : str; exn_msg e])]
  /\ saved (run_task w task_id job_id file_id (init_st paths bk)) = []
  /\ procs (run_task w task_id job_id file_id (init_st paths bk)) = [Spawn; Exit 0].
Proof.
  intros (Hnf & [path Hrec] & Hdisk & [o Hv] & Hprep) Hnew Heng Hok.
  assert (Hv' : _validate_stl_file w = Ret (true, o)).
  { unfold _validate_stl_file. rewrite Hv. done. }
  pose proof (analyze_stl_ok (slicer_tmp w) (parsed w) secs err Hok) as Hrun.
  rewrite <- Hprep, <- Heng in Hrun.
  apply run_task_wp.
  repeat first [ eapply wp_call_fault; [exact Hnew|] | walk ].
  all: try match goal with
           | H : faults _ _ = Some _ |- _ => rewrite Hnf in H by discriminate; discriminate H
           end.
  all: try first [discriminate Hrec | discriminate Hdisk | discriminate Hv'].
  all: try match goal with
           | H : faults _ WorkspaceExists = Some _ |- _ =>
               rewrite Hnf in H by discriminate; discriminate H
           end.
  all: match goal with
       | H : analyze_stl _ _ _ _ = _ |- _ => rewrite Hrun in H; inversion H; subst
       end.
  all: fields; repeat split; reflexivity.
Qed.

Lemma wp_close_db_unbound (Q : unit -> st -> Prop) (E : exn -> st -> Prop) s :
  db_bound s = false ->
  (forall msg, E (mk_exn NameError msg) s) ->
  wp (close_db w) Q E s.
Proof. unfold wp, close_db. intros -> H. apply H. Qed.

Lemma wp_cleanup_keeps (Q : unit -> st -> Prop) E s :
  (forall s', db_bound s' = db_bound s -> Q tt s') -> wp (cleanup w job_id) Q E s.
Proof.
  intros H. apply wp_cleanup. destruct (service_bound s); [|apply H; done].
  destruct (faults w WorkspaceExists); [apply H; done|].
  case_bool_decide; apply H; done.
Qed.

Lemma unbound_db (s : st) e0 :
  db_bound s = false ->
  faults w (UpdateState 10) = Some e0 \/ faults w GetDb = Some e0 ->
  wp (analyze_stl_task w task_id job_id file_id)
     (fun _ _ => False) (fun e _ => exn_cls e = NameError) s.
Proof.
  intros Hdb Hfault.
  assert (Hend : forall e s1, db_bound s1 = false ->
            wp (A:=str) (cleanup w job_id;; raiseT Exception (fmt ["Analysis failed: " : str; exn_msg e]))
               (fun _ => wp (close_db w) (fun _ _ => False) (fun e _ => exn_cls e = NameError))
               (fun e' => wp (close_db w) (fun _ _ => exn_cls e' = NameError)
                             (fun e _ => exn_cls e = NameError)) s1).
  { intros e s1 Hs1. apply wp_bind, wp_cleanup_keeps. intros s' Hs'.
    apply wp_raise, wp_close_db_unbound; [congruence | done]. }
  unfold analyze_stl_task. apply wp_try_finally, wp_try_except.
  unfold task_body. apply wp_bind. unfold update_state. apply wp_bind.
  destruct (faults w (UpdateState 10)) as [e1|] eqn:H10.
  - eapply wp_call_fault; [exact H10|]. apply Hend. done.
  - destruct Hfault as [Hf|Hf]; [discriminate Hf|].
    apply wp_call_ok; [exact H10|]. unfold commit. apply wp_modify, wp_bind.
    eapply wp_call_fault; [exact Hf|]. apply Hend. done.
Qed.

End Task.

(** The worker writes to the result backend under the id of its task only:
    a status query under any other key, for instance under a job id that
    is not the task id, answers the same before, during and after the
    run; for a key the backend does not know that is "pending" with
    progress 0. *)
Theorem status_elsewhere_unchanged (w : world) (task_id job_id file_id key : str)
    (paths : gset (list ascii)) (bk : gmap (list ascii) celery_state) :
  key <> task_id ->
  (forall b, b ∈ snapshots w task_id job_id file_id paths bk ->
     get_analysis_status b key = get_analysis_status bk key)
  /\ get_analysis_status (backend (run_task w task_id job_id file_id (init_st paths bk))) key
     = get_analysis_status bk key
  /\ (bk !! key = None ->
      get_analysis_status (backend (run_task w task_id job_id file_id (init_st paths bk))) key
      = mk_status key "pending" 0 "Analysis queued" None None).
Proof.
  intros Hne.
  assert (Hsame : forall b : gmap (list ascii) celery_state,
            b !! key = bk !! key -> get_analysis_status b key = get_analysis_status bk key).
  { intros b Hb. unfold get_analysis_status. rewrite Hb. done. }
  pose proof (backend_other_key w task_id job_id file_id paths bk key Hne) as Hend.
  split; [|split].
  - intros b Hb. apply Hsame. unfold snapshots in Hb.
    apply elem_of_cons in Hb as [->|Hb]; [done|].
    eapply replay_lookup_other; done.
  - apply Hsame. exact Hend.
  - intros Hnone. unfold get_analysis_status. rewrite Hend, Hnone. done.
Qed.

Lemma status_elsewhere_unchanged_witness :
  get_analysis_status
    (backend (run_task (slicing_world 10) "task-1" "job-1" "file-1" (init_st ∅ ∅))) "job-1"
  = mk_status "job-1" "pending" 0 "Analysis queued" None None.
Proof.
  apply (status_elsewhere_unchanged (slicing_world 10) "task-1" "job-1" "file-1" "job-1" ∅ ∅).
  - discriminate.
  - reflexivity.
Defined.

(** Everything up to the saving goes well: no infrastructure call fails,
    the file is stored and valid, and the engine exits with code 0 within
    the 300 seconds having written its output.  Then the constructor of
    the result row decides.  When it returns, the task reports 10, 20, 30,
    50, 80 and 100 in this order and ends [SUCCESS] with the id of the one
    result saved, and the status is "completed" at 100.  When it raises,
    the task reports 10, 20, 30, 50 and 80 and ends [FAILURE] with
    "Analysis failed: " and the error of the constructor; no result is
    saved, although the engine ran once and exited with code 0. *)
Theorem result_row_decides (w : world) (task_id job_id file_id : str)
    (paths : gset (list ascii)) (bk : gmap (list ascii) celery_state)
    (secs : Z) (err : str) :
  reaches_saving w -> engine w = Runs secs 0 err true -> secs <= 300 ->
  (faults w NewResult = None ->
   history (run_task w task_id job_id file_id (init_st paths bk)) =
     [STARTED (worker_info w);
      PROGRESS 10 "Initializing analysis...";
      PROGRESS 20 "Validating STL file...";
      PROGRESS 30 "Preparing analysis workspace...";
      PROGRESS 50 "Running PrusaSlicer analysis...";
      PROGRESS 80 "Saving analysis results...";
      PROGRESS 100 "Analysis completed";
      SUCCESS (result_uuid w)]
   /\ saved (run_task w task_id job_id file_id (init_st paths bk))
      = [(result_uuid w, parsed w)]
   /\ procs (run_task w task_id job_id file_id (init_st paths bk)) = [Spawn; Exit 0]
   /\ get_analysis_status
        (backend (run_task w task_id job_id file_id (init_st paths bk))) task_id
      = mk_status task_id "completed" 100 "Analysis completed" (Some (result_uuid w)) None)
  /\ (forall e, faults w NewResult = Some e ->
      let msg := fmt ["Analysis failed: " : str; exn_msg e] in
      history (run_task w task_id job_id file_id (init_st paths bk)) =
        [STARTED (worker_info w);
         PROGRESS 10 "Initializing analysis...";
         PROGRESS 20 "Validating STL file...";
         PROGRESS 30 "Preparing analysis workspace...";
         PROGRESS 50 "Running PrusaSlicer analysis...";
         PROGRESS 80 "Saving analysis results...";
         FAILURE msg]
      /\ saved (run_task w task_id job_id file_id (init_st paths bk)) = []
      /\ procs (run_task w task_id job_id file_id (init_st paths bk)) = [Spawn; Exit 0]
      /\ get_analysis_status
           (backend (run_task w task_id job_id file_id (init_st paths bk))) task_id
         = mk_status task_id "failed" 0 msg None (Some msg)).
Proof.
  intros Hreach Heng Hok. split.
  - intros Hnew.
    destruct (clean_run w task_id job_id file_id paths bk secs err
                (reaches_saving_slicer w Hreach Hnew) Heng Hok) as (Hh & Hs & Hp).
    repeat split; [exact Hh | exact Hs | exact Hp |].
    unfold get_analysis_status.
    rewrite (last_write w task_id job_id file_id paths bk (SUCCESS (result_uuid w)));
      [done | rewrite Hh; done].
  - intros e Hnew msg.
    destruct (failed_row_run w task_id job_id file_id paths bk secs err e
                Hreach Hnew Heng Hok) as (Hh & Hs & Hp).
    repeat split; [exact Hh | exact Hs | exact Hp |].
    unfold get_analysis_status.
    rewrite (last_write w task_id job_id file_id paths bk (FAILURE msg));
      [done | rewrite Hh; done].
Qed.

Lemma result_row_decides_witness :
  map state_progress
      (history (run_task (slicing_world 10) "task-1" "job-1" "file-1" (init_st ∅ ∅)))
  = [0; 10; 20; 30; 50; 80; 100; 100]
  /\ last (history (run_task Worlds.unknown_keyword "task-1" "job-1" "file-1" (init_st ∅ ∅)))
     = Some (FAILURE
               "Analysis failed: 'analyzed_at' is an invalid keyword argument for AnalysisResult").
Proof.
  split.
  - destruct (result_row_decides (slicing_world 10) "task-1" "job-1" "file-1" ∅ ∅ 10 [])
      as ((Hh & _) & _).
    + repeat split; try reflexivity; eexists; reflexivity.
    + reflexivity.
    + lia.
    + reflexivity.
    + rewrite Hh. reflexivity.
  - destruct (result_row_decides Worlds.unknown_keyword "task-1" "job-1" "file-1" ∅ ∅ 10 [])
      as (_ & Hfail).
    + split; [intros c Hc; destruct c; try reflexivity; done|].
      repeat split; try reflexivity; eexists; reflexivity.
    + reflexivity.
    + lia.
    + destruct (Hfail _ eq_refl) as (Hh & _). rewrite Hh. reflexivity.
Defined.

(** Whatever fails, a run saves no result or exactly one, the metrics of
    the slicer under the fresh id, and only after the engine ran once and
    exited with code 0; a task that ends [SUCCESS] returns the id of the
    one result it saved. *)
Theorem result_saved_once (w : world) (task_id job_id file_id : str)
    (paths : gset (list ascii)) (bk : gmap (list ascii) celery_state) :
  (saved (run_task w task_id job_id file_id (init_st paths bk)) = []
   \/ (saved (run_task w task_id job_id file_id (init_st paths bk))
       = [(result_uuid w, parsed w)]
       /\ procs (run_task w task_id job_id file_id (init_st paths bk)) = [Spawn; Exit 0]))
  /\ (forall r,
        backend (run_task w task_id job_id file_id (init_st paths bk)) !! task_id
        = Some (SUCCESS r) ->
        r = result_uuid w
        /\ saved (run_task w task_id job_id file_id (init_st paths bk))
           = [(result_uuid w, parsed w)]).
Proof. apply saved_rows. Qed.

(** When the first [update_state] or [get_db] raises, [db] is never bound:
    the [finally] block raises a [NameError] at [db.close()], and this is
    the exception of the task, in place of "Analysis failed: ...". *)
Theorem unbound_db_masks_error (w : world) (task_id job_id file_id : str)
    (paths : gset (list ascii)) (bk : gmap (list ascii) celery_state) (e0 : exn) :
  faults w (UpdateState 10) = Some e0 \/ faults w GetDb = Some e0 ->
  exists e,
    exn_cls e = NameError
    /\ (analyze_stl_task w task_id job_id file_id
          (with_backend task_id (STARTED (worker_info w)) (init_st paths bk))).1 = Raise e
    /\ backend (run_task w task_id job_id file_id (init_st paths bk)) !! task_id
       = Some (FAILURE (exn_msg e)).
Proof.
  intros Hfault.
  pose proof (unbound_db w task_id job_id file_id
                (with_backend task_id (STARTED (worker_info w)) (init_st paths bk))
                e0 eq_refl Hfault) as H.
  unfold wp in H. unfold run_task.
  destruct (analyze_stl_task _ _ _ _ _) as [[r|e] s2]; [destruct H|].
  exists e. repeat split; [exact H|]. apply lookup_insert_eq.
Qed.

Lemma unbound_db_masks_error_witness :
  exists e,
    exn_cls e = NameError
    /\ backend (run_task Worlds.no_database "task-1" "job-1" "file-1" (init_st ∅ ∅))
         !! ("task-1" : str)
       = Some (FAILURE (exn_msg e)).
Proof.
  destruct (unbound_db_masks_error Worlds.no_database "task-1" "job-1" "file-1" ∅ ∅
              (mk_exn OSError ("connection refused" : string))) as (e & Hc & _ & Hb).
  - right. reflexivity.
  - exists e. split; [exact Hc | exact Hb].
Defined.

End WorkerRuns.

(* ===================================================================== *)
(** ** The runner: what [_run_slicer] can end with                         *)
(* ===================================================================== *)

Module RunnerOutcomes.
Import Runner.




End RunnerOutcomes.

(* ===================================================================== *)
(** ** The validator: what acceptance implies, and what is looked at       *)
(* ===================================================================== *)

Module ValidatorMore.
Import Validator ValidatorFacts.

Section WithBuiltins.
Variable pyfloat : str -> option float.
Variable decode : list byte -> str.
Variable repr_float : float -> str.

(** *** The loop of the text rules always ends *)

Lemma item_in_range {A} (l : list A) (i : nat) :
  (i < length l)%nat -> exists x, item l i = Ret x.
Proof.
  intros Hi. unfold item. destruct (lookup_lt_is_Some_2 l i Hi) as [x ->]. eauto.
Qed.

Lemma check_vertex_returns (lines : list str) (i j : nat) :
  (i + 2 + j < length lines)%nat ->
  exists r, check_vertex pyfloat lines i j = Ret r.
Proof.
  intros Hi. unfold check_vertex.
  destruct (item_in_range lines (i + 2 + j) Hi) as [l ->]. rewrite ret_bind.
  destruct (negb (startswith _ _)); [eauto|].
  destruct (negb (_ =? _)%nat); [eauto|].
  destruct (mapM _ _) as [vs|[cls msg]] eqn:Hm; [eauto|].
  cbn. unfold py_float in Hm.
  assert (Hcls : cls = ValueError).
  { clear -Hm. revert Hm. generalize (slice 1 4 (split_ws (strip l))).
    intros coords. revert cls msg.
    induction coords as [|c coords IH]; intros cls msg; [done|].
    cbn. destruct (pyfloat c); cbn; [|intros [= <- _]; done].
    destruct (mapM _ coords) as [vs|[cls' msg']] eqn:Hrest; cbn; [done|].
    intros [= <- <-]. eapply IH. reflexivity. }
  subst cls. cbn. eauto.
Qed.

Lemma check_vertices_returns (lines : list str) (i : nat) (js : list nat) :
  Forall (fun j => (i + 2 + j < length lines)%nat) js ->
  exists r, check_vertices pyfloat lines i js = Ret r.
Proof.
  induction js as [|j js IH]; intros Hjs; [cbn; eauto|].
  apply Forall_cons in Hjs as [Hj Hjs]. cbn [check_vertices].
  destruct (check_vertex_returns lines i j Hj) as [[v|] ->]; rewrite ret_bind; [eauto|].
  apply IH. done.
Qed.

Lemma check_facet_returns (lines : list str) (i : nat) :
  exists r, check_facet pyfloat lines i = Ret r.
Proof.
  unfold check_facet. destruct (Nat.leb_spec (length lines) (i + 6)) as [|Hlen]; [eauto|].
  destruct (item_in_range lines (i + 1)) as [l1 ->]; [lia|]. rewrite ret_bind.
  destruct (negb (str_eqb _ _)); [eauto|].
  destruct (check_vertices_returns lines i [0; 1; 2]%nat) as [[v|] ->].
  { repeat constructor; lia. }
  { rewrite ret_bind. eauto. }
  rewrite ret_bind.
  destruct (item_in_range lines (i + 5)) as [l5 ->]; [lia|]. rewrite ret_bind.
  destruct (negb (str_eqb _ _)); [eauto|].
  destruct (item_in_range lines (i + 6)) as [l6 ->]; [lia|]. rewrite ret_bind.
  destruct (negb (str_eqb _ _)); eauto.
Qed.

(** Started at [i] with [n] triangles counted and enough fuel, the loop
    ends with a rejection or with a count; each triangle it adds to the
    count stands for seven lines of their own. *)
Lemma scan_facets_ends fuel (lines : list str) (i : nat) (n : Z) :
  (i <= length lines)%nat -> (length lines <= fuel + i)%nat -> (1 <= fuel)%nat ->
  (exists v, scan_facets pyfloat fuel lines i n = Ret (Returned v) /\ rejection v)
  \/ (exists m, scan_facets pyfloat fuel lines i n = Ret (Counted m)
                /\ n <= m /\ 7 * (m - n) <= Z.of_nat (length lines) - Z.of_nat i).
Proof.
  revert i n. induction fuel as [|fuel IH]; intros i n Hi Hfuel Hpos; [lia|].
  cbn [scan_facets].
  destruct (Z.ltb_spec (Z.of_nat i) (Z.of_nat (length lines) - 1)) as [Hlt|Hge].
  2:{ right. exists n. split; [done|]. lia. }
  destruct (item_in_range lines i) as [l ->]; [lia|]. rewrite ret_bind.
  destruct (startswith "facet normal" (strip l)).
  - destruct (check_facet_returns lines i) as [[v|] Hc].
    + rewrite Hc, ret_bind. left. exists v. split; [done|].
      eapply check_facet_rejects. exact Hc.
    + rewrite Hc, ret_bind.
      assert (Hlen : (i + 7 <= length lines)%nat).
      { unfold check_facet in Hc.
        destruct (Nat.leb_spec (length lines) (i + 6)); [done | lia]. }
      destruct fuel as [|fuel'].
      { exfalso. lia. }
      destruct (IH (i + 7)%nat (n + 1)) as [Hrej|(m & Hm & Hnm & Hb)]; [lia..| |].
      * left. exact Hrej.
      * right. exists m. split; [exact Hm|]. lia.
  - destruct fuel as [|fuel'].
    { exfalso. lia. }
    destruct (IH (i + 1)%nat n) as [Hrej|(m & Hm & Hnm & Hb)]; [lia..| |].
    + left. exact Hrej.
    + right. exists m. split; [exact Hm|]. lia.
Qed.

Lemma split_on_nonempty (c : ascii) (s : str) : split_on c s <> [].
Proof.
  induction s as [|x s IH]; cbn; [done|].
  destruct (eqc x c); [done|]. destruct (split_on c s); done.
Qed.

Lemma counted_ends (file : stl_file) :
  (exists v, counted pyfloat decode file = Ret (Returned v) /\ rejection v)
  \/ (exists n, counted pyfloat decode file = Ret (Counted n)
                /\ 0 <= n
                /\ 7 * n + 1 <= Z.of_nat (length (text_lines (decode (f_data file))))).
Proof.
  unfold counted. set (lines := text_lines (decode (f_data file))).
  assert (Hne : (1 <= length lines)%nat).
  { pose proof (split_on_nonempty "010"%char (strip (decode (f_data file)))) as H.
    fold (text_lines (decode (f_data file))) in H. fold lines in H.
    destruct lines; [done | cbn; lia]. }
  destruct (scan_facets_ends (length lines) lines 1 0) as [H|(m & Hm & H0 & Hb)]; [lia..| |].
  - left. exact H.
  - right. exists m. split; [exact Hm|]. lia.
Qed.

(** *** What an accepted file is like *)

Section OneFile.
Variable file : stl_file.

Lemma binary_accepted :
  _validate_binary_stl repr_float file = Ret (true, None) ->
  0 < declared_count (f_data file) <= 1000000
  /\ st_size file = 84 + 50 * declared_count (f_data file).
Proof.
  unfold _validate_binary_stl. intros H%accepted_body; [|eauto].
  apply io_bind_Ret in H as [H0 H]. apply io_bind_Ret in H as [H1 H].
  unfold fread at 1 in H. cbn [h_pos h_data] in H.
  apply io_bind_Ret in H as [H2 H].
  unfold fread at 1 in H. cbn [h_pos h_data] in H.
  rewrite drop_0 in H.
  destruct (negb (_ =? _)%nat) eqn:Hlen4; [done|].
  apply negb_false_iff, Nat.eqb_eq in Hlen4.
  assert (Hcount : take 4 (drop (0 + length (take 80 (f_data file))) (f_data file))
                   = slice 80 84 (f_data file)).
  { unfold slice. f_equal. f_equal.
    destruct (decide (80 <= length (f_data file))%nat) as [Hge|Hlt].
    - rewrite length_take. lia.
    - exfalso. rewrite drop_ge in Hlen4 by (rewrite length_take; lia). done. }
  rewrite Hcount in H. fold (declared_count (f_data file)) in H.
  assert (Hnonneg : 0 <= declared_count (f_data file)).
  { unfold declared_count. generalize (slice 80 84 (f_data file)).
    intros bs. induction bs as [|b bs IH]; cbn [le_value]; [done|].
    pose proof (N2Z.is_nonneg (Byte.to_N b)). lia. }
  destruct (Z.eqb_spec (declared_count (f_data file)) 0) as [|Hne]; [done|].
  destruct (Z.ltb_spec 1000000 (declared_count (f_data file))) as [|Hle]; [done|].
  apply io_bind_Ret in H as [H3 H].
  destruct (Z.eqb_spec (st_size file) (80 + 4 + declared_count (f_data file) * 50))
    as [Hsize|]; [|done].
  lia.
Qed.

Lemma ascii_accepted :
  _validate_ascii_stl pyfloat decode file = Ret (true, None) ->
  exists n, counted pyfloat decode file = Ret (Counted n) /\ 1 <= n <= 1000000.
Proof.
  unfold _validate_ascii_stl. intros H%accepted_body; [|eauto].
  apply io_bind_Ret in H as [H0 H]. apply io_bind_Ret in H as [H1 H].
  apply bind_Ret in H as (first & _ & H).
  destruct (negb (startswith _ _)); [done|].
  apply bind_Ret in H as (final & _ & H).
  destruct (negb (startswith _ _)); [done|].
  apply bind_Ret in H as (r & Hr & H).
  fold (counted pyfloat decode file) in Hr.
  destruct r as [v|n|]; [|exists n|done].
  - destruct (counted_ends file) as [(v' & Hv' & [m ->])|(n & Hn & _)]; [|congruence].
    rewrite Hr in Hv'. injection Hv' as ->. injection H as Hf. done.
  - split; [exact Hr|].
    destruct (counted_ends file) as [(v' & Hv' & _)|(n' & Hn' & Hpos & _)]; [congruence|].
    rewrite Hr in Hn'. injection Hn' as <-.
    destruct (Z.eqb_spec n 0); [done|].
    destruct (Z.ltb_spec 1000000 n); [done|]. lia.
Qed.

Lemma validate_file_accepted :
  validate_file pyfloat decode repr_float file = Ret (true, None) ->
  f_exists file = true
  /\ MIN_FILE_SIZE <= st_size file <= MAX_FILE_SIZE
  /\ lower (f_suffix file) = lit ".stl"
  /\ (if bytes_startswith solid_bytes (f_data file)
      then exists n, counted pyfloat decode file = Ret (Counted n) /\ 1 <= n <= 1000000
      else 0 < declared_count (f_data file) <= 1000000
           /\ st_size file = 84 + 50 * declared_count (f_data file)).
Proof.
  unfold validate_file. intros H%accepted_body; [|eauto].
  apply io_bind_Ret in H as [H0 H].
  destruct (f_exists file); [|done]. cbn [negb] in H.
  apply io_bind_Ret in H as [H1 H].
  destruct (Z.ltb_spec MAX_FILE_SIZE (st_size file)); [done|].
  destruct (Z.ltb_spec (st_size file) MIN_FILE_SIZE); [done|].
  destruct (negb (str_eqb _ _)) eqn:Hext; [done|].
  apply negb_false_iff in Hext. unfold str_eqb in Hext. apply bool_decide_eq_true in Hext.
  apply bind_Ret in H as ([is_valid error] & Hfmt & H).
  destruct is_valid; [|done].
  pose proof (format_proper _ _ _ _ _ Hfmt) as [[= ->]|[m [=]]].
  assert (Hio : f_fault file IoOpenFormat = None /\ f_fault file IoReadHeader = None).
  { unfold _validate_stl_format in Hfmt.
    apply accepted_body in Hfmt; [|eauto].
    apply io_bind_Ret in Hfmt as [? Hfmt]. apply io_bind_Ret in Hfmt as [? _]. done. }
  destruct Hio as [Hopen Hread].
  rewrite format_dispatch_eq in Hfmt by done.
  repeat split; [lia | lia | exact Hext |].
  destruct (bytes_startswith _ _).
  - apply ascii_accepted. done.
  - apply binary_accepted. done.
Qed.

End OneFile.

(** *** What the binary rules look at *)

Lemma window_eq (d d' : list byte) (N p n : nat) :
  take N d = take N d' -> (p + n <= N)%nat ->
  take n (drop p d) = take n (drop p d').
Proof.
  intros H Hle. rewrite !take_drop_commute.
  replace (p + n)%nat with (Nat.min (p + n) N) by lia.
  rewrite <- !take_take, H. done.
Qed.

Lemma check_triangles_same (file file' : stl_file) (d d' : list byte) (N : nat)
    (indices : list nat) (p : nat) :
  (forall c, f_fault file' c = f_fault file c) ->
  take N d = take N d' ->
  (p + 50 * length indices <= N)%nat ->
  check_triangles repr_float file' indices (mk_handle d' p)
  = check_triangles repr_float file indices (mk_handle d p).
Proof.
  intros Hf Hd. revert p. induction indices as [|i rest IH]; intros p Hp; [done|].
  cbn [check_triangles length] in *. unfold io. rewrite Hf.
  destruct (f_fault file (IoReadBinary (2 + i))); [done|]. rewrite !ret_bind.
  unfold fread. cbn [h_pos h_data].
  rewrite (window_eq d d' N p 50 Hd) by lia.
  set (got := take 50 (drop p d')).
  assert (Hgot : (length got <= 50)%nat) by (unfold got; rewrite length_take; lia).
  destruct (negb (length got =? 50)%nat); [done|].
  rewrite IH by lia. done.
Qed.

Lemma binary_same (file file' : stl_file) :
  (forall c, f_fault file' c = f_fault file c) ->
  length (f_data file') = length (f_data file) ->
  take 584 (f_data file') = take 584 (f_data file) ->
  _validate_binary_stl repr_float file' = _validate_binary_stl repr_float file.
Proof.
  intros Hf Hlen Hd. unfold _validate_binary_stl, io, st_size. rewrite !Hf, Hlen.
  f_equal.
  destruct (f_fault file IoOpenBinary); [done|]. rewrite !ret_bind.
  destruct (f_fault file (IoReadBinary 0)); [done|]. rewrite !ret_bind.
  unfold fread. cbn [h_pos h_data].
  rewrite (window_eq (f_data file') (f_data file) 584 0 80 Hd) by lia.
  set (head := take 80 (drop 0 (f_data file))).
  assert (Hhead : (length head <= 80)%nat) by (unfold head; rewrite length_take; lia).
  destruct (f_fault file (IoReadBinary 1)); [done|]. rewrite !ret_bind.
  rewrite (window_eq (f_data file') (f_data file) 584 (0 + length head) 4 Hd) by lia.
  set (count_bytes := take 4 (drop (0 + length head) (f_data file))).
  assert (Hcb : (length count_bytes <= 4)%nat)
    by (unfold count_bytes; rewrite length_take; lia).
  destruct (negb (length count_bytes =? 4)%nat); [done|].
  destruct (le_value count_bytes =? 0); [done|].
  destruct (1000000 <? le_value count_bytes); [done|].
  destruct (f_fault file IoStatBinary); [done|]. rewrite !ret_bind.
  destruct (negb (_ =? _)); [done|].
  rewrite (check_triangles_same file file' (f_data file) (f_data file') 584); [done|done|done|].
  rewrite length_seq. lia.
Qed.

End WithBuiltins.

(** A file that [validate_file] accepts exists, has between 84 bytes and
    50 MB, and a name ending in ".stl" in any letter case.  If its bytes
    begin with "solid", the loop of the text rules counted between 1 and
    1000000 triangles; otherwise its declared count N is between 1 and
    1000000 and its size is exactly 84 + 50 N. *)
Theorem accepted_file_shape (pyfloat : str -> option float) (decode : list byte -> str)
    (repr_float : float -> str) (file : stl_file) :
  validate_file pyfloat decode repr_float file = Ret (true, None) ->
  f_exists file = true
  /\ MIN_FILE_SIZE <= st_size file <= MAX_FILE_SIZE
  /\ lower (f_suffix file) = lit ".stl"
  /\ (if bytes_startswith solid_bytes (f_data file)
      then exists n, counted pyfloat decode file = Ret (Counted n) /\ 1 <= n <= 1000000
      else 0 < declared_count (f_data file) <= 1000000
           /\ st_size file = 84 + 50 * declared_count (f_data file)).
Proof. apply validate_file_accepted. Qed.

Lemma accepted_file_shape_witness :
  0 < declared_count (f_data (one_triangle [x00; x00; x80; x3f])) <= 1000000
  /\ st_size (one_triangle [x00; x00; x80; x3f])
     = 84 + 50 * declared_count (f_data (one_triangle [x00; x00; x80; x3f])).
Proof.
  destruct (accepted_file_shape TimeParser.float_of_digits decode_ascii repr_whole
              (one_triangle [x00; x00; x80; x3f])) as (_ & _ & _ & H).
  - vm_compute. reflexivity.
  - exact H.
Defined.

(** The loop of the text rules ends on every text, within as many rounds
    as the text has lines, and without raising: with a rejection, or with
    a count n of triangles for which the text has at least 7 n + 1 lines. *)
Theorem text_loop_ends (pyfloat : str -> option float) (decode : list byte -> str)
    (file : stl_file) :
  (exists v, counted pyfloat decode file = Ret (Returned v) /\ rejection v)
  \/ (exists n, counted pyfloat decode file = Ret (Counted n)
                /\ 0 <= n
                /\ 7 * n + 1 <= Z.of_nat (length (text_lines (decode (f_data file))))).
Proof. apply counted_ends. Qed.

(** The binary rules look at the length of the file and at its first 584
    bytes, the header, the count and ten triangle records, at nothing
    else: two files of the same length that agree on these bytes, read
    under the same conditions, get the same verdict. *)
Theorem binary_looks_at_prefix (repr_float : float -> str) (file file' : stl_file) :
  (forall c, f_fault file' c = f_fault file c) ->
  length (f_data file') = length (f_data file) ->
  take 584 (f_data file') = take 584 (f_data file) ->
  _validate_binary_stl repr_float file' = _validate_binary_stl repr_float file.
Proof. apply binary_same. Qed.

Lemma binary_looks_at_prefix_witness :
  _validate_binary_stl repr_whole (Samples.eleven_triangles [x00; x50; xc3; x47])
  = Ret (true, None).
Proof.
  rewrite (binary_looks_at_prefix repr_whole
             (Samples.eleven_triangles [x00; x00; x00; x00])
             (Samples.eleven_triangles [x00; x50; xc3; x47])).
  - vm_compute. reflexivity.
  - intros c. reflexivity.
  - reflexivity.
  - reflexivity.
Defined.

End ValidatorMore.

(* ===================================================================== *)
(** ** The text rules: lines between face blocks                           *)
(* ===================================================================== *)

Module AsciiMore.
Import Validator ValidatorFacts TextFacts AsciiFacts.

Section WithBuiltins.
Variable pyfloat : str -> option float.
Variable decode : list byte -> str.
Variable file : stl_file.

(** Lines that do not begin a face block, put between two runs of face
    blocks, are stepped over. *)
Lemma scan_with_extra_lines (first final : str) (before after : list facet)
    (extra : list str) :
  Forall (facet_ok pyfloat) before -> Forall (facet_ok pyfloat) after ->
  Forall (fun l => startswith "facet normal" (strip l) = false) extra ->
  let lines := first :: (flat_map facet_lines before ++ extra
                         ++ flat_map facet_lines after) ++ [final] in
  scan_facets pyfloat (length lines) lines 1 0
  = Ret (Counted (Z.of_nat (length before + length after))).
Proof.
  intros Hbefore Hafter Hextra lines.
  assert (Hshape : lines = [first] ++ flat_map facet_lines before
                           ++ (extra ++ flat_map facet_lines after ++ [final])).
  { unfold lines. cbn [app]. rewrite <- !app_assoc. done. }
  assert (Hlen : length lines
                 = (length before + (length extra + (length after
                    + S (6 * (length before + length after) + 1))))%nat).
  { rewrite Hshape, !length_app, !length_blocks. simpl. lia. }
  rewrite Hlen. clearbody lines. subst lines.
  change 1%nat with (length [first]) at 1.
  rewrite scan_blocks; [|destruct extra, (flat_map facet_lines after); done|done].
  rewrite app_assoc.
  replace (length [first] + 7 * length before)%nat
    with (length ([first] ++ flat_map facet_lines before))
    by (rewrite length_app, length_blocks; done).
  rewrite scan_skips; [| destruct (flat_map facet_lines after); done | done].
  rewrite app_assoc.
  replace (length ([first] ++ flat_map facet_lines before) + length extra)%nat
    with (length (([first] ++ flat_map facet_lines before) ++ extra))
    by (rewrite !length_app; done).
  rewrite scan_blocks by done.
  rewrite scan_end; [f_equal; f_equal; lia|].
  rewrite !length_app, !length_blocks. simpl. lia.
Qed.

Lemma extra_lines_verdict (name e trailer : str) (before after : list facet)
    (extra : list str) :
  well_formed pyfloat name (before ++ after) e trailer ->
  1 <= Z.of_nat (length (before ++ after)) <= 1000000 ->
  Forall (fun l => no_newline l = true
                   /\ startswith "facet normal" (strip l) = false) extra ->
  readable_text file ->
  decode (f_data file)
  = text_of ((lit "solid" ++ name)
             :: (flat_map facet_lines before ++ extra ++ flat_map facet_lines after)
             ++ [lit "endsolid" ++ e]) trailer ->
  counted pyfloat decode file = Ret (Counted (Z.of_nat (length (before ++ after))))
  /\ _validate_ascii_stl pyfloat decode file = Ret (true, None).
Proof.
  intros (Hname & He & Ht & Hfs) HN Hextra [Hopen Hread] Hdecode.
  apply Forall_app in Hfs as [Hb Ha].
  assert (Hmid : Forall (fun l => no_newline l = true)
                   (flat_map facet_lines before ++ extra ++ flat_map facet_lines after)).
  { rewrite !Forall_app. repeat split.
    - apply (blocks_no_newline pyfloat). done.
    - eapply Forall_impl; [exact Hextra|]. intros l [Hl _]. exact Hl.
    - apply (blocks_no_newline pyfloat). done. }
  assert (Hskip : Forall (fun l => startswith "facet normal" (strip l) = false) extra).
  { eapply Forall_impl; [exact Hextra|]. intros l [_ Hl]. exact Hl. }
  pose proof (scan_with_extra_lines (lit "solid" ++ name) (lit "endsolid" ++ rstrip e)
                before after extra Hb Ha Hskip) as Hscan. cbv zeta in Hscan.
  rewrite length_app in *.
  split.
  - rewrite (counted_document pyfloat decode file name _ e trailer Hdecode) by done.
    exact Hscan.
  - rewrite (ascii_reduces pyfloat decode file name _ e trailer Hopen Hread Hdecode) by done.
    match goal with
    | |- context [?m ≫= _] =>
        replace m with (Ret (Counted (Z.of_nat (length before + length after))))
          by (symmetry; exact Hscan)
    end.
    rewrite ret_bind.
    destruct (Z.eqb_spec (Z.of_nat (length before + length after)) 0) as [H0|_]; [lia|].
    destruct (Z.ltb_spec 1000000 (Z.of_nat (length before + length after))) as [H1|_];
      [lia|]. done.
Qed.

End WithBuiltins.

(** Lines between two face blocks of a well-formed text (comments, empty
    lines, anything that does not begin with "facet normal" once
    stripped) change nothing: the file is accepted and the triangles
    counted are those of the face blocks. *)
Theorem lines_between_facets_ignored (pyfloat : str -> option float)
    (decode : list byte -> str) (file : stl_file)
    (name e trailer : str) (before after : list facet) (extra : list str) :
  well_formed pyfloat name (before ++ after) e trailer ->
  1 <= Z.of_nat (length (before ++ after)) <= 1000000 ->
  Forall (fun l => no_newline l = true
                   /\ startswith "facet normal" (strip l) = false) extra ->
  readable_text file ->
  decode (f_data file)
  = text_of ((lit "solid" ++ name)
             :: (flat_map facet_lines before ++ extra ++ flat_map facet_lines after)
             ++ [lit "endsolid" ++ e]) trailer ->
  counted pyfloat decode file = Ret (Counted (Z.of_nat (length (before ++ after))))
  /\ _validate_ascii_stl pyfloat decode file = Ret (true, None).
Proof. apply extra_lines_verdict. Qed.

Lemma lines_between_facets_ignored_witness :
  counted TimeParser.float_of_digits decode_ascii (text_file Samples.commented_lines)
  = Ret (Counted 2)
  /\ _validate_ascii_stl TimeParser.float_of_digits decode_ascii
       (text_file Samples.commented_lines) = Ret (true, None).
Proof.
  apply (lines_between_facets_ignored TimeParser.float_of_digits decode_ascii
           (text_file Samples.commented_lines) " cube" " cube" [newline]
           [flat_facet] [flat_facet] [lit "  ; second face"; lit ""]).
  - repeat split; try reflexivity.
    repeat constructor; try reflexivity; try discriminate; vm_compute; eauto.
  - simpl. lia.
  - repeat constructor.
  - split; reflexivity.
  - reflexivity.
Defined.

End AsciiMore.

(* ===================================================================== *)
(** ** The duration parser: repeated units, letter case, commas            *)
(* ===================================================================== *)

Module TimeParserMore.
Import TimeParser TimeParserFacts.

Lemma lower_char_idem (c : ascii) : lower_char (lower_char c) = lower_char c.
Proof. destruct c as [[] [] [] [] [] [] [] []]; reflexivity. Qed.

Lemma lower_idem (s : str) : lower (lower s) = lower s.
Proof.
  unfold lower. rewrite map_map. apply map_ext. intros c. apply lower_char_idem.
Qed.

Lemma lower_char_comma (c : ascii) : eqc (lower_char c) "," = eqc c ",".
Proof. destruct c as [[] [] [] [] [] [] [] []]; reflexivity. Qed.

(** Taking the commas out and lowering the case can be done in either
    order. *)
Lemma lower_replace_comma (s : str) :
  lower (replace_char "," [] s) = replace_char "," [] (lower s).
Proof.
  induction s as [|c s IH]; [done|].
  cbn [replace_char flat_map lower map]. rewrite lower_char_comma.
  destruct (eqc c ","); cbn [app]; [exact IH|].
  unfold lower in IH. cbn [map]. f_equal. exact IH.
Qed.

Lemma replace_comma_idem (s : str) :
  replace_char "," [] (replace_char "," [] s) = replace_char "," [] s.
Proof.
  induction s as [|c s IH]; [done|].
  cbn [replace_char flat_map]. destruct (eqc c ",") eqn:Hc; cbn [app]; [exact IH|].
  cbn [flat_map]. rewrite Hc. cbn [app]. f_equal. exact IH.
Qed.

Section WithFloat.
Variable pyfloat : str -> option float.

(** After the loop, a unit holds the number of its last token. *)
Lemma fold_store_last u toks acc :
  get_unit u (fold_left (store pyfloat) toks acc) =
  match find (fun t => unit_eqb t.2 u) (rev toks) with
  | Some t => token_value pyfloat t
  | None => get_unit u acc
  end.
Proof.
  induction toks as [|t toks IH] using rev_ind; [done|].
  rewrite fold_left_app, rev_app_distr. cbn [fold_left rev app find].
  unfold store at 1. rewrite get_set_unit.
  destruct (unit_eqb t.2 u); [done | exact IH].
Qed.

Lemma parse_render_last toks :
  Forall (fun t => numeral pyfloat t.1) toks ->
  _parse_time_string pyfloat (render toks) = Ret (fractional_hours pyfloat (rev toks)).
Proof.
  intros Hall. unfold _parse_time_string.
  rewrite (render_normal pyfloat) by done. unfold render.
  rewrite split_ws_join by (apply (render_chars pyfloat); done).
  rewrite (parse_parts_tokens pyfloat) by done. simpl.
  unfold to_hours, fractional_hours, amount. f_equal.
  pose proof (fold_store_last UH toks (mk_hms 0 0 0)) as HH.
  pose proof (fold_store_last UM toks (mk_hms 0 0 0)) as HM.
  pose proof (fold_store_last US toks (mk_hms 0 0 0)) as HS.
  simpl in HH, HM, HS. rewrite HH, HM, HS. unfold token_value. done.
Qed.

Lemma parse_lower (s : str) :
  _parse_time_string pyfloat (lower s) = _parse_time_string pyfloat s.
Proof. unfold _parse_time_string. rewrite lower_idem. done. Qed.

Lemma parse_without_commas (s : str) :
  _parse_time_string pyfloat (replace_char "," [] s) = _parse_time_string pyfloat s.
Proof.
  unfold _parse_time_string. rewrite lower_replace_comma, replace_comma_idem. done.
Qed.

End WithFloat.

(** A unit given more than once does not add up: for a string of tokens
    [<number>h], [<number>m], [<number>s] in any order and number, the
    parser returns [h + m/60 + s/3600] where each of h, m and s is the
    number of the last token of its unit, or zero without one. *)
Theorem last_token_of_a_unit_wins (pyfloat : str -> option float) (toks : list token) :
  Forall (fun t => numeral pyfloat t.1) toks ->
  _parse_time_string pyfloat (render toks) = Ret (fractional_hours pyfloat (rev toks)).
Proof. apply parse_render_last. Qed.

Lemma last_token_of_a_unit_wins_witness :
  _parse_time_string float_of_digits "30m 1h 15m" = Ret 1.25%float.
Proof.
  pose proof (last_token_of_a_unit_wins float_of_digits
                [(lit "30", UM); (lit "1", UH); (lit "15", UM)]) as H.
  refine (eq_trans (H _) _).
  - repeat constructor; vm_compute; eauto.
  - reflexivity.
Defined.

(** The parser does not tell upper from lower case and drops commas
    wherever they stand: a string, the string in lower case and the
    string without its commas give the same result. *)
Theorem parse_ignores_case_and_commas (pyfloat : str -> option float) (s : str) :
  _parse_time_string pyfloat (lower s) = _parse_time_string pyfloat s
  /\ _parse_time_string pyfloat (replace_char "," [] s) = _parse_time_string pyfloat s.
Proof. split; [apply parse_lower | apply parse_without_commas]. Qed.

End TimeParserMore.

(* ===================================================================== *)
(** ** The configuration file                                              *)
(* ===================================================================== *)

Module ConfigFacts.
Import Config.

Ltac has_key :=
  unfold _get_default_config; cbn [map fst];
  repeat first [apply list_elem_of_here | apply list_elem_of_further].

Lemma str_eqb_true (a b : str) : str_eqb a b = true <-> a = b.
Proof. unfold str_eqb. apply bool_decide_eq_true. Qed.



Lemma dict_get_set_other (k k' : str) (v : value) (d : dict) :
  k' <> k -> dict_get k' (dict_set k v d) = dict_get k' d.
Proof.
  intros Hne. induction d as [|[k0 v0] d IH]; cbn [dict_set dict_get].
  - destruct (str_eqb k k') eqn:Hk; [|done]. apply str_eqb_true in Hk. congruence.
  - destruct (str_eqb k0 k) eqn:Hk; cbn [dict_get].
    + apply str_eqb_true in Hk. subst k0.
      destruct (str_eqb k k') eqn:Hk'; [|done]. apply str_eqb_true in Hk'. congruence.
    + rewrite IH. done.
Qed.

Section WithRepr.
Variable repr_float : float -> str.


Lemma copy_setting_other ps (key target k : str) f (config : dict) :
  k <> target -> dict_get k (copy_setting ps key target f config) = dict_get k config.
Proof.
  intros Hne. unfold copy_setting. destruct (ps !! key); [|done].
  apply dict_get_set_other. done.
Qed.

Lemma copy_setting_same ps ps' (key target : str) f (config : dict) :
  ps !! key = ps' !! key ->
  copy_setting ps key target f config = copy_setting ps' key target f config.
Proof. unfold copy_setting. intros ->. done. Qed.



Lemma updated_config_untouched ps (k : str) :
  k ∉ written_keys ->
  dict_get k (updated_config repr_float ps) = dict_get k _get_default_config.
Proof.
  intros Hk. unfold updated_config. cbv zeta.
  rewrite !copy_setting_other; [done|..];
    intros ->; apply Hk; unfold written_keys; has_key.
Qed.

Lemma updated_config_same ps ps' :
  Forall (fun k : str => ps !! k = ps' !! k) read_keys ->
  updated_config repr_float ps = updated_config repr_float ps'.
Proof.
  intros Hall. unfold read_keys in Hall.
  repeat (apply Forall_cons in Hall as [? Hall]).
  unfold updated_config, copy_setting. cbv zeta.
  repeat match goal with
         | H : ps !! _ = ps' !! _ |- _ => rewrite H; clear H
         end.
  done.
Qed.

End WithRepr.


(** Only six settings are read: two settings dictionaries that agree on
    layer_height, infill_density, infill_pattern, supports,
    nozzle_temperature and bed_temperature give the same file; and every
    key of the configuration other than the six written ones keeps its
    default, so the print speed of the configuration is 50 whatever the
    settings say. *)
Theorem other_settings_ignored (repr_float : float -> str) (temp_path : str)
    (ps ps' : gmap (list ascii) value) (opened : res unit) :
  Forall (fun k : str => ps !! k = ps' !! k) read_keys ->
  _create_config_file repr_float temp_path ps opened
  = _create_config_file repr_float temp_path ps' opened
  /\ (forall k : str, k ∉ written_keys ->
        dict_get k (updated_config repr_float ps) = dict_get k _get_default_config)
  /\ dict_get "print_speed" (updated_config repr_float ps) = Some (VStr "50").
Proof.
  intros Hall. split; [|split].
  - unfold _create_config_file. rewrite (updated_config_same repr_float ps ps' Hall). done.
  - intros k Hk. apply updated_config_untouched. done.
  - rewrite updated_config_untouched; [done|].
    intros Hin. unfold written_keys in Hin.
    repeat (apply elem_of_cons in Hin as [Hin|Hin]; [discriminate Hin|]).
    apply elem_of_nil in Hin. done.
Qed.

Lemma other_settings_ignored_witness :
  _create_config_file Validator.repr_whole "/tmp/tmpx"
    (settings_dict 0.2%float 20 "grid" false "skirt" "PLA" 210 60 200) (Ret tt)
  = _create_config_file Validator.repr_whole "/tmp/tmpx"
      (settings_dict 0.2%float 20 "grid" false "brim" "PETG" 210 60 50) (Ret tt).
Proof.
  apply (other_settings_ignored Validator.repr_whole "/tmp/tmpx"
           (settings_dict 0.2%float 20 "grid" false "skirt" "PLA" 210 60 200)
           (settings_dict 0.2%float 20 "grid" false "brim" "PETG" 210 60 50) (Ret tt)).
  repeat constructor.
Defined.

End ConfigFacts.

(* ===================================================================== *)
(** ** The metrics of the G-code                                           *)
(* ===================================================================== *)

Module GcodeFacts.
Import Runner Gcode.

Lemma split_on_absent (c : ascii) (s : str) :
  contains_char c s = false -> split_on c s = [s].
Proof.
  induction s as [|x s IH]; cbn [split_on contains_char existsb]; [done|].
  intros [Hx Hs]%orb_false_iff. rewrite eqc_sym, Hx.
  unfold contains_char in IH. rewrite (IH Hs). done.
Qed.

Section WithFloat.
Variable pyfloat : str -> option float.

Lemma parse_line_plain (metrics : PrintMetrics) (raw : str) :
  plain_line raw -> parse_line pyfloat metrics raw = Ret metrics.
Proof. intros (Hf & Ht & Hs). unfold parse_line. rewrite Hf, Ht, Hs. done. Qed.

Lemma parse_lines_plain (metrics : PrintMetrics) (extra rest : list str) :
  Forall plain_line extra ->
  parse_lines pyfloat metrics (extra ++ rest) = parse_lines pyfloat metrics rest.
Proof.
  induction extra as [|l extra IH]; intros Hall; [done|].
  apply Forall_cons in Hall as [Hl Hall].
  cbn [app parse_lines]. rewrite parse_line_plain by done. apply IH. done.
Qed.

Lemma parse_lines_between (metrics : PrintMetrics) (before extra rest : list str) :
  Forall plain_line extra ->
  parse_lines pyfloat metrics (before ++ extra ++ rest)
  = parse_lines pyfloat metrics (before ++ rest).
Proof.
  intros Hall. revert metrics.
  induction before as [|l before IH]; intros metrics.
  - cbn [app]. apply parse_lines_plain. done.
  - cbn [app parse_lines]. destruct (parse_line pyfloat metrics l); [apply IH | done].
Qed.

Lemma parse_lines_break (metrics : PrintMetrics) (before rest : list str) (raw : str) :
  breaking_line pyfloat raw ->
  parse_lines pyfloat metrics (before ++ raw :: rest) = parse_lines pyfloat metrics before.
Proof.
  intros [e He]. revert metrics. induction before as [|l before IH]; intros metrics.
  - cbn [app parse_lines]. rewrite He. done.
  - cbn [app parse_lines]. destruct (parse_line pyfloat metrics l); [apply IH | done].
Qed.

(** A filament line whose number [float] does not read. *)
Lemma filament_line_breaks (raw piece : str) :
  startswith "; filament used [mm] =" (strip raw) = true ->
  Validator.item (split_on "=" (strip raw)) 1 = Ret piece ->
  pyfloat (strip piece) = None ->
  breaking_line pyfloat raw.
Proof.
  intros Hf Hitem Hnum. eexists. intros metrics.
  unfold parse_line. rewrite Hf, Hitem. cbn. unfold TimeParser.py_float. rewrite Hnum.
  reflexivity.
Qed.

(** A line of the printing time without an equals sign. *)
Lemma time_line_breaks (raw : str) :
  startswith "; filament used [mm] =" (strip raw) = false ->
  startswith "; estimated printing time" (strip raw) = true ->
  contains_char "=" (strip raw) = false ->
  breaking_line pyfloat raw.
Proof.
  intros Hf Ht Heq. eexists. intros metrics.
  unfold parse_line. rewrite Hf, Ht, (split_on_absent "=" _ Heq). reflexivity.
Qed.

Lemma parse_line_supports (metrics metrics' : PrintMetrics) (raw : str) :
  parse_line pyfloat metrics raw = Ret metrics' ->
  (supports_required metrics = true -> supports_required metrics' = true)
  /\ (supports_required metrics' = true ->
      supports_required metrics = true
      \/ (contains "support" (lower (strip raw)) && contains "enable" (lower (strip raw)))
         = true).
Proof.
  unfold parse_line.
  destruct (startswith "; filament used [mm] =" (strip raw)).
  { destruct (Validator.item _ 1) as [piece|]; [|done]. cbn.
    destruct (TimeParser.py_float pyfloat (strip piece)); [|done]. cbn.
    intros [= <-]. cbn. auto. }
  destruct (startswith "; estimated printing time" (strip raw)).
  { destruct (Validator.item _ 1) as [piece|]; [|done]. cbn.
    destruct (TimeParser._parse_time_string pyfloat (strip piece)); [|done]. cbn.
    intros [= <-]. cbn. auto. }
  destruct (contains _ _ && contains _ _); intros [= <-]; cbn; auto.
Qed.

Lemma parse_lines_supports (metrics : PrintMetrics) (lines : list str) :
  (supports_required metrics = true ->
   supports_required (parse_lines pyfloat metrics lines) = true)
  /\ (supports_required (parse_lines pyfloat metrics lines) = true ->
      supports_required metrics = true
      \/ Exists (fun raw => (contains "support" (lower (strip raw))
                             && contains "enable" (lower (strip raw))) = true) lines).
Proof.
  revert metrics. induction lines as [|l lines IH]; intros metrics.
  { cbn. auto. }
  cbn [parse_lines].
  destruct (parse_line pyfloat metrics l) as [metrics'|e] eqn:Hl; [|auto].
  destruct (parse_line_supports metrics metrics' l Hl) as [Hkeep Hfrom].
  destruct (IH metrics') as [IHkeep IHfrom]. split.
  - auto.
  - intros H. destruct (IHfrom H) as [H'|H'].
    + destruct (Hfrom H') as [?|?]; [auto | right; apply Exists_cons_hd; done].
    + right. apply Exists_cons_tl. done.
Qed.

(** The lines of a text made of lines without line breaks. *)
Lemma split_on_join (lines : list str) :
  lines <> [] -> Forall (fun l => Validator.no_newline l = true) lines ->
  split_on "010"%char (join ["010"%char] lines) = lines.
Proof.
  induction lines as [|l lines IH]; intros Hne Hall; [done|].
  apply Forall_cons in Hall as [Hl Hall].
  destruct lines as [|l' lines].
  - cbn [join]. apply TextFacts.split_on_whole. done.
  - change (join ["010"%char] (l :: l' :: lines))
      with (l ++ "010"%char :: join ["010"%char] (l' :: lines)).
    pose proof (TextFacts.split_on_line l (join ["010"%char] (l' :: lines)) Hl) as H.
    unfold Validator.newline in H. rewrite H, IH; done.
Qed.

Lemma gcode_of_lines (lines : list str) :
  Forall (fun l => Validator.no_newline l = true) lines ->
  _parse_gcode_metrics pyfloat (Ret (join ["010"%char] lines))
  = parse_lines pyfloat initial_metrics lines.
Proof.
  intros Hall. unfold _parse_gcode_metrics. destruct lines as [|l lines]; [done|].
  rewrite split_on_join; done.
Qed.

End WithFloat.

(** Lines that are neither of the two comments read nor mention both
    "support" and "enable" can be put anywhere in the G-code without
    changing the metrics. *)
Theorem plain_gcode_lines_ignored (pyfloat : str -> option float)
    (before extra rest : list str) :
  Forall (fun l => Validator.no_newline l = true) (before ++ extra ++ rest) ->
  Forall plain_line extra ->
  _parse_gcode_metrics pyfloat (Ret (join ["010"%char] (before ++ extra ++ rest)))
  = parse_lines pyfloat initial_metrics (before ++ rest).
Proof.
  intros Hnl Hplain. rewrite gcode_of_lines by done.
  apply parse_lines_between. done.
Qed.

Lemma plain_gcode_lines_ignored_witness :
  _parse_gcode_metrics TimeParser.float_of_digits (Ret sample_gcode)
  = mk_metrics (grams_of_mm 1000) 1.5 0 1 false.
Proof.
  refine (eq_trans
            (plain_gcode_lines_ignored TimeParser.float_of_digits
               [lit "G1 X10 Y10 E0.5"; lit "; filament used [mm] = 1000";
                lit "; estimated printing time (normal mode) = 1h 30m"]
               [lit "; support_material = 0"; lit "M84"] [] _ _) _).
  - repeat constructor.
  - repeat constructor.
  - vm_compute. reflexivity.
Defined.

(** A filament comment whose number cannot be read, or a printing-time
    comment without an equals sign, ends the parsing: the metrics are
    those read from the lines before it, and no line after it counts. *)
Theorem malformed_line_ends_parsing (pyfloat : str -> option float)
    (before rest : list str) (raw : str) :
  Forall (fun l => Validator.no_newline l = true) (before ++ raw :: rest) ->
  (startswith "; filament used [mm] =" (strip raw) = true
   /\ exists piece, Validator.item (split_on "=" (strip raw)) 1 = Ret piece
                    /\ pyfloat (strip piece) = None)
  \/ (startswith "; filament used [mm] =" (strip raw) = false
      /\ startswith "; estimated printing time" (strip raw) = true
      /\ contains_char "=" (strip raw) = false) ->
  _parse_gcode_metrics pyfloat (Ret (join ["010"%char] (before ++ raw :: rest)))
  = parse_lines pyfloat initial_metrics before.
Proof.
  intros Hnl Hbad. rewrite gcode_of_lines by done.
  apply parse_lines_break.
  destruct Hbad as [(Hf & piece & Hitem & Hnum)|(Hf & Ht & Heq)].
  - eapply filament_line_breaks; done.
  - apply time_line_breaks; done.
Qed.

Lemma malformed_line_ends_parsing_witness :
  _parse_gcode_metrics TimeParser.float_of_digits
    (Ret (join ["010"%char]
            [lit "; filament used [mm] = 1000";
             lit "; estimated printing time";
             lit "; filament used [mm] = 2000"]))
  = mk_metrics (grams_of_mm 1000) 0 0 1 false.
Proof.
  refine (eq_trans
            (malformed_line_ends_parsing TimeParser.float_of_digits
               [lit "; filament used [mm] = 1000"] [lit "; filament used [mm] = 2000"]
               (lit "; estimated printing time") _ _) _).
  - repeat constructor.
  - right. repeat split; reflexivity.
  - vm_compute. reflexivity.
Defined.

(** The flag [supports_required] is set only by a line that mentions both
    "support" and "enable", in any letter case; a file that cannot be read
    leaves it unset. *)
Theorem supports_flag_needs_a_line (pyfloat : str -> option float) (content : res str) :
  supports_required (_parse_gcode_metrics pyfloat content) = true ->
  exists text,
    content = Ret text
    /\ Exists (fun raw => (contains "support" (lower (strip raw))
                           && contains "enable" (lower (strip raw))) = true)
              (split_on "010"%char text).
Proof.
  unfold _parse_gcode_metrics. destruct content as [text|e]; [|done].
  intros H. exists text. split; [done|].
  destruct (proj2 (parse_lines_supports pyfloat initial_metrics _) H) as [Hinit|Hex];
    [done | exact Hex].
Qed.

Lemma supports_flag_needs_a_line_witness :
  Exists (fun raw => (contains "support" (lower (strip raw))
                      && contains "enable" (lower (strip raw))) = true)
         (split_on "010"%char (lit "; Support material: ENABLED")).
Proof.
  destruct (supports_flag_needs_a_line TimeParser.float_of_digits
              (Ret (lit "; Support material: ENABLED"))) as (text & Htext & Hex).
  - vm_compute. reflexivity.
  - injection Htext as <-. exact Hex.
Defined.

End GcodeFacts.
